(** * Product controller of the point-of-sale back end

    A shallow embedding of [productController] (getProducts,
    getProductImageById, createProduct, editProductById,
    deleteProductById) over an explicit model of the relational store the
    controller talks to through Sequelize.

    Conventions of the embedding:
    - a JS object with scalar fields (the attribute part of [req.body],
      the non-key columns of a Product row) is a [gmap string value];
    - every store call of the two mutations receives the transaction
      handle [t]; here the store is threaded through a state-and-error
      monad [M], and [transaction] is the managed transaction of
      Sequelize: the callback's writes are kept when it returns and undone
      when it throws;
    - [await] is sequencing in [M]; a [throw] is the left injection;
    - what the store decides and the source does not (the image
      normalizer, the constraints of the tables, the [LIKE] operator, the
      collation of texts, the order of rows with equal keys) is a variable
      of the section. *)

From Stdlib Require Import ZArith String Ascii List.
From Stdlib.Strings Require Import Byte.
From stdpp Require Import base option list strings gmap sorting.

Local Open Scope string_scope.
Local Open Scope Z_scope.

(** ** Values and rows *)

(** Scalar JS values as they occur in a decoded request body and in the
    columns of a row. [VBuf] is a Node [Buffer]. *)
Inductive value :=
| VNull
| VBool (b : bool)
| VNum (n : Z)
| VStr (s : string)
| VBuf (b : list byte).

Abbreviation object := (gmap string value).

(** A Product row: the primary key and the remaining columns by name. An
    absent column is SQL NULL. *)
Record Product := { p_id : Z; p_cols : object }.

Record Category := { c_id : Z; c_name : string; c_image : option (list byte) }.

(** A Variant row; [v_productId] is the foreign key to its owner. *)
Record Variant := {
  v_id : Z;
  v_name : option string;
  v_price : option Z;
  v_stock : option Z;
  v_productId : option Z }.

(** One element of [req.body.variants]: its [id] and the three fields the
    Variant writes list. *)
Record VariantInput := {
  vi_id : option Z;
  vi_name : option string;
  vi_price : option Z;
  vi_stock : option Z }.

(** The tables the controller reads and writes. [ProductCategories] is the
    junction table of the Product/Category association, as rows
    (productId, categoryId). [Product_seq] and [Variant_seq] are the
    auto-increment counters: the key the next insert without an explicit
    key receives. *)
Record Store := {
  Products : list Product;
  Categories : list Category;
  Variants : list Variant;
  ProductCategories : list (Z * Z);
  Product_seq : Z;
  Variant_seq : Z }.

(** ** Errors and the transaction monad *)

(** What a step can throw: the controller's own [ResponseError], the
    TypeError of a property read on [undefined] or [null], a rejection by
    the image normalizer, an error of the store. *)
Inductive Error :=
| ResponseError (message : string) (status : Z)
| TypeError (message : string)
| SharpError
| DatabaseError (message : string).

(** The error kinds of the specification (its section 7). *)
Inductive ErrorKind := InvalidInput | InvalidReference | NotFound | Internal.

(** Modelled from the spec: the kind of what the controller throws, which
    [sendResponse] and the routing layer (not among the sources) derive.
    The status of a [ResponseError] is the status category (404 is
    not-found, 400 is bad-input); within bad-input the message tells an
    empty payload from an identity that does not resolve. *)
Definition error_kind (e : Error) : ErrorKind :=
  match e with
  | ResponseError msg status =>
      if bool_decide (status = 404) then NotFound
      else if bool_decide (status = 400) then
        if bool_decide (msg = "no data provided") then InvalidInput
        else InvalidReference
      else Internal
  | _ => Internal
  end.

Definition M (A : Type) : Type := Store → (Error + A) * Store.

Global Instance M_ret : MRet M := λ A a s, (inr a, s).
Global Instance M_bind : MBind M := λ A B f m s,
  match m s with
  | (inr a, s') => f a s'
  | (inl e, s') => (inl e, s')
  end.

Definition throw {A} (e : Error) : M A := λ s, (inl e, s).
Definition gets {A} (f : Store → A) : M A := λ s, (inr (f s), s).
Definition modify (f : Store → Store) : M unit := λ s, (inr tt, f s).

(** [for (const x of l) { await f x }] *)
Fixpoint for_of {A} (l : list A) (f : A → M unit) : M unit :=
  match l with
  | [] => mret tt
  | x :: l' => f x ;; for_of l' f
  end.

(** The rows of the four tables, which is what a transaction protects. *)
Definition tables (s : Store) :=
  (Products s, Categories s, Variants s, ProductCategories s).

(** The store after a rollback: the rows as they were at [entry]; keys that
    the aborted writes drew from the counters are not handed out again. *)
Definition rollback (entry aborted : Store) : Store :=
  {| Products := Products entry; Categories := Categories entry;
     Variants := Variants entry; ProductCategories := ProductCategories entry;
     Product_seq := Product_seq aborted; Variant_seq := Variant_seq aborted |}.

(** [sequelize.transaction(async (t) => { ... })]: commit when the callback
    returns, roll back when it throws. *)
Definition transaction {A} (callback : M A) : M A := λ s,
  match callback s with
  | (inr a, s') => (inr a, s')
  | (inl e, s') => (inl e, rollback s s')
  end.

(** ** JS helpers *)

(** Truthiness of an optional id field: [!!variant?.id]. An absent id, and
    the number 0, are falsy. *)
Definition truthy_id (o : option Z) : bool :=
  match o with
  | Some n => negb (n =? 0)
  | None => false
  end.

(** Truthiness of a value: [null], [false], [0] and the empty
    string are falsy; a Buffer, also an empty one, is truthy. *)
Definition truthy (v : value) : bool :=
  match v with
  | VNull => false
  | VBool b => b
  | VNum n => negb (n =? 0)
  | VStr s => negb (bool_decide (s = ""))
  | VBuf _ => true
  end.

(** [s || d] on an optional query-string parameter: absent and the empty
    string are falsy. *)
Definition or_default (o : option string) (d : string) : string :=
  match o with
  | Some s => if bool_decide (s = "") then d else s
  | None => d
  end.

(** [+x || d] on a query-string parameter already read as a number ([None]
    when absent or not numeric): 0 and NaN are falsy. *)
Definition num_or (o : option Z) (d : Z) : Z :=
  match o with
  | Some n => if n =? 0 then d else n
  | None => d
  end.

(** Options objects carrying array-valued keys, such as
    [{ fields: ['name', 'price', 'stock'] }]. *)
Abbreviation options := (list (string * list string)).

Definition option_get (key : string) (opts : options) : option (list string) :=
  match list_find (λ kv, fst kv = key) opts with
  | Some (_, (_, v)) => Some v
  | None => None
  end.

(** ** The store operations behind the Sequelize calls *)

Definition set_Products (ps : list Product) (s : Store) : Store :=
  {| Products := ps; Categories := Categories s;
     Variants := Variants s; ProductCategories := ProductCategories s;
     Product_seq := Product_seq s; Variant_seq := Variant_seq s |}.

Definition set_Variants (vs : list Variant) (s : Store) : Store :=
  {| Products := Products s; Categories := Categories s;
     Variants := vs; ProductCategories := ProductCategories s;
     Product_seq := Product_seq s; Variant_seq := Variant_seq s |}.

Definition set_ProductCategories (ls : list (Z * Z)) (s : Store) : Store :=
  {| Products := Products s; Categories := Categories s;
     Variants := Variants s; ProductCategories := ls;
     Product_seq := Product_seq s; Variant_seq := Variant_seq s |}.

Definition set_Product_seq (n : Z) (s : Store) : Store :=
  {| Products := Products s; Categories := Categories s;
     Variants := Variants s; ProductCategories := ProductCategories s;
     Product_seq := n; Variant_seq := Variant_seq s |}.

Definition set_Variant_seq (n : Z) (s : Store) : Store :=
  {| Products := Products s; Categories := Categories s;
     Variants := Variants s; ProductCategories := ProductCategories s;
     Product_seq := Product_seq s; Variant_seq := n |}.

(** Modelled from the spec: the attributes of the Product model, whose
    declaration (models/) is not among the sources: identity, name,
    description, image, active flag and the two timestamps. *)
Definition Product_attributes : list string :=
  ["id"; "name"; "description"; "image"; "isActive"; "createdAt"; "updatedAt"].

(** The entries of [values] whose key is listed in [fields]. *)
Definition pick (fields : list string) (values : object) : object :=
  filter (λ kv, kv.1 ∈ fields) values.

(** What a write of [values] under [opts] stores: Sequelize reads the key
    [fields] of the options and, when it is absent, writes every attribute
    of the model that [values] carries. *)
Definition written (opts : options) (values : object) : object :=
  pick Product_attributes
    (match option_get "fields" opts with
     | Some fs => pick fs values
     | None => values
     end).

Definition explicit_id (w : object) : option Z :=
  match w !! "id" with
  | Some (VNum n) => Some n
  | _ => None
  end.

Definition restrict (fields : list string) (v : VariantInput) : VariantInput :=
  {| vi_id := None;
     vi_name := if bool_decide ("name" ∈ fields) then vi_name v else None;
     vi_price := if bool_decide ("price" ∈ fields) then vi_price v else None;
     vi_stock := if bool_decide ("stock" ∈ fields) then vi_stock v else None |}.

(** The row [v] after the fields that [r] carries are written to it. *)
Definition assign (r : VariantInput) (v : Variant) : Variant :=
  {| v_id := v_id v;
     v_name := from_option Some (v_name v) (vi_name r);
     v_price := from_option Some (v_price v) (vi_price r);
     v_stock := from_option Some (v_stock v) (vi_stock r);
     v_productId := v_productId v |}.

(** A new row for the input [r] under the key [id]. *)
Definition new_row (id : Z) (r : VariantInput) (owner : option Z) : Variant :=
  {| v_id := id; v_name := vi_name r; v_price := vi_price r;
     v_stock := vi_stock r; v_productId := owner |}.

(** The row [v] given to the product [owner]. *)
Definition owned_by (owner : option Z) (v : Variant) : Variant :=
  {| v_id := v_id v; v_name := v_name v; v_price := v_price v;
     v_stock := v_stock v; v_productId := owner |}.

Definition exclude_image (p : Product) : Product :=
  {| p_id := p_id p; p_cols := delete "image" (p_cols p) |}.

Definition exclude_category_image (c : Category) : Category :=
  {| c_id := c_id c; c_name := c_name c; c_image := None |}.

(** A product as the responses carry it: image excluded, with its linked
    categories (image excluded) and its variants. *)
Record ProductView := {
  pv_product : Product;
  pv_categories : list Category;
  pv_variants : list Variant }.

Definition view (s : Store) (p : Product) : ProductView :=
  {| pv_product := exclude_image p;
     pv_categories :=
       exclude_category_image <$>
         filter (λ c, (p_id p, c_id c) ∈ ProductCategories s) (Categories s);
     pv_variants := filter (λ v, v_productId v = Some (p_id p)) (Variants s) |}.

(** ** Requests and responses *)

(** The decoded [req.body] of a mutation: its scalar fields by name, the
    [categoryId] array and the [variants] array, each possibly absent. Keys
    are numbers; an [id] that is absent, [null] or [undefined] is [None]. *)
Record Body := {
  attrs : object;
  categoryId : option (list Z);
  variants : option (list VariantInput) }.

(** [req.params.id], [req.file.buffer] when a file was uploaded, [req.body],
    and the clock reading the store stamps rows with. *)
Record Request := {
  params_id : Z;
  file : option (list byte);
  body : Body;
  now : Z }.

Inductive Response (A : Type) :=
| Success (statusCode : Z) (data : A)
| Failure (error : Error).
Arguments Success {A} statusCode data.
Arguments Failure {A} error.

(** [sendResponse] after [try { await ... } catch (error) { ... }] *)
Definition respond {A} (m : M A) : Store → Response A * Store := λ s,
  match m s with
  | (inr data, s') => (Success 200 data, s')
  | (inl error, s') => (Failure error, s')
  end.

(** [req.body.image = ...] *)
Definition set_image (png : list byte) (b : Body) : Body :=
  {| attrs := <["image" := VBuf png]> (attrs b);
     categoryId := categoryId b; variants := variants b |}.

Definition own_key {A} (field : option A) : nat :=
  match field with
  | Some _ => 1
  | None => 0
  end.

(** [Object.keys(req.body).length] *)
Definition Object_keys_length (b : Body) : nat :=
  (size (attrs b) + own_key (categoryId b) + own_key (variants b))%nat.

Definition undefined_read {A} (prop : string) : M A :=
  throw (TypeError ("Cannot read properties of undefined (reading '" ++ prop ++ "')")).

Definition null_read {A} (prop : string) : M A :=
  throw (TypeError ("Cannot read properties of null (reading '" ++ prop ++ "')")).

Section Controller.

(** The collaborators that are not in the sources: the image normalizer
    ([sharp(buffer).png().toBuffer()], [None] when it rejects the buffer),
    the constraints the Product and Variant tables put on a write, and
    the [LIKE] operator of the store, which takes the pattern and the
    text and whose reading of letters is the collation's. *)
Variable sharp_png : list byte → option (list byte).
Variable Product_valid : object → bool.
Variable Variant_valid : VariantInput → bool.
Variable Op_like : string → string → bool.

(** [Product.create(values, opts)]: inserts one row. A numeric [id] among
    the written values is the row's key, otherwise the counter gives it;
    the timestamps are managed: [updatedAt] is the time of the write, and
    so is [createdAt] unless the values carry a truthy one. *)
Definition Product_create (values : object) (opts : options) (now : Z) : M Product :=
  let w := written opts values in
  if negb (Product_valid w) then throw (DatabaseError "Validation error") else
  ids ← gets (λ s, p_id <$> Products s);
  seq ← gets Product_seq;
  let id := default seq (explicit_id w) in
  modify (set_Product_seq (seq `max` (id + 1)));;
  if bool_decide (id ∈ ids) then throw (DatabaseError "PRIMARY must be unique") else
  let created := match w !! "createdAt" with
                 | Some v => if truthy v then v else VNum now
                 | None => VNum now
                 end in
  let p := {| p_id := id;
              p_cols := <["updatedAt" := VNum now]>
                          (<["createdAt" := created]> (delete "id" w)) |} in
  modify (λ s, set_Products (Products s ++ [p]) s);;
  mret p.

(** [Product.update(values, { where: { id }, ...opts })]: rewrites the
    written columns of the matching rows and answers how many matched.
    When the values to write are none, or [updatedAt] alone, Sequelize
    issues no statement and answers 0. Foreign keys in other tables are
    plain columns and are left alone. *)
Definition Product_update (values : object) (id : Z) (opts : options) (now : Z) : M Z :=
  let w := written opts values in
  if negb (Product_valid w) then throw (DatabaseError "Validation error") else
  if bool_decide (size (delete "updatedAt" w) = 0%nat) then mret 0 else
  ps ← gets Products;
  let matched := filter (λ p, p_id p = id) ps in
  let id' := default id (explicit_id w) in
  if bool_decide (matched ≠ [] ∧ id' ≠ id ∧ id' ∈ p_id <$> ps)
  then throw (DatabaseError "PRIMARY must be unique") else
  let upd p := if bool_decide (p_id p = id)
               then {| p_id := id';
                       p_cols := <["updatedAt" := VNum now]> (delete "id" w ∪ p_cols p) |}
               else p in
  modify (set_Products (upd <$> ps));;
  mret (Z.of_nat (length matched)).

Definition Product_findByPk (id : Z) : M (option Product) :=
  gets (λ s, head (filter (λ p, p_id p = id) (Products s))).

(** [Product.findByPk(id, { attributes: { exclude: ['image'] }, include })] *)
Definition Product_findByPk_include (id : Z) : M (option ProductView) :=
  gets (λ s, view s <$> head (filter (λ p, p_id p = id) (Products s))).

(** [Category.findAll({ where: { id: ids } })]: the rows whose key is one
    of [ids]. *)
Definition Category_findAll (ids : list Z) : M (list Category) :=
  gets (λ s, filter (λ c, c_id c ∈ ids) (Categories s)).

Definition Category_findByPk (id : Z) : M (option Category) :=
  gets (λ s, head (filter (λ c, c_id c = id) (Categories s))).

(** [product.setCategories(ids)]: the links of the product to categories
    outside [ids] are removed, the missing ones are added. *)
Definition setCategories (pid : Z) (ids : list Z) : M unit :=
  modify (λ s,
    let ls := ProductCategories s in
    set_ProductCategories
      (filter (λ l, l.1 ≠ pid ∨ l.2 ∈ ids) ls
       ++ ((λ c, (pid, c)) <$> filter (λ c, (pid, c) ∉ ls) ids)) s).

(** The key of the instance that [bulkCreate] answers for the input [v]
    inserted under the key [key]: the instance was built from the input,
    and a truthy [id] of the input is not replaced by the inserted key. *)
Definition instance_id (v : VariantInput) (key : Z) : Z :=
  match vi_id v with
  | Some n => if n =? 0 then key else n
  | None => key
  end.

(** [Variant.bulkCreate(inputs, { fields })]: one new row per input, keyed
    in sequence, not yet owned by a product; only [fields] are written, so
    an [id] of the input is not. The answer is the instances built from
    the inputs, under their keys by [instance_id]. *)
Definition Variant_bulkCreate (inputs : list VariantInput) (fields : list string)
  : M (list Variant) :=
  if bool_decide (Forall (λ v, Variant_valid (restrict fields v) = true) inputs) then
    ids ← gets (λ s, v_id <$> Variants s);
    seq ← gets Variant_seq;
    let rows := imap (λ i v, new_row (seq + Z.of_nat i) (restrict fields v) None) inputs in
    modify (set_Variant_seq (seq + Z.of_nat (length inputs)));;
    if bool_decide (Exists (λ r, v_id r ∈ ids) rows)
    then throw (DatabaseError "PRIMARY must be unique") else
    modify (λ s, set_Variants (Variants s ++ rows) s);;
    mret (imap (λ i v, new_row (instance_id v (seq + Z.of_nat i))
                         (restrict fields v) None) inputs)
  else throw (DatabaseError "Validation error").

(** Whether an input carries a value for one of the three fields. *)
Definition carries_value (r : VariantInput) : bool :=
  bool_decide (is_Some (vi_name r))
  || bool_decide (is_Some (vi_price r))
  || bool_decide (is_Some (vi_stock r)).

(** [Variant.update(input, { where: { id }, fields })]: the listed fields
    that the input carries overwrite the columns of the matching rows.
    When the input carries none of them, Sequelize issues no statement and
    answers 0. *)
Definition Variant_update (input : VariantInput) (id : Z) (fields : list string) : M Z :=
  let r := restrict fields input in
  if negb (Variant_valid r) then throw (DatabaseError "Validation error") else
  if negb (carries_value r) then mret 0 else
  vs ← gets Variants;
  modify (set_Variants ((λ v, if bool_decide (v_id v = id) then assign r v else v) <$> vs));;
  mret (Z.of_nat (length (filter (λ v, v_id v = id) vs))).

(** [variantData.destroy()] *)
Definition Variant_destroy (vd : Variant) : M unit :=
  modify (λ s, set_Variants (filter (λ v, v_id v ≠ v_id vd) (Variants s)) s).

(** [product.getVariants()] *)
Definition getVariants (pid : Z) : M (list Variant) :=
  gets (λ s, filter (λ v, v_productId v = Some pid) (Variants s)).

(** [product.addVariants(rows)]: the rows become the product's. *)
Definition addVariants (pid : Z) (rows : list Variant) : M unit :=
  modify (λ s, set_Variants
    ((λ v, if bool_decide (v_id v ∈ v_id <$> rows)
           then owned_by (Some pid) v
           else v) <$> Variants s) s).

(** [product.setVariants(rows)]: as [addVariants], and the product's other
    variants lose their owner. *)
Definition setVariants (pid : Z) (rows : list Variant) : M unit :=
  modify (λ s, set_Variants
    ((λ v, if bool_decide (v_id v ∈ v_id <$> rows)
           then owned_by (Some pid) v
           else if bool_decide (v_productId v = Some pid)
           then owned_by None v
           else v) <$> Variants s) s).

(** ** createProduct *)

(** The block "set product category" of both mutations:
    [if (req.body?.categoryId && req.body.categoryId.length > 0) { ... }].
    [productData] is the created instance on create and the result of
    [Product.findByPk] on edit, which may be [null]. *)
Definition set_product_category (productData : option Product) (b : Body) : M unit :=
  match categoryId b with
  | Some ((_ :: _) as ids) =>
      categoriesData ← Category_findAll ids;
      if bool_decide (length categoriesData ≠ length ids)
      then throw (ResponseError "invalid categoryId" 400)
      else match productData with
           | Some p => setCategories (p_id p) ids
           | None => null_read "setCategories"
           end
  | _ => mret tt
  end.

(** The blocks "get product image" and "create new product". *)
Definition create_new_product (req : Request) : M (Body * Product) :=
  (* req.body.image = await sharp(req.file.buffer).png().toBuffer() *)
  png ← match file req with
        | Some buffer =>
            match sharp_png buffer with
            | Some png => mret png
            | None => throw SharpError
            end
        | None => undefined_read "buffer"
        end;
  let b := set_image png (body req) in
  productData ← Product_create (attrs b)
                  [("field", ["name"; "description"; "image"; "isActive"])] (now req);
  mret (b, productData).

(** The block "set product variant". *)
Definition set_product_variant (productData : Product) (b : Body) : M unit :=
  match variants b with
  | Some ((_ :: _) as vs) =>
      variantsData ← Variant_bulkCreate vs ["name"; "price"; "stock"];
      setVariants (p_id productData) variantsData
  | _ => mret tt
  end.

Definition createProduct_callback (req : Request) : M (option ProductView) :=
  '(b, productData) ← create_new_product req;
  set_product_category (Some productData) b;;
  set_product_variant productData b;;
  (* get product data *)
  Product_findByPk_include (p_id productData).

Definition createProduct (req : Request) : Store → Response (option ProductView) * Store :=
  respond (transaction (createProduct_callback req)).

(** ** editProductById *)

(** "get existed variants and new variants" *)
Definition newVariants (vs : list VariantInput) : list VariantInput :=
  filter (λ variant, truthy_id (vi_id variant) = false) vs.

Definition updateVariants (vs : list VariantInput) : list VariantInput :=
  filter (λ variant, truthy_id (vi_id variant) = true) vs.

(** [updateVariants.map(({ id }) => id)] *)
Definition updateVariantsId (vs : list VariantInput) : list (option Z) :=
  vi_id <$> updateVariants vs.

(** Body of the loop "delete existed variants in db but not exist in
    req.body": [if (!updateVariantsId.includes(variantData.id)) destroy]. *)
Definition destroy_unless_listed (ids : list (option Z)) (variantData : Variant) : M unit :=
  if bool_decide (Some (v_id variantData) ∈ ids)
  then mret tt
  else Variant_destroy variantData.

(** Body of the loop "update existed variants". *)
Definition update_existed (updateVariant : VariantInput) : M unit :=
  numVariantUpdated ←
    match vi_id updateVariant with
    | Some id => Variant_update updateVariant id ["name"; "price"; "stock"]
    | None => throw (DatabaseError "WHERE parameter id has invalid undefined value")
    end;
  if bool_decide (numVariantUpdated = 0)
  then throw (ResponseError "invalid variant id" 400)
  else mret tt.

(** The block "update product variant" of the edit. *)
Definition update_product_variant (productData : option Product) (b : Body) : M unit :=
  match variants b with
  | Some ((_ :: _) as vs) =>
      (* delete existed variants in db but not exist in req.body *)
      variantsData ← match productData with
                     | Some p => getVariants (p_id p)
                     | None => null_read "getVariants"
                     end;
      for_of variantsData (destroy_unless_listed (updateVariantsId vs));;
      (* update existed variants *)
      for_of (updateVariants vs) update_existed;;
      (* create new variant *)
      newVariantsData ← Variant_bulkCreate (newVariants vs) ["name"; "price"; "stock"];
      match productData with
      | Some p => addVariants (p_id p) newVariantsData
      | None => null_read "addVariants"
      end
  | _ => mret tt
  end.

(** The blocks "get product image", "check if there is data to be
    updated", "update product" and "get product data". *)
Definition update_product (req : Request) : M (Body * option Product) :=
  (* if (req.file) req.body.image = await sharp(req.file.buffer).png().toBuffer() *)
  b ← match file req with
      | Some buffer =>
          match sharp_png buffer with
          | Some png => mret (set_image png (body req))
          | None => throw SharpError
          end
      | None => mret (body req)
      end;
  if bool_decide (Object_keys_length b = 0%nat)
  then throw (ResponseError "no data provided" 400) else
  numProductUpdated ← Product_update (attrs b) (params_id req)
                        [("field", ["name"; "description"; "image"; "isActive"])] (now req);
  if bool_decide (numProductUpdated = 0)
  then throw (ResponseError "product not found" 404) else
  productData ← Product_findByPk (params_id req);
  mret (b, productData).

Definition editProductById_callback (req : Request) : M (option ProductView) :=
  '(b, productData) ← update_product req;
  set_product_category productData b;;
  update_product_variant productData b;;
  Product_findByPk_include (params_id req).

Definition editProductById (req : Request) : Store → Response (option ProductView) * Store :=
  respond (transaction (editProductById_callback req)).

(** ** getProducts *)

(** [req.query]: [name], [sortBy], [orderBy] and [isPaginated] as the
    strings they arrive as, [categoryId] as the key it denotes when given
    and not empty, [page] and [perPage] by their numeric reading. *)
Record Query := {
  q_name : option string;
  q_categoryId : option Z;
  q_sortBy : option string;
  q_orderBy : option string;
  q_isPaginated : option string;
  q_page : option Z;
  q_perPage : option Z }.

Inductive OrderTerm :=
| Literal_max_price (* (SELECT MAX(price) FROM Variants WHERE Variants.productId = Product.id) *)
| Column (name : string).

Inductive Direction := ASC | DESC.

Definition order (q : Query) : OrderTerm * string :=
  if bool_decide (q_sortBy q = Some "price")
  then (Literal_max_price, or_default (q_orderBy q) "DESC")
  else (Column (or_default (q_sortBy q) "updatedAt"), or_default (q_orderBy q) "DESC").

(** [if (name) where.name = { like: `%${name}%` }] *)
Definition where_name (q : Query) : option string :=
  match q_name q with
  | Some n => if bool_decide (n = "") then None else Some n
  | None => None
  end.

Definition paginated (q : Query) : bool :=
  negb (bool_decide (q_isPaginated q = Some "false")).

Definition page (q : Query) : Z := num_or (q_page q) 1.
Definition perPage (q : Query) : Z := num_or (q_perPage q) 5.

(** [pagination.limit] and [pagination.offset], when paginated *)
Definition pagination (q : Query) : option (Z * Z) :=
  if paginated q then Some (perPage q, (page q - 1) * perPage q) else None.

Record PaginationInfo := { total_page : Z; current_page : Z; per_page : Z }.

Record Listing := {
  data : list ProductView;
  total_data : Z;
  pagination_info : option PaginationInfo }.

(** [Math.ceil(totalData / perPage)] *)
Definition paginationInfo (q : Query) (totalData : Z) : option PaginationInfo :=
  if paginated q
  then Some {| total_page := - ((- totalData) `div` perPage q);
               current_page := page q; per_page := perPage q |}
  else None.

(** *** How the store evaluates the query *)

Definition upper_ascii (c : ascii) : ascii :=
  let n := nat_of_ascii c in
  if ((97 <=? n) && (n <=? 122))%nat then ascii_of_nat (n - 32) else c.

Fixpoint upper (s : string) : string :=
  match s with
  | EmptyString => EmptyString
  | String c r => String (upper_ascii c) (upper r)
  end.

(** [where.name = { [Op.like]: `%${name}%` }]: the name of the query is
    spliced into the pattern as it is, so a [%] or [_] in it is a wildcard
    of the pattern. A row without a name does not match. *)
Definition where_matches (q : Query) (p : Product) : bool :=
  match where_name q with
  | None => true
  | Some n =>
      match p_cols p !! "name" with
      | Some (VStr s) => Op_like ("%" ++ n ++ "%") s
      | _ => false
      end
  end.

(** [MAX(price)] over rows; NULL when none of them has a price. *)
Definition max_of (vs : list Variant) : option Z :=
  foldr (λ v acc,
           match v_price v, acc with
           | Some x, Some y => Some (x `max` y)
           | Some x, None => Some x
           | None, _ => acc
           end)
        None vs.

(** [SELECT MAX(price) FROM Variants WHERE Variants.productId = pid] *)
Definition max_price (vs : list Variant) (pid : Z) : option Z :=
  max_of (filter (λ v, v_productId v = Some pid) vs).

(** The value a row is ordered by; [None] is NULL. *)
Definition sort_key (s : Store) (t : OrderTerm) (p : Product) : option value :=
  match t with
  | Literal_max_price => VNum <$> max_price (Variants s) (p_id p)
  | Column c =>
      if bool_decide (c = "id") then Some (VNum (p_id p))
      else match p_cols p !! c with
           | Some VNull => None
           | o => o
           end
  end.

(** How the store compares two texts under [ORDER BY] is its collation:
    an order in which any two texts compare. *)
Variable collation_leb : string → string → bool.
Hypothesis collation_total :
  ∀ a b, collation_leb a b = true ∨ collation_leb b a = true.
Hypothesis collation_trans :
  ∀ a b c, collation_leb a b = true → collation_leb b c = true →
           collation_leb a c = true.

Definition rank (v : value) : nat :=
  match v with
  | VNull => 0 | VBool _ => 1 | VNum _ => 2 | VStr _ => 3 | VBuf _ => 4
  end.

Definition value_leb (x y : value) : bool :=
  match x, y with
  | VNum a, VNum b => a <=? b
  | VStr a, VStr b => collation_leb a b
  | VBool a, VBool b => implb a b
  | _, _ => (rank x <=? rank y)%nat
  end.

(** The order of [ORDER BY] keys: NULL sorts before every value, which is
    the rule of MySQL, MariaDB, SQLite and SQL Server, the stores that
    accept the unquoted identifiers of the price subquery. *)
Definition sql_leb (a b : option value) : bool :=
  match a, b with
  | None, _ => true
  | Some _, None => false
  | Some x, Some y => value_leb x y
  end.

Definition parse_direction (s : string) : option Direction :=
  if bool_decide (upper s = "ASC") then Some ASC
  else if bool_decide (upper s = "DESC") then Some DESC
  else None.

(** The relation consecutive rows of the result stand in. *)
Definition precedes (s : Store) (t : OrderTerm) (d : Direction) (a b : Product) : Prop :=
  match d with
  | ASC => sql_leb (sort_key s t a) (sort_key s t b) = true
  | DESC => sql_leb (sort_key s t b) (sort_key s t a) = true
  end.

Global Instance precedes_dec s t d a b : Decision (precedes s t d a b).
Proof. destruct d; simpl; apply _. Defined.

(** [ORDER BY] names one key and no tie-break: rows with equal keys come
    in an order of the store's choosing, which may differ from one
    statement to the next. [tie_break] is that choice, for each query. *)
Variable tie_break : Query → Product → Z.

Definition arranged (s : Store) (t : OrderTerm) (d : Direction) (q : Query)
  (a b : Product) : Prop :=
  precedes s t d a b ∧ (precedes s t d b a → tie_break q a ≤ tie_break q b).

Global Instance arranged_dec s t d q a b : Decision (arranged s t d q a b).
Proof. unfold arranged. apply _. Defined.

Definition order_by (s : Store) (t : OrderTerm) (d : Direction) (q : Query)
  (rows : list Product) : list Product :=
  merge_sort (arranged s t d q) rows.

Definition known_column (t : OrderTerm) : bool :=
  match t with
  | Literal_max_price => true
  | Column c => bool_decide (c ∈ Product_attributes)
  end.

(** The column that [attributes: { exclude: ['image'] }] leaves out. *)
Definition excluded_column (t : OrderTerm) : bool :=
  match t with
  | Literal_max_price => false
  | Column c => bool_decide (c = "image")
  end.

(** [findAll({ where, attributes, order, ...pagination, include })] over
    [rows], the whole Product table or the products of one category. *)
Definition findAll (rows : list Product) (q : Query) : M (list ProductView) :=
  match parse_direction (order q).2 with
  | None => throw (DatabaseError "Order direction must be ASC or DESC")
  | Some d =>
      if negb (known_column (order q).1)
      then throw (DatabaseError "Unknown column in order clause") else
      (* with a limit the rows are selected in a subquery, which does not
         carry the excluded column *)
      if paginated q && excluded_column (order q).1
      then throw (DatabaseError "Unknown column in order clause") else
      s ← gets id;
      let sorted := order_by s (order q).1 d q (filter (λ p, where_matches q p = true) rows) in
      match pagination q with
      | Some (limit, offset) =>
          if bool_decide (limit < 0 ∨ offset < 0)
          then throw (DatabaseError "You have an error in your SQL syntax")
          else mret (view s <$> take (Z.to_nat limit) (drop (Z.to_nat offset) sorted))
      | None => mret (view s <$> sorted)
      end
  end.

(** [count({ where })] over [rows] *)
Definition count (rows : list Product) (q : Query) : Z :=
  Z.of_nat (length (filter (λ p, where_matches q p = true) rows)).

(** The products linked to a category: the rows [category.getProducts] and
    [category.countProducts] range over. *)
Definition products_of (s : Store) (c : Category) : list Product :=
  filter (λ p, (p_id p, c_id c) ∈ ProductCategories s) (Products s).

Definition getProducts_try (q : Query) : M Listing :=
  match q_categoryId q with
  | Some categoryId =>
      categoryData ← Category_findByPk categoryId;
      match categoryData with
      | None => throw (ResponseError "invalid categoryId" 400)
      | Some c =>
          productsData ← (s ← gets id; findAll (products_of s c) q);
          totalData ← gets (λ s, count (products_of s c) q);
          mret {| data := productsData; total_data := totalData;
                  pagination_info := paginationInfo q totalData |}
      end
  | None =>
      productsData ← (s ← gets id; findAll (Products s) q);
      totalData ← gets (λ s, count (Products s) q);
      mret {| data := productsData; total_data := totalData;
              pagination_info := paginationInfo q totalData |}
  end.

Definition getProducts (q : Query) (s : Store) : Response Listing :=
  (respond (getProducts_try q) s).1.

(** ** getProductImageById *)

(** [Product.findByPk(id, { attributes: ['image'] })] and the test
    [if (!productData?.image)]. *)
Definition getProductImageById_try (id : Z) : M value :=
  productData ← Product_findByPk id;
  match productData ≫= (λ p, p_cols p !! "image") with
  | Some image =>
      if truthy image then mret image
      else throw (ResponseError "product image not found" 404)
  | None => throw (ResponseError "product image not found" 404)
  end.

(** [res.set('Content-type', 'image/png').send(productData.image)]: the
    content type and the payload. *)
Definition getProductImageById (id : Z) (s : Store) : Response (string * value) :=
  match getProductImageById_try id s with
  | (inr image, _) => Success 200 ("image/png", image)
  | (inl error, _) => Failure error
  end.

(** ** deleteProductById *)

(** What the foreign keys declared with the models (not among the sources)
    do to the Variant rows and the category links when a product is
    destroyed (cascade, set null, or nothing): a function of the product's
    key and of the two tables. *)
Abbreviation references := (Z → list Variant * list (Z * Z) → list Variant * list (Z * Z)).

(** [Product.destroy({ where: { id } })]: removes the matching rows and
    answers how many there were. *)
Definition Product_destroy (on_delete : references) (id : Z) : M Z :=
  ps ← gets Products;
  match filter (λ p, p_id p = id) ps with
  | [] => mret 0
  | matched =>
      modify (λ s,
        let '(vs, ls) := on_delete id (Variants s, ProductCategories s) in
        set_Variants vs
          (set_ProductCategories ls
             (set_Products (filter (λ p, p_id p ≠ id) ps) s)));;
      mret (Z.of_nat (length matched))
  end.

(** [res.sendStatus(204)] after [if (!result) throw ...]; there is no
    transaction around the call. *)
Definition deleteProductById (on_delete : references) (id : Z)
  : Store → Response unit * Store := λ s,
  match (result ← Product_destroy on_delete id;
         if bool_decide (result = 0)
         then throw (ResponseError "product not found" 404)
         else mret tt) s with
  | (inr _, s') => (Success 204 tt, s')
  | (inl error, s') => (Failure error, s')
  end.

(** ** Vocabulary of the statements *)

(** The row [v] after the write of one input: the input's name, price and
    stock, where it carries them, reach the row of the input's id. *)
Definition write_to (u : VariantInput) (v : Variant) : Variant :=
  if bool_decide (vi_id u = Some (v_id v))
  then assign (restrict ["name"; "price"; "stock"] u) v
  else v.

(** The row [v] after the writes of the inputs [us], in their order. *)
Definition updated (us : list VariantInput) (v : Variant) : Variant :=
  foldl (λ v u, write_to u v) v us.




(** The tables and the counter that the Variant writes leave alone. *)
Definition same_but_variants (s s' : Store) : Prop :=
  Products s' = Products s ∧ Categories s' = Categories s
  ∧ ProductCategories s' = ProductCategories s
  ∧ Product_seq s' = Product_seq s.

(** The row [p] after an edit of the product [id] that writes [w] at the
    time [now]. *)
Definition edited (w : object) (id now : Z) (p : Product) : Product :=
  if bool_decide (p_id p = id)
  then {| p_id := default id (explicit_id w);
          p_cols := <["updatedAt" := VNum now]> (delete "id" w ∪ p_cols p) |}
  else p.

(** The attributes a product write passes to the store, as the controller
    issues it. *)
Definition product_values (b : Body) : object :=
  written [("field", ["name"; "description"; "image"; "isActive"])] (attrs b).




(** The value a listed product is ordered by under a column sort. *)
Definition view_column (c : string) (v : ProductView) : option value :=
  if bool_decide (c = "id") then Some (VNum (p_id (pv_product v)))
  else match p_cols (pv_product v) !! c with
       | Some VNull => None
       | o => o
       end.

(** The order of column values: null below every value, numbers by
    size, false before true, texts by the collation of the store. How
    values of two kinds compare is left open. *)
Definition column_le (x y : option value) : Prop :=
  match x, y with
  | None, _ => True
  | Some _, None => False
  | Some (VNum a), Some (VNum b) => a ≤ b
  | Some (VBool a), Some (VBool b) => implb a b = true
  | Some (VStr a), Some (VStr b) => collation_leb a b = true
  | Some _, Some _ => True
  end.

(** The order two listed products stand in under a sort by the column [c]. *)
Definition by_column (c : string) (d : Direction) (a b : ProductView) : Prop :=
  match d with
  | ASC => column_le (view_column c a) (view_column c b)
  | DESC => column_le (view_column c b) (view_column c a)
  end.

(** The products have pairwise distinct numbers as keys under the order
    term [t]: no two of them tie, whatever the collation. *)
Definition distinct_keys (s : Store) (t : OrderTerm) : Prop :=
  (∀ p, p ∈ Products s → ∃ n, sort_key s t p = Some (VNum n))
  ∧ ∀ a b, a ∈ Products s → b ∈ Products s →
      sort_key s t a = sort_key s t b → a = b.

(** The query [q] sent with [isPaginated=false]. *)
Definition unpaginated (q : Query) : Query :=
  {| q_name := q_name q; q_categoryId := q_categoryId q;
     q_sortBy := q_sortBy q; q_orderBy := q_orderBy q;
     q_isPaginated := Some "false";
     q_page := q_page q; q_perPage := q_perPage q |}.
(** ** A small shop

    Product 1 ("tea") owns the variants A, B and C and is linked to the
    category 1; product 2 ("mug") owns the variant 7; product 3 ("cup")
    has no variant. *)

Definition accept_png (buffer : list byte) : option (list byte) := Some buffer.
Definition any_product (_ : object) : bool := true.
Definition any_variant (_ : VariantInput) : bool := true.

Definition row (id : Z) (name : string) (price : Z) (owner : Z) : Variant :=
  {| v_id := id; v_name := Some name; v_price := Some price;
     v_stock := Some 1; v_productId := Some owner |}.

Definition item (id : Z) (name : string) : Product :=
  {| p_id := id;
     p_cols := {[ "name" := VStr name; "createdAt" := VNum 50;
                  "updatedAt" := VNum 50 ]} |}.

Definition shop : Store :=
  {| Products := [item 1 "tea"; item 2 "mug"; item 3 "cup"];
     Categories := [ {| c_id := 1; c_name := "drinks"; c_image := None |};
                     {| c_id := 2; c_name := "kitchen"; c_image := None |} ];
     Variants := [row 1 "A" 10 1; row 2 "B" 30 1; row 3 "C" 20 1; row 7 "M" 20 2];
     ProductCategories := [(1, 1)];
     Product_seq := 4;
     Variant_seq := 8 |}.

Definition input (id : option Z) (name : string) : VariantInput :=
  {| vi_id := id; vi_name := Some name; vi_price := None; vi_stock := None |}.

(** An input that carries an id and nothing else. *)
Definition bare (id : Z) : VariantInput :=
  {| vi_id := Some id; vi_name := None; vi_price := None; vi_stock := None |}.

Definition edit_request (id : Z) (fields : object) (cats : option (list Z))
  (vs : option (list VariantInput)) : Request :=
  {| params_id := id; file := None;
     body := {| attrs := fields; categoryId := cats; variants := vs |};
     now := 100 |}.

Definition upload_request (id : Z) (fields : object) (cats : option (list Z))
  (vs : option (list VariantInput)) : Request :=
  {| params_id := id; file := Some [];
     body := {| attrs := fields; categoryId := cats; variants := vs |};
     now := 100 |}.

Definition listing (sort : option string) (dir : option string) (cat : option Z) : Query :=
  {| q_name := None; q_categoryId := cat; q_sortBy := sort; q_orderBy := dir;
     q_isPaginated := None; q_page := None; q_perPage := None |}.

(** A listing of the products whose name is like [name]. *)
Definition search (name : string) (cat : option Z) : Query :=
  {| q_name := Some name; q_categoryId := cat; q_sortBy := None;
     q_orderBy := None; q_isPaginated := None; q_page := None;
     q_perPage := None |}.

(** A [LIKE] for the examples: [%] stands for any text, [_] for any one
    character, and letters match without case. *)
Fixpoint like_ascii (pattern : string) : string → bool :=
  match pattern with
  | EmptyString => λ text, match text with EmptyString => true | _ => false end
  | String c rest =>
      if Ascii.eqb c "%" then
        fix any (text : string) : bool :=
          like_ascii rest text
          || match text with
             | EmptyString => false
             | String _ t => any t
             end
      else λ text,
        match text with
        | EmptyString => false
        | String d t =>
            (Ascii.eqb c "_" || Ascii.eqb (upper_ascii c) (upper_ascii d))
            && like_ascii rest t
        end
  end.

(** A store that returns rows with equal keys in the order of their
    primary key. *)
Definition by_key (_ : Query) (p : Product) : Z := p_id p.

(** The keys of the products of a response, in its order. *)
Definition listed_ids (r : Response Listing) : option (list Z) :=
  match r with
  | Success _ l => Some ((λ v, p_id (pv_product v)) <$> data l)
  | Failure _ => None
  end.

(** A normalizer that rejects every upload. *)
Definition reject_png (_ : list byte) : option (list byte) := None.

(** The foreign-key actions of a schema that deletes the variants and the
    category links of a deleted product. *)
Definition cascade : references :=
  λ id '(vs, ls),
    (filter (λ v, v_productId v ≠ Some id) vs, filter (λ l, l.1 ≠ id) ls).

(** The shop with an image on product 1 and a null image on product 2. *)
Definition framed : Product :=
  {| p_id := 1; p_cols := <["image" := VBuf [x89]]> (p_cols (item 1 "tea")) |}.

Definition blank : Product :=
  {| p_id := 2; p_cols := <["image" := VNull]> (p_cols (item 2 "mug")) |}.

Definition gallery : Store :=
  {| Products := [framed; blank; item 3 "cup"];
     Categories := Categories shop;
     Variants := Variants shop;
     ProductCategories := ProductCategories shop;
     Product_seq := 4;
     Variant_seq := 8 |}.

(** The shop after edits at the times 50, 70 and 60. *)
Definition stamped (id : Z) (name : string) (t : Z) : Product :=
  {| p_id := id;
     p_cols := {[ "name" := VStr name; "createdAt" := VNum 50;
                  "updatedAt" := VNum t ]} |}.

Definition aged : Store :=
  {| Products := [stamped 1 "tea" 50; stamped 2 "mug" 70; stamped 3 "cup" 60];
     Categories := Categories shop;
     Variants := Variants shop;
     ProductCategories := ProductCategories shop;
     Product_seq := 4;
     Variant_seq := 8 |}.

(** The page [page] of the products by key, [perPage] to a page. *)
Definition paged (page perPage : Z) : Query :=
  {| q_name := None; q_categoryId := None; q_sortBy := Some "id";
     q_orderBy := Some "ASC"; q_isPaginated := None;
     q_page := Some page; q_perPage := Some perPage |}.

(** * Properties *)

(** ** Running the monad *)

Lemma bind_run {A B} (m : M A) (f : A → M B) s :
  (m ≫= f) s = match m s with
               | (inr a, s') => f a s'
               | (inl e, s') => (inl e, s')
               end.
Proof. reflexivity. Qed.

Lemma bind_inr {A B} (m : M A) (f : A → M B) s b s' :
  (m ≫= f) s = (inr b, s') →
  ∃ a s1, m s = (inr a, s1) ∧ f a s1 = (inr b, s').
Proof.
  rewrite bind_run. destruct (m s) as [[e|a] s1]; [done|]. eauto.
Qed.

Lemma bind_inl {A B} (m : M A) (f : A → M B) s e s' :
  (m ≫= f) s = (inl e, s') →
  m s = (inl e, s') ∨ ∃ a s1, m s = (inr a, s1) ∧ f a s1 = (inl e, s').
Proof.
  rewrite bind_run. destruct (m s) as [[e1|a] s1]; intros H.
  - left. by injection H as -> ->.
  - right. eauto.
Qed.

(** Runs the binds of a computation whose steps are known. *)
Ltac mrun :=
  repeat first
    [ rewrite bind_run
    | progress unfold gets, modify
    | progress cbn beta iota zeta ].

Lemma rollback_tables s s' : tables (rollback s s') = tables s.
Proof. reflexivity. Qed.

Lemma rollback_same s : rollback s s = s.
Proof. by destruct s. Qed.

Lemma transaction_inl {A} (m : M A) s e s1 :
  m s = (inl e, s1) → transaction m s = (inl e, rollback s s1).
Proof. unfold transaction. by intros ->. Qed.

Lemma transaction_inr {A} (m : M A) s a s1 :
  m s = (inr a, s1) → transaction m s = (inr a, s1).
Proof. unfold transaction. by intros ->. Qed.

Lemma transaction_failure {A} (m : M A) s e s' :
  transaction m s = (inl e, s') → tables s' = tables s.
Proof.
  unfold transaction. destruct (m s) as [[e1|a] s1]; [|done].
  intros [= _ <-]. apply rollback_tables.
Qed.

Lemma respond_failure {A} (m : M A) s e s' :
  respond m s = (Failure e, s') ↔ m s = (inl e, s').
Proof.
  unfold respond. destruct (m s) as [[e1|a] s1]; split; intros [= ]; by subst.
Qed.

Lemma respond_success {A} (m : M A) s st a s' :
  respond m s = (Success st a, s') ↔ st = 200 ∧ m s = (inr a, s').
Proof.
  unfold respond. destruct (m s) as [[e1|a1] s1]; split.
  - intros [= ].
  - intros [_ [= ]].
  - intros [= <- <- <-]. done.
  - intros [-> [= <- <-]]. done.
Qed.

(** ** The edit is all-or-nothing *)

(** C2. Whenever [editProductById] answers with a failure, whichever step
    threw and whatever the callback had already written (the product row,
    deleted or updated variants, category links), the rows of every table
    are those the store held before the edit began. *)
Theorem editProductById_failure_rolls_back req s e s' :
  editProductById req s = (Failure e, s') → tables s' = tables s.
Proof.
  unfold editProductById. rewrite respond_failure.
  apply transaction_failure.
Qed.

(** C6. An edit whose payload is empty (the body has no key, no file was
    uploaded) throws "no data provided" (400, the InvalidInput kind) while
    the store is still the one at entry: no write was issued, and the
    response leaves the store as it was. *)
Theorem editProductById_empty_payload req s :
  Object_keys_length (body req) = 0%nat →
  file req = None →
  editProductById_callback req s = (inl (ResponseError "no data provided" 400), s)
  ∧ editProductById req s = (Failure (ResponseError "no data provided" 400), s)
  ∧ error_kind (ResponseError "no data provided" 400) = InvalidInput.
Proof.
  intros Hkeys Hfile.
  assert (editProductById_callback req s
          = (inl (ResponseError "no data provided" 400), s)) as Hcb.
  { unfold editProductById_callback, update_product.
    rewrite Hfile. rewrite !bind_run. cbn [mret M_ret].
    by rewrite bool_decide_eq_true_2. }
  split; [done|]. split; [|done].
  unfold editProductById. apply respond_failure.
  rewrite (transaction_inl _ _ _ _ Hcb). by rewrite rollback_same.
Qed.

(** C9 (the code departs from the claim). [createProduct] reads
    [req.file.buffer] unconditionally, where [editProductById] guards the
    same statement with [if (req.file)]: without an upload the read throws
    a TypeError at the normalization step, before any write, whatever the
    body. *)
Theorem createProduct_without_upload id b n s :
  createProduct {| params_id := id; file := None; body := b; now := n |} s
  = (Failure (TypeError "Cannot read properties of undefined (reading 'buffer')"), s).
Proof.
  unfold createProduct. apply respond_failure.
  erewrite transaction_inl; [by rewrite rollback_same|].
  reflexivity.
Qed.

(** ** The category existence check *)

(** What the length comparison after [Category.findAll] detects: under the
    primary key of Category, as many rows are found as ids were listed
    exactly when the listed ids are pairwise distinct and all exist. *)
Lemma findAll_length (cats : list Category) (ids : list Z) :
  NoDup (c_id <$> cats) →
  (length (filter (λ c, c_id c ∈ ids) cats) ≤ length ids)%nat
  ∧ (length (filter (λ c, c_id c ∈ ids) cats) = length ids →
     NoDup ids ∧ ∀ x, x ∈ ids → x ∈ c_id <$> cats).
Proof.
  intros Hpk.
  set (found := c_id <$> filter (λ c, c_id c ∈ ids) cats).
  assert (NoDup found) as Hnd.
  { apply (sublist_NoDup found (c_id <$> cats)); [exact Hpk|].
    apply fmap_sublist, sublist_filter. }
  assert (found ⊆+ ids) as Hsub.
  { apply NoDup_submseteq; [done|]. intros x Hx.
    apply list_elem_of_fmap in Hx as (c & -> & Hc).
    by apply list_elem_of_filter in Hc as [? _]. }
  assert (length found = length (filter (λ c, c_id c ∈ ids) cats)) as Hlen
    by apply length_fmap.
  rewrite <- Hlen. split; [by apply submseteq_length|].
  intros Heq. assert (found ≡ₚ ids) as Hperm.
  { apply submseteq_length_Permutation; [done|lia]. }
  split; [by rewrite <- Hperm|].
  intros x Hx. rewrite <- Hperm in Hx.
  apply list_elem_of_fmap in Hx as (c & -> & Hc).
  apply list_elem_of_filter in Hc as [_ Hc]. by apply list_elem_of_fmap_2.
Qed.



Lemma Product_update_Categories values id opts n s :
  Categories (Product_update values id opts n s).2 = Categories s.
Proof.
  unfold Product_update, gets, modify, throw.
  destruct (negb _); [done|]. destruct (bool_decide (size _ = _)); [done|].
  rewrite !bind_run.
  destruct (bool_decide _); [done|]. by rewrite !bind_run.
Qed.


Lemma update_product_inr req s b p s1 :
  update_product req s = (inr (b, p), s1) →
  categoryId b = categoryId (body req) ∧ variants b = variants (body req)
  ∧ Categories s1 = Categories s
  ∧ ∃ n, Product_update (attrs b) (params_id req)
           [("field", ["name"; "description"; "image"; "isActive"])] (now req) s
         = (inr n, s1) ∧ n ≠ 0
         ∧ p = head (filter (λ p, p_id p = params_id req) (Products s1)).
Proof.
  unfold update_product. intros H.
  apply bind_inr in H as (b' & s0 & Hb & H).
  assert (s0 = s ∧ categoryId b' = categoryId (body req)
          ∧ variants b' = variants (body req)) as (-> & Hc & Hv).
  { destruct (file req) as [buffer|]; [|by injection Hb as <- <-].
    destruct (sharp_png buffer); [|done]. by injection Hb as <- <-. }
  destruct (bool_decide (Object_keys_length b' = 0%nat)); [done|].
  apply bind_inr in H as (n & s2 & Hn & H).
  destruct (bool_decide (n = 0)) eqn:Hz; [done|].
  apply bool_decide_eq_false in Hz.
  apply bind_inr in H as (p' & s3 & Hp & H).
  injection Hp as <- <-. injection H as <- <- <-.
  split; [done|]. split; [done|]. split.
  - rewrite <- (Product_update_Categories (attrs b') (params_id req)
      [("field", ["name"; "description"; "image"; "isActive"])] (now req) s).
    by rewrite Hn.
  - eauto.
Qed.





(** ** Listing *)

Lemma StronglySorted_sublist {A} (R : relation A) (l1 l2 : list A) :
  l1 `sublist_of` l2 → StronglySorted R l2 → StronglySorted R l1.
Proof.
  induction 1 as [|x l1 l2 Hsub IH|x l1 l2 Hsub IH]; intros Hs.
  - constructor.
  - apply StronglySorted_cons in Hs as [Hall Hs].
    apply StronglySorted_cons. split; [|by apply IH].
    rewrite Forall_forall in Hall |- *. intros y Hy.
    apply Hall. by eapply sublist_subseteq.
  - apply StronglySorted_cons in Hs as [_ Hs]. by apply IH.
Qed.

Lemma StronglySorted_lookup {A} (R : relation A) (l : list A) (i j : nat) a b :
  StronglySorted R l → (i < j)%nat → l !! i = Some a → l !! j = Some b → R a b.
Proof.
  intros Hs. revert i j. induction Hs as [|x l Hs IH Hall]; intros i j Hij Hi Hj.
  - done.
  - destruct j as [|j]; [lia|]. destruct i as [|i].
    + injection Hi as ->. rewrite Forall_forall in Hall.
      apply Hall. by eapply list_elem_of_lookup_2.
    + apply (IH i j); [lia|done..].
Qed.







Lemma string_compare_Lt_trans (a b c : string) :
  String.compare a b = Lt → String.compare b c = Lt → String.compare a c = Lt.
Proof.
  revert b c. induction a as [|x a IH]; intros [|y b] [|z c]; simpl; try done.
  destruct (Ascii.compare x y) eqn:Hxy; [|clear IH|done].
  - apply Ascii.compare_eq_iff in Hxy as ->.
    destruct (Ascii.compare y z); [apply IH|done..].
  - destruct (Ascii.compare y z) eqn:Hyz; [| |done].
    + apply Ascii.compare_eq_iff in Hyz as <-. by rewrite Hxy.
    + intros _ _. unfold Ascii.compare in *.
      change (N_of_ascii x < N_of_ascii y)%N in Hxy.
      change (N_of_ascii y < N_of_ascii z)%N in Hyz.
      assert (N_of_ascii x < N_of_ascii z)%N as Hxz by lia.
      unfold N.lt in Hxz. by rewrite Hxz.
Qed.

Lemma string_leb_trans (a b c : string) :
  String.leb a b = true → String.leb b c = true → String.leb a c = true.
Proof.
  unfold String.leb.
  destruct (String.compare a b) eqn:Hab; [| |done].
  - by apply String.compare_eq_iff in Hab as ->.
  - destruct (String.compare b c) eqn:Hbc; [| |done].
    + apply String.compare_eq_iff in Hbc as <-. by rewrite Hab.
    + by rewrite (string_compare_Lt_trans a b c).
Qed.

Lemma value_leb_total x y : value_leb x y = true ∨ value_leb y x = true.
Proof.
  destruct x as [|[]|a|a|a], y as [|[]|b|b|b]; simpl;
    auto using collation_total.
  destruct (Z.leb_spec a b), (Z.leb_spec b a); auto; lia.
Qed.

Lemma value_leb_trans x y z :
  value_leb x y = true → value_leb y z = true → value_leb x z = true.
Proof.
  destruct x as [|[]|a|a|a], y as [|[]|b|b|b], z as [|[]|c|c|c]; simpl;
    try done.
  - intros ?%Z.leb_le ?%Z.leb_le. apply Z.leb_le. lia.
  - apply collation_trans.
Qed.

Lemma sql_leb_total a b : sql_leb a b = true ∨ sql_leb b a = true.
Proof. destruct a, b; simpl; auto using value_leb_total. Qed.

Lemma sql_leb_trans a b c :
  sql_leb a b = true → sql_leb b c = true → sql_leb a c = true.
Proof. destruct a, b, c; simpl; try done. apply value_leb_trans. Qed.

Global Instance precedes_total s t d : Total (precedes s t d).
Proof. intros a b. destruct d; apply sql_leb_total. Qed.

Global Instance precedes_trans s t d : Transitive (precedes s t d).
Proof. intros a b c. destruct d; simpl; eauto using sql_leb_trans. Qed.

Global Instance arranged_total s t d q `{!Total (precedes s t d)} :
  Total (arranged s t d q).
Proof.
  intros a b. unfold arranged.
  destruct (decide (precedes s t d a b)) as [Hab|Hab],
    (decide (precedes s t d b a)) as [Hba|Hba].
  - destruct (Z.le_ge_cases (tie_break q a) (tie_break q b)); [left|right];
      (split; [done|intros _; lia]).
  - by left.
  - by right.
  - by destruct (total (precedes s t d) a b).
Qed.

Global Instance arranged_trans s t d q `{!Transitive (precedes s t d)} :
  Transitive (arranged s t d q).
Proof.
  intros a b c [Hab Hba] [Hbc Hcb]. split; [by etrans|].
  intros Hca.
  assert (precedes s t d b a) as H1 by by etrans.
  assert (precedes s t d c b) as H2 by by etrans.
  specialize (Hba H1). specialize (Hcb H2). lia.
Qed.

Lemma StronglySorted_weaken {A} (R R' : relation A) (l : list A) :
  (∀ a b, R a b → R' a b) → StronglySorted R l → StronglySorted R' l.
Proof.
  intros HR. induction 1 as [|x l _ IH Hall]; constructor; [done|].
  eapply Forall_impl; [exact Hall|]. intros y. apply HR.
Qed.

(** Whatever the store does with equal keys, the rows come out in the
    order of the key. *)
Lemma order_by_sorted s t d q rows
    `{!Total (precedes s t d), !Transitive (precedes s t d)} :
  StronglySorted (precedes s t d) (order_by s t d q rows).
Proof.
  apply (StronglySorted_weaken (arranged s t d q)); [by intros a b [? _]|].
  apply StronglySorted_merge_sort; apply _.
Qed.

(** What a successful [findAll] answers: views of rows of [rows] that pass
    the filter, a slice of them in the order of the query. *)
Lemma findAll_inr rows q s l s' :
  findAll rows q s = (inr l, s') →
  s' = s ∧ ∃ d sorted,
    parse_direction (order q).2 = Some d
    ∧ l = view s <$> sorted
    ∧ sorted `sublist_of`
        order_by s (order q).1 d q (filter (λ p, where_matches q p = true) rows).
Proof.
  unfold findAll. destruct (parse_direction _) as [d|]; [|done].
  destruct (negb _); [done|]. destruct (_ && _); [done|].
  rewrite bind_run. unfold gets.
  destruct (pagination q) as [[limit offset]|].
  - destruct (bool_decide _); [done|]. intros [= <- <-].
    split; [done|]. eexists d, _. split; [done|]. split; [done|].
    etrans; [apply sublist_take|apply sublist_drop].
  - intros [= <- <-]. split; [done|]. by eexists d, _.
Qed.

Lemma order_by_elem_of s t d q rows p :
  p ∈ order_by s t d q rows ↔ p ∈ rows.
Proof. unfold order_by. by rewrite merge_sort_Permutation. Qed.

Lemma findAll_elem_of rows q s l s' v :
  findAll rows q s = (inr l, s') → v ∈ l →
  ∃ p, p ∈ rows ∧ where_matches q p = true ∧ v = view s p.
Proof.
  intros H Hv. apply findAll_inr in H as (_ & d & sorted & _ & -> & Hsub).
  apply list_elem_of_fmap in Hv as (p & -> & Hp).
  eapply sublist_subseteq in Hp; [|exact Hsub].
  apply order_by_elem_of, list_elem_of_filter in Hp as [Hw Hp]. eauto.
Qed.

Lemma Category_findByPk_Some id s c :
  head (filter (λ c, c_id c = id) (Categories s)) = Some c →
  c ∈ Categories s ∧ c_id c = id.
Proof.
  intros H. apply head_Some_elem_of in H.
  by apply list_elem_of_filter in H as [? ?].
Qed.

Lemma Category_findByPk_None id s :
  id ∉ c_id <$> Categories s →
  head (filter (λ c, c_id c = id) (Categories s)) = None.
Proof.
  intros Hid. destruct (head _) as [c|] eqn:H; [|done].
  apply Category_findByPk_Some in H as [Hc <-].
  destruct Hid. by apply list_elem_of_fmap_2.
Qed.

(** What a successful [getProducts] answers, by the scope of the query. *)
Lemma getProducts_success q s st l :
  getProducts q s = Success st l →
  ∃ rows,
    findAll rows q s = (inr (data l), s)
    ∧ total_data l = count rows q
    ∧ match q_categoryId q with
      | Some cid => ∃ c, c ∈ Categories s ∧ c_id c = cid ∧ rows = products_of s c
      | None => rows = Products s
      end.
Proof.
  unfold getProducts. intros H.
  destruct (respond (getProducts_try q) s) as [r s'] eqn:Hr.
  simpl in H. subst r. apply respond_success in Hr as [-> Hr].
  unfold getProducts_try in Hr.
  destruct (q_categoryId q) as [cid|].
  - apply bind_inr in Hr as (categoryData & s0 & Hc & Hr).
    injection Hc as <- <-.
    destruct (head _) as [c|] eqn:Hhead; [|done].
    apply Category_findByPk_Some in Hhead as [Hc <-].
    apply bind_inr in Hr as (productsData & s1 & Hfind & Hr).
    rewrite bind_run in Hfind. unfold gets at 1 in Hfind.
    destruct (findAll_inr _ _ _ _ _ Hfind) as [-> _].
    injection Hr as <- <-. exists (products_of s c).
    split; [exact Hfind|]. split; [done|]. eauto.
  - apply bind_inr in Hr as (productsData & s1 & Hfind & Hr).
    rewrite bind_run in Hfind. unfold gets at 1 in Hfind.
    destruct (findAll_inr _ _ _ _ _ Hfind) as [-> _].
    injection Hr as <- <-. exists (Products s).
    split; [exact Hfind|]. done.
Qed.

(** When a listing is answered: the direction is one the store knows, the
    column exists, a page is not ordered by the excluded column, the page
    window is not negative, and the category of the scope, if any,
    exists. *)
Lemma findAll_succeeds rows q s d :
  parse_direction (order q).2 = Some d →
  known_column (order q).1 = true →
  (paginated q = true →
     excluded_column (order q).1 = false ∧ 0 < perPage q ∧ 0 < page q) →
  ∃ l, findAll rows q s = (inr l, s).
Proof.
  intros Hd Hcol Hpage. unfold findAll. rewrite Hd, Hcol. cbn [negb].
  unfold pagination.
  destruct (paginated q); [|cbn [andb]; rewrite bind_run; by eexists].
  destruct Hpage as (-> & Hper & Hpg); [done|]. cbn [andb].
  rewrite bind_run. unfold gets.
  rewrite bool_decide_eq_false_2 by nia. by eexists.
Qed.

Lemma getProducts_succeeds q s d :
  parse_direction (order q).2 = Some d →
  known_column (order q).1 = true →
  (paginated q = true →
     excluded_column (order q).1 = false ∧ 0 < perPage q ∧ 0 < page q) →
  (∀ cid, q_categoryId q = Some cid → cid ∈ c_id <$> Categories s) →
  ∃ l, getProducts q s = Success 200 l.
Proof.
  intros Hd Hcol Hpage Hcat. unfold getProducts, respond, getProducts_try.
  destruct (q_categoryId q) as [cid|].
  - specialize (Hcat cid eq_refl).
    apply list_elem_of_fmap in Hcat as (c & -> & Hc).
    rewrite bind_run. unfold Category_findByPk, gets. cbn beta iota.
    destruct (head (filter (λ c0, c_id c0 = c_id c) (Categories s)))
      as [c'|] eqn:Hhead.
    + destruct (findAll_succeeds (products_of s c') q s d Hd Hcol Hpage)
        as [l Hl].
      rewrite !bind_run. cbn beta iota. unfold id. rewrite Hl.
      by eexists.
    + apply head_None in Hhead.
      assert (c ∈ filter (λ c0, c_id c0 = c_id c) (Categories s)) as Hin
        by by apply list_elem_of_filter.
      rewrite Hhead in Hin. by apply not_elem_of_nil in Hin.
  - destruct (findAll_succeeds (Products s) q s d Hd Hcol Hpage) as [l Hl].
    unfold gets. rewrite !bind_run. cbn beta iota. unfold id. rewrite Hl.
    by eexists.
Qed.


(** C7 (as amended). A listing scoped to a category whose key matches no
    Category row fails with "invalid categoryId", status 400: the
    InvalidReference kind, not NotFound. When the category exists, every
    product of the answer is a product linked to it that passes the name
    filter, and the total is the number of products that are linked to it
    and pass the name filter, not a count over the whole Product table. *)
Theorem getProducts_category_scope q s cid :
  q_categoryId q = Some cid →
  (cid ∉ c_id <$> Categories s →
     getProducts q s = Failure (ResponseError "invalid categoryId" 400)
     ∧ error_kind (ResponseError "invalid categoryId" 400) = InvalidReference)
  ∧ (cid ∈ c_id <$> Categories s →
     ∀ st l, getProducts q s = Success st l →
       (∀ v, v ∈ data l →
          ∃ p, p ∈ Products s ∧ (p_id p, cid) ∈ ProductCategories s
               ∧ where_matches q p = true ∧ v = view s p)
       ∧ total_data l
         = Z.of_nat (length (filter
             (λ p, where_matches q p = true ∧ (p_id p, cid) ∈ ProductCategories s)
             (Products s)))).
Proof.
  intros Hcid. split.
  - intros Hnone. split; [|done].
    unfold getProducts, respond, getProducts_try. rewrite Hcid, bind_run.
    unfold Category_findByPk, gets.
    by rewrite Category_findByPk_None.
  - intros _ st l H.
    apply getProducts_success in H as (rows & Hfind & Htotal & Hrows).
    rewrite Hcid in Hrows. destruct Hrows as (c & Hc & <- & ->). split.
    + intros v Hv.
      destruct (findAll_elem_of _ _ _ _ _ _ Hfind Hv) as (p & Hp & Hw & ->).
      apply list_elem_of_filter in Hp as [Hlink Hp]. eauto.
    + rewrite Htotal. unfold count, products_of.
      by rewrite list_filter_filter.
Qed.

(** ** Variant reconciliation *)

Lemma set_Variants_same s : set_Variants (Variants s) s = s.
Proof. by destruct s. Qed.

Lemma filter_ext_in {A} (P Q : A → Prop)
    `{!∀ x, Decision (P x), !∀ x, Decision (Q x)} (l : list A) :
  (∀ x, x ∈ l → P x ↔ Q x) → filter P l = filter Q l.
Proof.
  induction l as [|x l IH]; intros Hext; [done|].
  rewrite !filter_cons.
  rewrite IH by (intros y Hy; apply Hext; by right).
  apply decide_ext, Hext. by left.
Qed.

Lemma filter_all {A} (P : A → Prop) `{!∀ x, Decision (P x)} (l : list A) :
  (∀ x, x ∈ l → P x) → filter P l = l.
Proof.
  induction l as [|x l IH]; intros Hall; [done|].
  rewrite filter_cons_True by (apply Hall; by left).
  f_equal. apply IH. intros y Hy. apply Hall. by right.
Qed.

Lemma NoDup_fmap_eq {A B} (f : A → B) (l : list A) x y :
  NoDup (f <$> l) → x ∈ l → y ∈ l → f x = f y → x = y.
Proof.
  induction l as [|z l IH]; intros Hnd Hx Hy Hf; [by apply not_elem_of_nil in Hx|].
  rewrite fmap_cons in Hnd. apply NoDup_cons in Hnd as [Hz Hnd].
  apply elem_of_cons in Hx as [->|Hx]; apply elem_of_cons in Hy as [->|Hy].
  - done.
  - destruct Hz. rewrite Hf. by apply list_elem_of_fmap_2.
  - destruct Hz. rewrite <- Hf. by apply list_elem_of_fmap_2.
  - by apply IH.
Qed.

(** The first loop destroys the rows whose key is that of a listed row of
    the product that no input claims. *)
Lemma destroy_loop ids variantsData s :
  for_of variantsData (destroy_unless_listed ids) s
  = (inr tt,
     set_Variants
       (filter (λ v, v_id v ∉ v_id <$> filter (λ w, Some (v_id w) ∉ ids) variantsData)
               (Variants s)) s).
Proof.
  revert s. induction variantsData as [|w vd IH]; intros s.
  - simpl. rewrite filter_all; [by rewrite set_Variants_same|].
    intros x _. apply not_elem_of_nil.
  - cbn [for_of]. rewrite bind_run. unfold destroy_unless_listed at 1.
    destruct (decide (Some (v_id w) ∈ ids)) as [Hin|Hout].
    + rewrite bool_decide_eq_true_2 by done. cbn [mret M_ret].
      rewrite IH. rewrite filter_cons_False by (intros Hn; by apply Hn). done.
    + rewrite bool_decide_eq_false_2 by done.
      unfold Variant_destroy, modify. rewrite IH.
      rewrite (filter_cons_True _ w) by done. cbn [Variants set_Variants].
      rewrite list_filter_filter. unfold set_Variants. cbn.
      do 2 f_equal. apply list_filter_iff. intros v.
      rewrite not_elem_of_cons. tauto.
Qed.

Lemma write_to_id u v : v_id (write_to u v) = v_id v.
Proof. unfold write_to. by destruct (bool_decide _). Qed.

Lemma write_to_productId u v : v_productId (write_to u v) = v_productId v.
Proof. unfold write_to. by destruct (bool_decide _). Qed.

Lemma updated_id us v : v_id (updated us v) = v_id v.
Proof.
  unfold updated. revert v. induction us as [|u us IH]; intros v; [done|].
  simpl. by rewrite IH, write_to_id.
Qed.

Lemma updated_productId us v : v_productId (updated us v) = v_productId v.
Proof.
  unfold updated. revert v. induction us as [|u us IH]; intros v; [done|].
  simpl. by rewrite IH, write_to_productId.
Qed.

Lemma updated_ids us (vs : list Variant) : v_id <$> (updated us <$> vs) = v_id <$> vs.
Proof.
  rewrite <- list_fmap_compose. apply list_fmap_ext. intros _ v _.
  apply updated_id.
Qed.

(** One round of the second loop, when it does not throw: the input's id
    is the key of a row, and its fields are written to the rows of that
    key, whichever product owns them. *)
Lemma update_existed_inr u s r s' :
  update_existed u s = (inr r, s') →
  ∃ id, vi_id u = Some id ∧ id ∈ v_id <$> Variants s
        ∧ s' = set_Variants (write_to u <$> Variants s) s.
Proof.
  unfold update_existed. intros H.
  apply bind_inr in H as (n & s1 & Hn & H).
  destruct (vi_id u) as [id|] eqn:Hid; [|done].
  unfold Variant_update in Hn. destruct (negb (Variant_valid _)); [done|].
  destruct (negb (carries_value _)); [by injection Hn as <- <-|].
  apply bind_inr in Hn as (vs & s2 & Hvs & Hn). injection Hvs as <- <-.
  apply bind_inr in Hn as ([] & s3 & Hmod & Hn). injection Hmod as <-.
  injection Hn as <- <-.
  destruct (bool_decide _) eqn:Hz; [done|]. apply bool_decide_eq_false in Hz.
  injection H as _ <-. exists id. split; [done|]. split.
  - destruct (filter (λ v, v_id v = id) (Variants s)) as [|v l] eqn:Hf; [done|].
    assert (v ∈ filter (λ v, v_id v = id) (Variants s)) as Hv
      by (rewrite Hf; by left).
    apply list_elem_of_filter in Hv as [<- Hv]. by apply list_elem_of_fmap_2.
  - f_equal. apply list_fmap_ext. intros _ v _. unfold write_to. rewrite Hid.
    rewrite (bool_decide_ext (v_id v = id) (Some id = Some (v_id v))); [done|].
    split; [by intros ->|by intros [= ->]].
Qed.

(** The converse: an id that is the key of a row is accepted, whoever owns
    the row, when the input carries a field to write. *)
Lemma update_existed_any_owner u id s :
  vi_id u = Some id →
  Variant_valid (restrict ["name"; "price"; "stock"] u) = true →
  carries_value (restrict ["name"; "price"; "stock"] u) = true →
  id ∈ v_id <$> Variants s →
  update_existed u s = (inr tt, set_Variants (write_to u <$> Variants s) s).
Proof.
  intros Hid Hvalid Hcarries Hin. unfold update_existed. rewrite Hid, bind_run.
  unfold Variant_update. rewrite Hvalid, Hcarries. cbn [negb]. mrun.
  cbn [mret M_ret].
  apply list_elem_of_fmap in Hin as (v & -> & Hv).
  rewrite bool_decide_eq_false_2.
  - do 2 f_equal. apply list_fmap_ext. intros _ w _. unfold write_to. rewrite Hid.
    rewrite (bool_decide_ext (v_id w = v_id v) (Some (v_id v) = Some (v_id w)));
      [done|].
    split; [by intros ->|by intros [= ->]].
  - assert (v ∈ filter (λ w, v_id w = v_id v) (Variants s)) as Hf
      by by apply list_elem_of_filter.
    destruct (filter _ (Variants s)); [by apply not_elem_of_nil in Hf|].
    simpl. lia.
Qed.

Lemma update_loop us s r s' :
  for_of us update_existed s = (inr r, s') →
  s' = set_Variants (updated us <$> Variants s) s
  ∧ Forall (λ u, ∃ id, vi_id u = Some id ∧ id ∈ v_id <$> Variants s) us.
Proof.
  revert s. induction us as [|u us IH]; intros s H.
  - injection H as _ <-. split; [|done].
    rewrite (list_fmap_ext (updated []) id) by done.
    by rewrite list_fmap_id, set_Variants_same.
  - cbn [for_of] in H. apply bind_inr in H as (r1 & s1 & Hu & H).
    apply update_existed_inr in Hu as (id & Hid & Hin & ->).
    apply IH in H as [-> Hall]. cbn [Variants set_Variants] in *. split.
    + unfold set_Variants. cbn. f_equal.
      rewrite <- list_fmap_compose. by apply list_fmap_ext.
    + constructor; [eauto|].
      eapply Forall_impl; [exact Hall|]. intros u' (id' & ? & Hin').
      exists id'. split; [done|].
      rewrite <- list_fmap_compose in Hin'.
      rewrite (list_fmap_ext (v_id ∘ write_to u) v_id) in Hin'; [done|].
      intros _ v _. apply write_to_id.
Qed.

Lemma instance_id_new v key :
  truthy_id (vi_id v) = false → instance_id v key = key.
Proof.
  unfold instance_id, truthy_id. destruct (vi_id v) as [n|]; [|done].
  by destruct (n =? 0).
Qed.

Lemma instance_id_given v key n :
  vi_id v = Some n → n ≠ 0 → instance_id v key = n.
Proof.
  unfold instance_id. intros -> Hn. by apply Z.eqb_neq in Hn as ->.
Qed.

(** What [bulkCreate] inserts and what it answers: the rows go in under
    the next keys, and the answer names each by the key of its instance. *)
Lemma Variant_bulkCreate_instances inputs fields s instances s' :
  Variant_bulkCreate inputs fields s = (inr instances, s') →
  let rows := imap (λ i v, new_row (Variant_seq s + Z.of_nat i)
                             (restrict fields v) None) inputs in
  instances = imap (λ i v, new_row (instance_id v (Variant_seq s + Z.of_nat i))
                             (restrict fields v) None) inputs
  ∧ Variants s' = (Variants s ++ rows)%list
  ∧ Forall (λ r, v_id r ∉ v_id <$> Variants s) rows.
Proof.
  unfold Variant_bulkCreate. destruct (bool_decide (Forall _ _)); [|done].
  intros H. apply bind_inr in H as (ids & s1 & Hids & H). injection Hids as <- <-.
  apply bind_inr in H as (seq & s2 & Hseq & H). injection Hseq as <- <-.
  apply bind_inr in H as ([] & s3 & Hmod & H). injection Hmod as <-.
  destruct (bool_decide (Exists _ _)) eqn:Hex; [done|].
  apply bool_decide_eq_false in Hex.
  apply bind_inr in H as ([] & s4 & Hmod & H). injection Hmod as <-.
  injection H as <- <-. split; [done|]. split; [done|].
  apply not_Exists_Forall in Hex; [exact Hex|]. intros r. apply _.
Qed.

(** For inputs without an id, as the edit passes them, the answer is the
    inserted rows. *)
Lemma Variant_bulkCreate_inr inputs fields s rows s' :
  Forall (λ v, truthy_id (vi_id v) = false) inputs →
  Variant_bulkCreate inputs fields s = (inr rows, s') →
  rows = imap (λ i v, new_row (Variant_seq s + Z.of_nat i) (restrict fields v) None) inputs
  ∧ Variants s' = (Variants s ++ rows)%list
  ∧ Forall (λ r, v_id r ∉ v_id <$> Variants s) rows.
Proof.
  intros Hnew H.
  apply Variant_bulkCreate_instances in H as (-> & Htbl & Hfresh).
  assert (imap (λ i v, new_row (instance_id v (Variant_seq s + Z.of_nat i))
                         (restrict fields v) None) inputs
          = imap (λ i v, new_row (Variant_seq s + Z.of_nat i)
                           (restrict fields v) None) inputs) as ->.
  { apply imap_ext. intros i v Hv. cbn. rewrite instance_id_new; [done|].
    rewrite Forall_forall in Hnew. eapply Hnew, list_elem_of_lookup_2, Hv. }
  done.
Qed.

Lemma newVariants_new vs : Forall (λ v, truthy_id (vi_id v) = false) (newVariants vs).
Proof.
  apply Forall_forall. intros v Hv.
  by apply list_elem_of_filter in Hv as [? _].
Qed.

(** What the block "update product variant" leaves in the Variant table
    when it completes for the product [p] and the inputs [vs]. *)
Lemma update_product_variant_inr p b vs s r s' :
  variants b = Some vs → vs ≠ [] →
  update_product_variant (Some p) b s = (inr r, s') →
  let doomed := filter (λ w, Some (v_id w) ∉ updateVariantsId vs)
                  (filter (λ v, v_productId v = Some (p_id p)) (Variants s)) in
  let kept := filter (λ v, v_id v ∉ v_id <$> doomed) (Variants s) in
  let created := imap (λ i v, new_row (Variant_seq s + Z.of_nat i)
                                (restrict ["name"; "price"; "stock"] v)
                                (Some (p_id p))) (newVariants vs) in
  Variants s' = ((updated (updateVariants vs) <$> kept) ++ created)%list
  ∧ Forall (λ u, ∃ id, vi_id u = Some id ∧ id ∈ v_id <$> kept) (updateVariants vs)
  ∧ Forall (λ r, v_id r ∉ v_id <$> kept) created.
Proof.
  intros Hvs Hne H. unfold update_product_variant in H. rewrite Hvs in H.
  destruct vs as [|v0 vs0]; [done|]. set (vs := v0 :: vs0) in *.
  apply bind_inr in H as (variantsData & s0 & Hget & H). injection Hget as <- <-.
  apply bind_inr in H as ([] & s1 & Hdel & H).
  rewrite destroy_loop in Hdel. injection Hdel as <-.
  apply bind_inr in H as ([] & s2 & Hupd & H).
  apply update_loop in Hupd as [-> Hmatched]. cbn [Variants set_Variants] in *.
  apply bind_inr in H as (rows & s3 & Hnew & H).
  apply Variant_bulkCreate_inr in Hnew as (-> & Htbl & Hfresh);
    [|apply newVariants_new].
  cbn [Variants set_Variants Variant_seq] in *.
  injection H as _ <-. cbn [Variants set_Variants]. rewrite Htbl.
  rewrite updated_ids in Hfresh.
  set (rows := imap (λ i v, new_row _ _ None) (newVariants vs)) in *.
  set (created := imap (λ i v, new_row _ _ (Some (p_id p))) (newVariants vs)).
  set (kept := filter (λ v, v_id v ∉ _) (Variants s)) in *.
  assert (v_id <$> created = v_id <$> rows) as Hids.
  { unfold created, rows. rewrite !fmap_imap. by apply imap_ext. }
  split; [|split].
  - rewrite fmap_app. f_equal.
    + rewrite <- (list_fmap_id (updated (updateVariants vs) <$> kept)) at 2.
      apply list_fmap_ext. intros i v Hv.
      rewrite bool_decide_eq_false_2; [done|]. intros Hin.
      apply list_elem_of_fmap in Hin as (r' & Hr' & Hin).
      rewrite Forall_forall in Hfresh. apply (Hfresh r' Hin).
      rewrite <- Hr'. rewrite <- (updated_ids (updateVariants vs)).
      apply list_elem_of_fmap_2. by eapply list_elem_of_lookup_2.
    + unfold created, rows. rewrite fmap_imap. apply imap_ext.
      intros i v Hv. cbn.
      rewrite bool_decide_eq_true_2; [done|].
      change (v_id (new_row (Variant_seq s + Z.of_nat i)
                (restrict ["name"; "price"; "stock"] v) None)
              ∈ v_id <$> rows).
      apply list_elem_of_fmap_2. unfold rows.
      by apply (elem_of_lookup_imap_2
        (λ (i : nat) v, new_row (Variant_seq s + Z.of_nat i)
                          (restrict ["name"; "price"; "stock"] v) None)
        (newVariants vs) v i).
  - exact Hmatched.
  - rewrite Forall_forall in Hfresh |- *. intros r' Hr'.
    assert (v_id r' ∈ v_id <$> rows) as Hin
      by (rewrite <- Hids; by apply list_elem_of_fmap_2).
    apply list_elem_of_fmap in Hin as (r2 & -> & Hr2). by apply Hfresh.
Qed.

Lemma transaction_inr_inv {A} (m : M A) s a s' :
  transaction m s = (inr a, s') → m s = (inr a, s').
Proof. unfold transaction. by destruct (m s) as [[e|a1] s1]. Qed.

Lemma Product_update_Variants values id opts n s :
  Variants (Product_update values id opts n s).2 = Variants s
  ∧ Variant_seq (Product_update values id opts n s).2 = Variant_seq s.
Proof.
  unfold Product_update, gets, modify, throw.
  destruct (negb _); [done|]. destruct (bool_decide (size _ = _)); [done|].
  rewrite !bind_run.
  destruct (bool_decide _); [done|]. by rewrite !bind_run.
Qed.

Lemma set_product_category_Variants productData b s :
  Variants (set_product_category productData b s).2 = Variants s
  ∧ Variant_seq (set_product_category productData b s).2 = Variant_seq s.
Proof.
  unfold set_product_category.
  destruct (categoryId b) as [[|c ids]|]; [done| |done].
  rewrite bind_run. unfold Category_findAll, gets.
  destruct (bool_decide _); [done|]. by destruct productData.
Qed.

Lemma truthy_id_false o : truthy_id o = false ↔ o = None ∨ o = Some 0.
Proof.
  unfold truthy_id. destruct o as [n|]; [|by split; auto].
  destruct (Z.eqb_spec n 0) as [->|Hn]; simpl.
  - split; auto.
  - split; [done|]. intros [|[= ]]; done.
Qed.

Lemma truthy_id_true o : truthy_id o = true ↔ ∃ id, o = Some id ∧ id ≠ 0.
Proof.
  unfold truthy_id. destruct o as [n|]; [|split; [done|by intros (? & ? & _)]].
  destruct (Z.eqb_spec n 0) as [->|Hn]; simpl.
  - split; [done|]. by intros (id & [= <-] & ?).
  - split; [eauto|done].
Qed.

(** C1 (as amended). Take an edit that supplies a non-empty variant list
    [vs] and completes, in a store whose Variant keys are unique and below
    the counter. The reconciliation acts on three lists. toCreate is the
    inputs of [vs] whose id is absent or 0; toUpdate is the inputs of [vs]
    whose id is a number other than 0: the source tells them apart by the
    truthiness of the id, not by its presence. toDelete is the product's
    rows whose id no input of toUpdate carries. The Variant table after
    the edit is the rows outside toDelete, with the writes of toUpdate
    applied, followed by one new row per input of toCreate, owned by the
    product; of the rows the table held, exactly those of toDelete have
    lost their key, and every input of toUpdate has its row. *)
Theorem editProductById_reconciles req s st r s' vs :
  NoDup (v_id <$> Variants s) →
  Forall (λ v, v_id v < Variant_seq s) (Variants s) →
  variants (body req) = Some vs → vs ≠ [] →
  editProductById req s = (Success st r, s') →
  let pid := params_id req in
  let toCreate := newVariants vs in
  let toUpdate := updateVariants vs in
  let orphaned v := v_productId v = Some pid ∧ Some (v_id v) ∉ vi_id <$> toUpdate in
  let toDelete := filter orphaned (Variants s) in
  (∀ v, v ∈ toCreate ↔ v ∈ vs ∧ (vi_id v = None ∨ vi_id v = Some 0))
  ∧ (∀ v, v ∈ toUpdate ↔ v ∈ vs ∧ ∃ id, vi_id v = Some id ∧ id ≠ 0)
  ∧ Variants s'
    = ((updated toUpdate <$> filter (λ v, ¬ orphaned v) (Variants s))
       ++ imap (λ i v, new_row (Variant_seq s + Z.of_nat i)
                         (restrict ["name"; "price"; "stock"] v) (Some pid))
               toCreate)%list
  ∧ (∀ v, v ∈ Variants s → v_id v ∉ v_id <$> Variants s' ↔ v ∈ toDelete)
  ∧ (∀ u, u ∈ toUpdate →
       ∃ v, v ∈ Variants s ∧ vi_id u = Some (v_id v)
            ∧ updated toUpdate v ∈ Variants s').
Proof.
  intros Hpk Hseq Hvs Hne H pid toCreate toUpdate orphaned toDelete.
  split; [|split].
  { intros v. unfold toCreate, newVariants.
    rewrite list_elem_of_filter, truthy_id_false. tauto. }
  { intros v. unfold toUpdate, updateVariants.
    rewrite list_elem_of_filter, truthy_id_true. tauto. }
  unfold editProductById in H. apply respond_success in H as [_ H].
  apply transaction_inr_inv in H. unfold editProductById_callback in H.
  apply bind_inr in H as ([b productData] & s1 & Hupd & H).
  apply bind_inr in H as ([] & s2 & Hcat & H).
  apply bind_inr in H as ([] & s3 & Hvar & H). injection H as _ <-.
  destruct (update_product_inr _ _ _ _ _ Hupd)
    as (_ & Hb & _ & n & Hrow & _ & Hhead).
  rewrite <- Hb in Hvs.
  destruct productData as [p|]; cycle 1.
  { unfold update_product_variant in Hvar. rewrite Hvs in Hvar.
    by destruct vs. }
  assert (p_id p = pid) as Hp.
  { symmetry in Hhead. apply head_Some_elem_of in Hhead.
    by apply list_elem_of_filter in Hhead as [? _]. }
  assert (Variants s2 = Variants s ∧ Variant_seq s2 = Variant_seq s) as [Htbl Hctr].
  { pose proof (set_product_category_Variants (Some p) b s1) as [H1 H2].
    rewrite Hcat in H1, H2. simpl in H1, H2.
    pose proof (Product_update_Variants (attrs b) (params_id req)
      [("field", ["name"; "description"; "image"; "isActive"])] (now req) s)
      as [H3 H4].
    rewrite Hrow in H3, H4. simpl in H3, H4. split; congruence. }
  destruct (update_product_variant_inr _ _ _ _ _ _ Hvs Hne Hvar)
    as (Hfinal & Hmatched & Hfresh).
  rewrite Htbl, Hp in Hfinal, Hmatched, Hfresh.
  rewrite Hctr in Hfinal, Hfresh.
  fold toUpdate toCreate in Hfinal, Hmatched, Hfresh.
  change (updateVariantsId vs) with (vi_id <$> toUpdate) in Hfinal, Hmatched, Hfresh.
  rewrite list_filter_filter in Hfinal, Hmatched, Hfresh.
  rewrite (list_filter_iff
    (λ a, (Some (v_id a) ∉ vi_id <$> toUpdate) ∧ v_productId a = Some pid) orphaned)
    in Hfinal, Hmatched, Hfresh by (intros v; unfold orphaned; tauto).
  fold toDelete in Hfinal, Hmatched, Hfresh.
  assert (filter (λ v, v_id v ∉ v_id <$> toDelete) (Variants s)
          = filter (λ v, ¬ orphaned v) (Variants s)) as Hkept.
  { apply filter_ext_in. intros v Hv. split.
    - intros Hnot Hl. apply Hnot, list_elem_of_fmap_2.
      by apply list_elem_of_filter.
    - intros Hnl Hin. apply list_elem_of_fmap in Hin as (w & Hid & Hw).
      apply list_elem_of_filter in Hw as [Hl Hw].
      by rewrite (NoDup_fmap_eq v_id (Variants s) v w) in Hnl. }
  rewrite Hkept in Hfinal, Hmatched, Hfresh.
  split; [exact Hfinal|]. split.
  - intros v Hv. unfold toDelete. rewrite list_elem_of_filter.
    rewrite Hfinal, fmap_app, elem_of_app, updated_ids. split.
    + intros Hgone. split; [|done].
      destruct (decide (orphaned v)) as [|Hkeep]; [done|].
      destruct Hgone. left. apply list_elem_of_fmap_2.
      by apply list_elem_of_filter.
    + intros [Hl _] [Hin|Hin].
      * apply list_elem_of_fmap in Hin as (w & Hid & Hw).
        apply list_elem_of_filter in Hw as [Hnl Hw].
        by rewrite <- (NoDup_fmap_eq v_id (Variants s) v w) in Hnl.
      * apply list_elem_of_fmap in Hin as (w & Hid & Hw).
        apply elem_of_lookup_imap in Hw as (i & u & -> & _).
        rewrite Forall_forall in Hseq. specialize (Hseq v Hv).
        simpl in Hid. lia.
  - intros u Hu. rewrite Forall_forall in Hmatched.
    destruct (Hmatched u Hu) as (id & Hid & Hin).
    apply list_elem_of_fmap in Hin as (v & -> & Hv).
    exists v. split; [by apply list_elem_of_filter in Hv as [_ ?]|].
    split; [done|]. rewrite Hfinal, elem_of_app. left.
    by apply list_elem_of_fmap_2.
Qed.

(** ** What the writes leave alone *)

Lemma for_of_invariant {A} (P : Store → Prop) (f : A → M unit) (l : list A) s :
  (∀ x s0, P s0 → P (f x s0).2) → P s → P (for_of l f s).2.
Proof.
  intros Hf. revert s. induction l as [|x l IH]; intros s Hs; [done|].
  cbn [for_of]. rewrite bind_run.
  specialize (Hf x s Hs). destruct (f x s) as [[e|[]] s1]; [done|].
  by apply IH.
Qed.

Lemma same_but_variants_refl s : same_but_variants s s.
Proof. by repeat split. Qed.

Lemma Variant_update_frame s0 u id fields s :
  same_but_variants s0 s →
  same_but_variants s0 (Variant_update u id fields s).2.
Proof.
  intros Hs. unfold Variant_update. destruct (negb (Variant_valid _)); [done|].
  destruct (negb _); [done|]. by mrun.
Qed.

Lemma Variant_bulkCreate_frame s0 inputs fields s :
  same_but_variants s0 s →
  same_but_variants s0 (Variant_bulkCreate inputs fields s).2.
Proof.
  intros Hs. unfold Variant_bulkCreate.
  destruct (bool_decide (Forall _ _)); [|done]. mrun.
  destruct (bool_decide (Exists _ _)); [done|]. by mrun.
Qed.

Lemma update_product_variant_frame productData b s :
  same_but_variants s (update_product_variant productData b s).2.
Proof.
  unfold update_product_variant.
  destruct (variants b) as [[|v0 vs0]|]; [apply same_but_variants_refl| |
    apply same_but_variants_refl].
  set (vs := v0 :: vs0). rewrite bind_run.
  destruct productData as [p|]; [|apply same_but_variants_refl].
  unfold getVariants at 1, gets at 1. cbn beta iota. rewrite bind_run.
  pose proof (for_of_invariant (same_but_variants s)
    (destroy_unless_listed (updateVariantsId vs))
    (filter (λ v, v_productId v = Some (p_id p)) (Variants s)) s) as H1.
  destruct (for_of _ (destroy_unless_listed _) s) as [[e|[]] s1];
    simpl in H1; [apply H1|].
  - intros x s0 Hs0. unfold destroy_unless_listed.
    by destruct (bool_decide _).
  - apply same_but_variants_refl.
  - assert (same_but_variants s s1) as Hs1.
    { apply H1; [|apply same_but_variants_refl].
      intros x s0 Hs0. unfold destroy_unless_listed.
      by destruct (bool_decide _). }
    clear H1. rewrite bind_run.
    pose proof (for_of_invariant (same_but_variants s) update_existed
      (updateVariants vs) s1) as H2.
    assert (∀ x s0, same_but_variants s s0 →
              same_but_variants s (update_existed x s0).2) as Hbody.
    { intros x s0 Hs0. unfold update_existed. rewrite bind_run.
      destruct (vi_id x) as [id|]; [|done].
      pose proof (Variant_update_frame s x id ["name"; "price"; "stock"] s0 Hs0) as H.
      destruct (Variant_update _ _ _ s0) as [[e|n] s2]; [done|].
      by destruct (bool_decide _). }
    specialize (H2 Hbody Hs1).
    destruct (for_of _ update_existed s1) as [[e|[]] s2]; [done|].
    simpl in H2. rewrite bind_run.
    pose proof (Variant_bulkCreate_frame s (newVariants vs)
      ["name"; "price"; "stock"] s2 H2) as H3.
    destruct (Variant_bulkCreate _ _ s2) as [[e|rows] s3]; [done|].
    done.
Qed.

(** ** What a completed mutation went through *)

Lemma Product_create_inr values opts n s p s1 :
  Product_create values opts n s = (inr p, s1) →
  let w := written opts values in
  Product_valid w = true
  ∧ p_id p = default (Product_seq s) (explicit_id w)
  ∧ (p_id p ∉ p_id <$> Products s)
  ∧ p_cols p !! "updatedAt" = Some (VNum n)
  ∧ (∀ k, k ≠ "id" → k ≠ "createdAt" → k ≠ "updatedAt" → p_cols p !! k = w !! k)
  ∧ Products s1 = (Products s ++ [p])%list
  ∧ Categories s1 = Categories s ∧ Variants s1 = Variants s
  ∧ ProductCategories s1 = ProductCategories s
  ∧ Variant_seq s1 = Variant_seq s.
Proof.
  unfold Product_create. intros H.
  destruct (Product_valid _) eqn:Hvalid; [|done]. cbn [negb] in H.
  apply bind_inr in H as (ids & s0 & Hids & H). injection Hids as <- <-.
  apply bind_inr in H as (seq & s0 & Hseq & H). injection Hseq as <- <-.
  apply bind_inr in H as ([] & s0 & Hmod & H). injection Hmod as <-.
  destruct (bool_decide _) eqn:Hfresh; [done|].
  apply bool_decide_eq_false in Hfresh.
  apply bind_inr in H as ([] & s2 & Hmod & H). injection Hmod as <-.
  injection H as <- <-. cbn.
  split; [done|]. split; [done|]. split; [done|].
  split; [by rewrite lookup_insert_eq|]. split; [|done].
  intros k Hid Hc Hu.
  by rewrite !lookup_insert_ne, lookup_delete_ne.
Qed.

Lemma Product_update_inr values id opts n s c s1 :
  Product_update values id opts n s = (inr c, s1) → c ≠ 0 →
  let w := written opts values in
  Product_valid w = true
  ∧ c = Z.of_nat (length (filter (λ p, p_id p = id) (Products s)))
  ∧ s1 = set_Products (edited w id n <$> Products s) s
  ∧ size (delete "updatedAt" w) ≠ 0%nat.
Proof.
  unfold Product_update. intros H Hc.
  destruct (Product_valid _) eqn:Hvalid; [|done]. cbn [negb] in H.
  destruct (bool_decide (size _ = _)) eqn:Hsize; [by injection H as <- <-|].
  apply bool_decide_eq_false in Hsize.
  apply bind_inr in H as (ps & s0 & Hps & H). injection Hps as <- <-.
  destruct (bool_decide _); [done|].
  apply bind_inr in H as ([] & s2 & Hmod & H). injection Hmod as <-.
  by injection H as <- <-.
Qed.

(** The body the writes of a mutation see: the request's, with the
    normalized upload under [image] when there is one. *)
Lemma update_product_body req s b productData s1 :
  update_product req s = (inr (b, productData), s1) →
  (file req = None ∧ b = body req
   ∨ ∃ buffer png, file req = Some buffer ∧ sharp_png buffer = Some png
                   ∧ b = set_image png (body req))
  ∧ Object_keys_length b ≠ 0%nat
  ∧ Product_valid (product_values b) = true
  ∧ filter (λ p, p_id p = params_id req) (Products s) ≠ []
  ∧ s1 = set_Products (edited (product_values b) (params_id req) (now req)
                         <$> Products s) s
  ∧ productData = head (filter (λ p, p_id p = params_id req) (Products s1)).
Proof.
  unfold update_product. intros H.
  apply bind_inr in H as (b' & s0 & Hb & H).
  assert (s0 = s ∧ (file req = None ∧ b' = body req
            ∨ ∃ buffer png, file req = Some buffer ∧ sharp_png buffer = Some png
                            ∧ b' = set_image png (body req))) as [-> Hbody].
  { destruct (file req) as [buffer|]; [|injection Hb as <- <-; by eauto].
    destruct (sharp_png buffer) as [png|] eqn:Hpng; [|done].
    injection Hb as <- <-. split; [done|]. right. by eexists _, _. }
  destruct (bool_decide (Object_keys_length b' = 0%nat)) eqn:Hkeys; [done|].
  apply bool_decide_eq_false in Hkeys.
  apply bind_inr in H as (n & s2 & Hn & H).
  destruct (bool_decide (n = 0)) eqn:Hz; [done|].
  apply bool_decide_eq_false in Hz.
  apply bind_inr in H as (p' & s3 & Hp & H).
  injection Hp as <- <-. injection H as <- <- <-.
  apply Product_update_inr in Hn as (Hvalid & Hn & -> & _); [|done].
  subst n.
  split; [done|]. split; [done|]. split; [done|]. split; [|done].
  intros Hnil. by rewrite Hnil in Hz.
Qed.

Lemma editProductById_success req s st r s' :
  editProductById req s = (Success st r, s') →
  ∃ b productData s1 s2,
    update_product req s = (inr (b, productData), s1)
    ∧ set_product_category productData b s1 = (inr tt, s2)
    ∧ update_product_variant productData b s2 = (inr tt, s')
    ∧ r = view s' <$> head (filter (λ p, p_id p = params_id req) (Products s')).
Proof.
  unfold editProductById. intros H. apply respond_success in H as [_ H].
  apply transaction_inr_inv in H. unfold editProductById_callback in H.
  apply bind_inr in H as ([b productData] & s1 & Hupd & H).
  apply bind_inr in H as ([] & s2 & Hcat & H).
  apply bind_inr in H as ([] & s3 & Hvar & H). injection H as <- <-.
  by eexists b, productData, s1, s2.
Qed.

Lemma createProduct_success req s st r s' :
  createProduct req s = (Success st r, s') →
  ∃ b productData s1 s2,
    create_new_product req s = (inr (b, productData), s1)
    ∧ set_product_category (Some productData) b s1 = (inr tt, s2)
    ∧ set_product_variant productData b s2 = (inr tt, s')
    ∧ r = view s' <$> head (filter (λ p, p_id p = p_id productData) (Products s')).
Proof.
  unfold createProduct. intros H. apply respond_success in H as [_ H].
  apply transaction_inr_inv in H. unfold createProduct_callback in H.
  apply bind_inr in H as ([b productData] & s1 & Hnew & H).
  apply bind_inr in H as ([] & s2 & Hcat & H).
  apply bind_inr in H as ([] & s3 & Hvar & H). injection H as <- <-.
  by eexists b, productData, s1, s2.
Qed.

(** The category block, when it completes: nothing but the links moves,
    and the links move only when ids are listed. *)
Lemma set_product_category_inr productData b s r s' :
  set_product_category productData b s = (inr r, s') →
  Products s' = Products s ∧ Categories s' = Categories s
  ∧ Variants s' = Variants s ∧ Product_seq s' = Product_seq s
  ∧ Variant_seq s' = Variant_seq s
  ∧ match categoryId b with
    | Some ((_ :: _) as ids) =>
        length (filter (λ c, c_id c ∈ ids) (Categories s)) = length ids
        ∧ ∃ p, productData = Some p
          ∧ ProductCategories s'
            = (filter (λ l, l.1 ≠ p_id p ∨ l.2 ∈ ids) (ProductCategories s)
               ++ ((λ c, (p_id p, c)) <$>
                     filter (λ c, (p_id p, c) ∉ ProductCategories s) ids))%list
    | _ => ProductCategories s' = ProductCategories s
    end.
Proof.
  unfold set_product_category.
  destruct (categoryId b) as [[|c ids]|]; try by intros [= _ <-].
  intros H. apply bind_inr in H as (found & s0 & Hfound & H).
  injection Hfound as <- <-.
  destruct (bool_decide _) eqn:Hlen; [done|].
  apply bool_decide_eq_false in Hlen.
  destruct productData as [p|]; [|done]. injection H as _ <-.
  repeat (split; [done|]). split; [|by eexists].
  destruct (decide (length (filter (λ c0, c_id c0 ∈ c :: ids) (Categories s))
                    = length (c :: ids))); [done|]. by destruct Hlen.
Qed.

(** ** Fields the edit is not given *)

(** X1. An edit that completes without a variant list, or with an empty
    one, leaves the Variant table and its counter as they were: no row is
    deleted, written or created. *)
Theorem editProductById_without_variants req s st r s' :
  variants (body req) = None ∨ variants (body req) = Some [] →
  editProductById req s = (Success st r, s') →
  Variants s' = Variants s ∧ Variant_seq s' = Variant_seq s.
Proof.
  intros Hvs H.
  apply editProductById_success in H as (b & pd & s1 & s2 & Hupd & Hcat & Hvar & _).
  destruct (update_product_inr _ _ _ _ _ Hupd) as (_ & Hb & _ & n & Hrow & _).
  pose proof (Product_update_Variants (attrs b) (params_id req)
    [("field", ["name"; "description"; "image"; "isActive"])] (now req) s)
    as [H1 H2].
  rewrite Hrow in H1, H2. simpl in H1, H2.
  apply set_product_category_inr in Hcat as (_ & _ & H3 & _ & H4 & _).
  assert (s' = s2) as ->.
  { unfold update_product_variant in Hvar. rewrite Hb in Hvar.
    destruct Hvs as [Hvs|Hvs]; rewrite Hvs in Hvar; by injection Hvar as <-. }
  split; congruence.
Qed.

(** X2. An edit that completes without a category list, or with an empty
    one, leaves every category link as it was. *)
Theorem editProductById_without_categories req s st r s' :
  categoryId (body req) = None ∨ categoryId (body req) = Some [] →
  editProductById req s = (Success st r, s') →
  ProductCategories s' = ProductCategories s.
Proof.
  intros Hids H.
  apply editProductById_success in H as (b & pd & s1 & s2 & Hupd & Hcat & Hvar & _).
  destruct (update_product_inr _ _ _ _ _ Hupd) as (Hb & _).
  destruct (update_product_body _ _ _ _ _ Hupd) as (_ & _ & _ & _ & -> & _).
  apply set_product_category_inr in Hcat as (_ & _ & _ & _ & _ & Hlinks).
  rewrite Hb in Hlinks.
  pose proof (update_product_variant_frame pd b s2) as (_ & _ & Hframe & _).
  rewrite Hvar in Hframe. simpl in Hframe. rewrite Hframe.
  by destruct Hids as [Hids|Hids]; rewrite Hids in Hlinks.
Qed.

(** X3. An edit that completes with a non-empty category list replaces the
    links of the product: afterwards the product is linked to a category
    exactly when the list names it, whatever it was linked to before, and
    the links of every other product are as they were. Editing again with
    the same list therefore yields the same links. *)
Theorem editProductById_replaces_categories req s st r s' ids :
  categoryId (body req) = Some ids → ids ≠ [] →
  editProductById req s = (Success st r, s') →
  (∀ c, (params_id req, c) ∈ ProductCategories s' ↔ c ∈ ids)
  ∧ (∀ p c, p ≠ params_id req →
       (p, c) ∈ ProductCategories s' ↔ (p, c) ∈ ProductCategories s).
Proof.
  intros Hids Hne H.
  apply editProductById_success in H as (b & pd & s1 & s2 & Hupd & Hcat & Hvar & _).
  destruct (update_product_inr _ _ _ _ _ Hupd) as (Hb & _).
  destruct (update_product_body _ _ _ _ _ Hupd) as (_ & _ & _ & _ & -> & Hpd).
  apply set_product_category_inr in Hcat as (_ & _ & _ & _ & _ & Hlinks).
  rewrite Hb, Hids in Hlinks. destruct ids as [|c0 ids0]; [done|].
  set (ids := c0 :: ids0) in *.
  destruct Hlinks as (_ & p & -> & Hlinks).
  assert (p_id p = params_id req) as Hp.
  { symmetry in Hpd. apply head_Some_elem_of in Hpd.
    by apply list_elem_of_filter in Hpd as [? _]. }
  pose proof (update_product_variant_frame (Some p) b s2) as (_ & _ & Hframe & _).
  rewrite Hvar in Hframe. simpl in Hframe.
  rewrite Hframe, Hlinks, Hp. cbn [ProductCategories set_Products].
  split.
  - intros c. rewrite elem_of_app, list_elem_of_filter, list_elem_of_fmap.
    split.
    + intros [[[Hneq|Hin] _]|(c' & [= ->] & Hc')]; [done|done|].
      by apply list_elem_of_filter in Hc' as [_ ?].
    + intros Hc.
      destruct (decide ((params_id req, c) ∈ ProductCategories s)) as [Hold|Hnew].
      * left. split; [by right|done].
      * right. exists c. split; [done|]. by apply list_elem_of_filter.
  - intros p' c Hp'. rewrite elem_of_app, list_elem_of_filter, list_elem_of_fmap.
    split.
    + intros [[_ Hin]|(c' & [= -> ->] & _)]; done.
    + intros Hin. left. split; [by left|done].
Qed.

(** ** Failures of the edit *)

Lemma rollback_set_Products ps s : rollback s (set_Products ps s) = s.
Proof. by destruct s. Qed.

(** X4. An edit addressed to a key that no Product row has never
    completes; with a body that has a key and that the Product table
    accepts, and no upload, it fails with "product not found" (404), and
    the store is the one before the request. *)
Theorem editProductById_unknown_product req s :
  params_id req ∉ p_id <$> Products s →
  (∀ st r s', editProductById req s ≠ (Success st r, s'))
  ∧ (file req = None →
     Object_keys_length (body req) ≠ 0%nat →
     Product_valid (product_values (body req)) = true →
     editProductById req s = (Failure (ResponseError "product not found" 404), s)).
Proof.
  intros Hid.
  assert (filter (λ p, p_id p = params_id req) (Products s) = []) as Hnone.
  { destruct (filter _ (Products s)) as [|p l] eqn:Hf; [done|].
    assert (p ∈ filter (λ p, p_id p = params_id req) (Products s)) as Hp
      by (rewrite Hf; by left).
    apply list_elem_of_filter in Hp as [Heq Hp].
    destruct Hid. rewrite <- Heq. by apply list_elem_of_fmap_2. }
  split.
  - intros st r s' H.
    apply editProductById_success in H as (b & pd & s1 & s2 & Hupd & _).
    by destruct (update_product_body _ _ _ _ _ Hupd) as (_ & _ & _ & Hsome & _).
  - intros Hfile Hkeys Hvalid.
    unfold editProductById. apply respond_failure.
    assert (∃ s1, editProductById_callback req s
                  = (inl (ResponseError "product not found" 404), s1)
                  ∧ rollback s s1 = s) as (s1 & Hcb & Hroll).
    { unfold editProductById_callback, update_product.
      rewrite Hfile. mrun. cbn [mret M_ret].
      rewrite bool_decide_eq_false_2 by done.
      unfold Product_update. fold (product_values (body req)).
      rewrite Hvalid. cbn [negb].
      destruct (bool_decide (size _ = _)).
      - exists s. split; [|apply rollback_same].
        mrun. cbn [mret M_ret]. by rewrite bool_decide_eq_true_2.
      - eexists. split; [|apply rollback_set_Products].
        mrun. rewrite Hnone.
        rewrite bool_decide_eq_false_2 by (by intros [? _]).
        mrun. cbn [mret M_ret length]. rewrite bool_decide_eq_true_2 by done.
        reflexivity. }
    rewrite (transaction_inl _ _ _ _ Hcb). by rewrite Hroll.
Qed.

Lemma update_existed_unknown u id s :
  vi_id u = Some id →
  Variant_valid (restrict ["name"; "price"; "stock"] u) = true →
  id ∉ v_id <$> Variants s →
  ∃ s1, update_existed u s = (inl (ResponseError "invalid variant id" 400), s1).
Proof.
  intros Hid Hvalid Hnone. unfold update_existed. rewrite Hid, bind_run.
  unfold Variant_update. rewrite Hvalid. cbn [negb].
  destruct (negb (carries_value _)).
  { cbn [mret M_ret]. rewrite bool_decide_eq_true_2 by done. by eexists. }
  mrun. cbn [mret M_ret].
  assert (filter (λ v, v_id v = id) (Variants s) = []) as ->.
  { destruct (filter _ (Variants s)) as [|v l] eqn:Hf; [done|].
    assert (v ∈ filter (λ v, v_id v = id) (Variants s)) as Hv
      by (rewrite Hf; by left).
    apply list_elem_of_filter in Hv as [<- Hv].
    destruct Hnone. by apply list_elem_of_fmap_2. }
  cbn [length]. rewrite bool_decide_eq_true_2 by done. by eexists.
Qed.

(** X5. An edit whose variant list has an input with an id that is the key
    of no Variant row never completes: it fails and leaves the rows of all
    tables as they were. The round of the update loop that reaches such an
    input, with fields the Variant table accepts, throws
    "invalid variant id" (400). *)
Theorem editProductById_unknown_variant req s vs u id :
  variants (body req) = Some vs →
  u ∈ vs → vi_id u = Some id → id ≠ 0 →
  id ∉ v_id <$> Variants s →
  (∃ e s', editProductById req s = (Failure e, s') ∧ tables s' = tables s)
  ∧ (∀ s0, Variant_valid (restrict ["name"; "price"; "stock"] u) = true →
       id ∉ v_id <$> Variants s0 →
       ∃ s1, update_existed u s0
             = (inl (ResponseError "invalid variant id" 400), s1)).
Proof.
  intros Hvs Hu Hid Hnz Hnone. split; [|intros s0; by apply update_existed_unknown].
  destruct (editProductById req s) as [[st r|e] s'] eqn:H.
  - exfalso.
    apply editProductById_success in H as (b & pd & s1 & s2 & Hupd & Hcat & Hvar & _).
    destruct (update_product_inr _ _ _ _ _ Hupd) as (_ & Hb & _ & n & Hrow & _).
    pose proof (Product_update_Variants (attrs b) (params_id req)
      [("field", ["name"; "description"; "image"; "isActive"])] (now req) s)
      as [H1 _].
    rewrite Hrow in H1. simpl in H1.
    apply set_product_category_inr in Hcat as (_ & _ & H3 & _).
    rewrite <- Hb in Hvs.
    assert (vs ≠ []) as Hne by (intros ->; by apply not_elem_of_nil in Hu).
    destruct pd as [p|]; cycle 1.
    { unfold update_product_variant in Hvar. rewrite Hvs in Hvar. by destruct vs. }
    destruct (update_product_variant_inr _ _ _ _ _ _ Hvs Hne Hvar)
      as (_ & Hmatched & _).
    rewrite Forall_forall in Hmatched.
    destruct (Hmatched u) as (id' & Hid' & Hin).
    { apply list_elem_of_filter. split; [|done].
      unfold truthy_id. rewrite Hid. by apply negb_true_iff, Z.eqb_neq. }
    rewrite Hid in Hid'. injection Hid' as <-.
    apply list_elem_of_fmap in Hin as (v & -> & Hv).
    apply list_elem_of_filter in Hv as [_ Hv].
    destruct Hnone. rewrite <- H1, <- H3. by apply list_elem_of_fmap_2.
  - exists e, s'. split; [done|].
    unfold editProductById in H. apply respond_failure in H.
    by eapply transaction_failure.
Qed.

(** X6. When the image normalizer rejects the upload, the create and the
    edit fail with the normalizer's error while the store is still the one
    at entry: no write was issued. *)
Theorem normalizer_rejection_before_any_write req s buffer :
  file req = Some buffer → sharp_png buffer = None →
  createProduct_callback req s = (inl SharpError, s)
  ∧ editProductById_callback req s = (inl SharpError, s)
  ∧ createProduct req s = (Failure SharpError, s)
  ∧ editProductById req s = (Failure SharpError, s).
Proof.
  intros Hfile Hsharp.
  assert (createProduct_callback req s = (inl SharpError, s)) as Hc.
  { unfold createProduct_callback, create_new_product.
    rewrite Hfile, Hsharp. by mrun. }
  assert (editProductById_callback req s = (inl SharpError, s)) as He.
  { unfold editProductById_callback, update_product.
    rewrite Hfile, Hsharp. by mrun. }
  split; [done|]. split; [done|]. split.
  - unfold createProduct. apply respond_failure.
    rewrite (transaction_inl _ _ _ _ Hc). by rewrite rollback_same.
  - unfold editProductById. apply respond_failure.
    rewrite (transaction_inl _ _ _ _ He). by rewrite rollback_same.
Qed.

(** ** What the product writes store *)

Lemma product_values_lookup b k :
  product_values b !! k
  = if bool_decide (k ∈ Product_attributes) then attrs b !! k else None.
Proof.
  unfold product_values.
  change (written _ (attrs b)) with (pick Product_attributes (attrs b)).
  unfold pick.
  destruct (filter (λ kv : string * value, kv.1 ∈ Product_attributes)
              (attrs b) !! k) as [v|] eqn:Hf.
  - apply map_lookup_filter_Some in Hf as [Hv Hk]. simpl in Hk.
    by rewrite bool_decide_eq_true_2.
  - apply map_lookup_filter_None in Hf as [Hv|Hk].
    + rewrite Hv. by destruct (bool_decide _).
    + destruct (attrs b !! k) as [v|] eqn:Hv; [|by destruct (bool_decide _)].
      rewrite bool_decide_eq_false_2; [done|]. intros Hin. by apply (Hk v).
Qed.

Lemma edited_lookup_written w id n p k v :
  p_id p = id → k ≠ "id" → k ≠ "updatedAt" → w !! k = Some v →
  p_cols (edited w id n p) !! k = Some v.
Proof.
  intros Hp Hid Hu Hw. unfold edited. rewrite bool_decide_eq_true_2 by done.
  cbn. rewrite lookup_insert_ne by done.
  apply lookup_union_Some_l. by rewrite lookup_delete_ne.
Qed.

Lemma edited_lookup_kept w id n p k :
  p_id p = id → k ≠ "updatedAt" → (k = "id" ∨ w !! k = None) →
  p_cols (edited w id n p) !! k = p_cols p !! k.
Proof.
  intros Hp Hu Hw. unfold edited. rewrite bool_decide_eq_true_2 by done.
  cbn. rewrite lookup_insert_ne by done.
  apply lookup_union_r. destruct Hw as [->|Hw]; [apply lookup_delete_eq|].
  destruct (decide (k = "id")) as [->|Hid]; [apply lookup_delete_eq|].
  by rewrite lookup_delete_ne.
Qed.

Lemma editProductById_Products req s st r s' :
  editProductById req s = (Success st r, s') →
  ∃ b, (file req = None ∧ b = body req
        ∨ ∃ buffer png, file req = Some buffer ∧ sharp_png buffer = Some png
                        ∧ b = set_image png (body req))
       ∧ Products s'
         = edited (product_values b) (params_id req) (now req) <$> Products s.
Proof.
  intros H.
  apply editProductById_success in H as (b & pd & s1 & s2 & Hupd & Hcat & Hvar & _).
  destruct (update_product_body _ _ _ _ _ Hupd) as (Hb & _ & _ & _ & -> & _).
  apply set_product_category_inr in Hcat as (H1 & _).
  pose proof (update_product_variant_frame pd b s2) as (H2 & _).
  rewrite Hvar in H2. simpl in H2. exists b. split; [done|].
  by rewrite H2, H1.
Qed.

(** X7. What a completed edit does to the Product table: the rows of
    other products are untouched and no row is added or removed; the row
    of the edited product is stamped with the time of the request, holds
    under each attribute of the model the value the body gives it ([id],
    [updatedAt] and [image] apart), and keeps every column the body does
    not name or the model does not have. *)
Theorem editProductById_row req s st r s' :
  editProductById req s = (Success st r, s') →
  length (Products s') = length (Products s)
  ∧ (∀ p, p ∈ Products s → p_id p ≠ params_id req → p ∈ Products s')
  ∧ (∀ p, p ∈ Products s → p_id p = params_id req →
       ∃ p', p' ∈ Products s'
         ∧ p_cols p' !! "updatedAt" = Some (VNum (now req))
         ∧ (∀ k v, k ∈ Product_attributes →
              k ≠ "id" → k ≠ "updatedAt" → k ≠ "image" →
              attrs (body req) !! k = Some v → p_cols p' !! k = Some v)
         ∧ (∀ k, k ≠ "updatedAt" → k ≠ "image" →
              k ∉ Product_attributes ∨ attrs (body req) !! k = None →
              p_cols p' !! k = p_cols p !! k)).
Proof.
  intros H. apply editProductById_Products in H as (b & Hb & ->).
  assert (∀ k, k ≠ "image" → attrs b !! k = attrs (body req) !! k) as Hattrs.
  { intros k Hk. destruct Hb as [[_ ->]|(buffer & png & _ & _ & ->)]; [done|].
    cbn. by rewrite lookup_insert_ne. }
  split; [by rewrite length_fmap|]. split.
  - intros p Hp Hne. apply list_elem_of_fmap. exists p. split; [|done].
    unfold edited. by rewrite bool_decide_eq_false_2.
  - intros p Hp Hid.
    exists (edited (product_values b) (params_id req) (now req) p).
    split; [by apply list_elem_of_fmap_2|]. split; [|split].
    + unfold edited. rewrite bool_decide_eq_true_2 by done.
      cbn. apply lookup_insert_eq.
    + intros k v Hk Hnid Hnu Hni Hv.
      apply edited_lookup_written; [done..|].
      rewrite product_values_lookup, bool_decide_eq_true_2 by done.
      by rewrite Hattrs.
    + intros k Hnu Hni Hk. apply edited_lookup_kept; [done..|]. right.
      rewrite product_values_lookup.
      destruct Hk as [Hk|Hk]; [by rewrite bool_decide_eq_false_2|].
      rewrite Hattrs, Hk by done. by destruct (bool_decide _).
Qed.

(** ** Edits that have nothing to write *)

Lemma update_existed_carries u s r s' :
  update_existed u s = (inr r, s') →
  carries_value (restrict ["name"; "price"; "stock"] u) = true.
Proof.
  unfold update_existed. intros H.
  apply bind_inr in H as (n & s1 & Hn & H).
  destruct (vi_id u) as [id|]; [|done].
  unfold Variant_update in Hn. destruct (negb (Variant_valid _)); [done|].
  destruct (carries_value _); [done|].
  cbn [negb] in Hn. by injection Hn as <- <-.
Qed.

Lemma update_loop_carries us s r s' :
  for_of us update_existed s = (inr r, s') →
  Forall (λ u, carries_value (restrict ["name"; "price"; "stock"] u) = true) us.
Proof.
  revert s. induction us as [|u us IH]; intros s H; [done|].
  cbn [for_of] in H. apply bind_inr in H as (r1 & s1 & Hu & H).
  constructor; [by eapply update_existed_carries|by eapply IH].
Qed.

Lemma update_product_variant_carries p b vs s r s' :
  variants b = Some vs → vs ≠ [] →
  update_product_variant (Some p) b s = (inr r, s') →
  Forall (λ u, carries_value (restrict ["name"; "price"; "stock"] u) = true)
    (updateVariants vs).
Proof.
  intros Hvs Hne H. unfold update_product_variant in H. rewrite Hvs in H.
  destruct vs as [|v0 vs0]; [done|].
  apply bind_inr in H as (variantsData & s0 & _ & H).
  apply bind_inr in H as ([] & s1 & _ & H).
  apply bind_inr in H as ([] & s2 & Hupd & _).
  by eapply update_loop_carries.
Qed.

(** X23. An edit without an upload whose body names no attribute of
    Product, or [updatedAt] alone, is answered "product not found" (404)
    whether or not the product exists, and the store is the one before
    the request: the product update has nothing to write, so no row is
    counted. A body that holds only a category list or only variants is
    such a body. *)
Theorem editProductById_without_attribute req s :
  file req = None →
  Object_keys_length (body req) ≠ 0%nat →
  Product_valid (product_values (body req)) = true →
  (∀ k, k ∈ Product_attributes → k ≠ "updatedAt" →
     attrs (body req) !! k = None) →
  editProductById req s = (Failure (ResponseError "product not found" 404), s).
Proof.
  intros Hfile Hkeys Hvalid Hnone.
  assert (size (delete "updatedAt" (product_values (body req))) = 0%nat)
    as Hsize.
  { apply map_size_empty_iff, map_empty. intros k.
    destruct (decide (k = "updatedAt")) as [->|Hk]; [apply lookup_delete_eq|].
    rewrite lookup_delete_ne by done. rewrite product_values_lookup.
    destruct (bool_decide (k ∈ Product_attributes)) eqn:Hin; [|done].
    apply bool_decide_eq_true in Hin. by apply Hnone. }
  unfold editProductById. apply respond_failure.
  erewrite transaction_inl; [by rewrite rollback_same|].
  unfold editProductById_callback, update_product.
  rewrite Hfile. mrun. cbn [mret M_ret].
  rewrite bool_decide_eq_false_2 by done.
  unfold Product_update. fold (product_values (body req)).
  rewrite Hvalid. cbn [negb].
  rewrite bool_decide_eq_true_2 by done.
  mrun. cbn [mret M_ret]. by rewrite bool_decide_eq_true_2.
Qed.

(** X24. An edit whose variant list has an input with an id and none of
    name, price and stock never completes: it fails and leaves the rows
    of all tables as they were. The round of the update loop that reaches
    such an input, which the Variant table accepts, has nothing to write,
    counts no row and throws "invalid variant id" (400), also when the
    variant exists. *)
Theorem editProductById_bare_variant req s vs u id :
  variants (body req) = Some vs →
  u ∈ vs → vi_id u = Some id → id ≠ 0 →
  vi_name u = None → vi_price u = None → vi_stock u = None →
  (∃ e s', editProductById req s = (Failure e, s') ∧ tables s' = tables s)
  ∧ (∀ s0, Variant_valid (restrict ["name"; "price"; "stock"] u) = true →
       update_existed u s0
       = (inl (ResponseError "invalid variant id" 400), s0)).
Proof.
  intros Hvs Hu Hid Hnz Hname Hprice Hstock.
  assert (carries_value (restrict ["name"; "price"; "stock"] u) = false)
    as Hbare.
  { unfold carries_value, restrict. cbn. by rewrite Hname, Hprice, Hstock. }
  split.
  - destruct (editProductById req s) as [[st r|e] s'] eqn:H.
    + exfalso.
      apply editProductById_success in H
        as (b & pd & s1 & s2 & Hupd & Hcat & Hvar & _).
      destruct (update_product_inr _ _ _ _ _ Hupd) as (_ & Hb & _).
      rewrite <- Hb in Hvs.
      assert (vs ≠ []) as Hne by (intros ->; by apply not_elem_of_nil in Hu).
      destruct pd as [p|]; cycle 1.
      { unfold update_product_variant in Hvar. rewrite Hvs in Hvar.
        by destruct vs. }
      pose proof (update_product_variant_carries _ _ _ _ _ _ Hvs Hne Hvar)
        as Hall.
      rewrite Forall_forall in Hall. rewrite Hall in Hbare; [done|].
      apply list_elem_of_filter. split; [|done].
      unfold truthy_id. rewrite Hid. by apply negb_true_iff, Z.eqb_neq.
    + exists e, s'. split; [done|].
      unfold editProductById in H. apply respond_failure in H.
      by eapply transaction_failure.
  - intros s0 Hvalid. unfold update_existed. rewrite Hid, bind_run.
    unfold Variant_update. rewrite Hvalid, Hbare. cbn [negb mret M_ret].
    by rewrite bool_decide_eq_true_2.
Qed.

(** ** Unresolved and repeated category ids *)






(** ** Which category lists pass *)

Lemma findAll_length_all (cats : list Category) (ids : list Z) :
  NoDup (c_id <$> cats) → NoDup ids →
  (∀ x, x ∈ ids → x ∈ c_id <$> cats) →
  length (filter (λ c, c_id c ∈ ids) cats) = length ids.
Proof.
  intros Hpk Hnd Hall.
  rewrite <- (length_fmap c_id). apply Permutation_length.
  apply NoDup_Permutation; [|done|].
  - apply (sublist_NoDup _ (c_id <$> cats)); [exact Hpk|].
    apply fmap_sublist, sublist_filter.
  - intros x. split.
    + intros Hx. apply list_elem_of_fmap in Hx as (c & -> & Hc).
      by apply list_elem_of_filter in Hc as [? _].
    + intros Hx. pose proof (Hall x Hx) as Hin.
      apply list_elem_of_fmap in Hin as (c & -> & Hc).
      apply list_elem_of_fmap_2. by apply list_elem_of_filter.
Qed.

(** X8. Under the primary key of Category, the block that validates and
    links a non-empty category list completes exactly when the listed ids
    are pairwise distinct and each is the key of a Category row. *)
Theorem set_product_category_accepts p b ids s :
  NoDup (c_id <$> Categories s) →
  categoryId b = Some ids → ids ≠ [] →
  (∃ r s', set_product_category (Some p) b s = (inr r, s'))
  ↔ NoDup ids ∧ ∀ c, c ∈ ids → c ∈ c_id <$> Categories s.
Proof.
  intros Hpk Hids Hne. split.
  - intros (r & s' & H).
    apply set_product_category_inr in H as (_ & _ & _ & _ & _ & H).
    rewrite Hids in H. destruct ids as [|c ids]; [done|].
    destruct H as [Hlen _].
    by destruct (findAll_length _ (c :: ids) Hpk) as [_ Hall]; apply Hall.
  - intros [Hnd Hall]. unfold set_product_category. rewrite Hids.
    destruct ids as [|c ids]; [done|].
    rewrite bind_run. unfold Category_findAll, gets.
    rewrite bool_decide_eq_false_2;
      [by eexists _, _|].
    intros Hlen. apply Hlen. by apply findAll_length_all.
Qed.

(** ** What a create stores *)

Lemma create_new_product_body req s b p s1 :
  create_new_product req s = (inr (b, p), s1) →
  ∃ buffer png, file req = Some buffer ∧ sharp_png buffer = Some png
    ∧ b = set_image png (body req)
    ∧ Product_create (attrs b)
        [("field", ["name"; "description"; "image"; "isActive"])] (now req) s
      = (inr p, s1).
Proof.
  unfold create_new_product. intros H.
  apply bind_inr in H as (png & s0 & Hpng & H).
  destruct (file req) as [buffer|]; [|done].
  destruct (sharp_png buffer) as [png'|] eqn:Hsharp; [|done].
  injection Hpng as <- <-.
  apply bind_inr in H as (p' & s2 & Hp & H). injection H as <- <- <-.
  by eexists buffer, png'.
Qed.

Lemma set_product_variant_frame productData b s :
  same_but_variants s (set_product_variant productData b s).2.
Proof.
  unfold set_product_variant.
  destruct (variants b) as [[|v0 vs0]|]; [apply same_but_variants_refl| |
    apply same_but_variants_refl].
  rewrite bind_run.
  pose proof (Variant_bulkCreate_frame s (v0 :: vs0) ["name"; "price"; "stock"] s
    (same_but_variants_refl s)) as H.
  by destruct (Variant_bulkCreate _ _ s) as [[e|rows] s1].
Qed.

Lemma filter_none {A} (P : A → Prop) `{!∀ x, Decision (P x)} (l : list A) :
  (∀ x, x ∈ l → ¬ P x) → filter P l = [].
Proof.
  induction l as [|x l IH]; intros Hnone; [done|].
  rewrite filter_cons_False by (apply Hnone; by left).
  apply IH. intros y Hy. apply Hnone. by right.
Qed.

Lemma head_filter_snoc (ps : list Product) p :
  p_id p ∉ p_id <$> ps →
  head (filter (λ q, p_id q = p_id p) (ps ++ [p])%list) = Some p.
Proof.
  intros Hfresh. rewrite filter_app.
  rewrite (filter_none _ ps); [by rewrite filter_cons_True|].
  intros q Hq Heq. destruct Hfresh. rewrite <- Heq. by apply list_elem_of_fmap_2.
Qed.

(** X9. A create that completes adds exactly one row to the Product table,
    after the rows that were there, under a key no row had; the response
    carries that product. The key is the [id] of the body when it has a
    numeric one and the next key of the table otherwise; the row is
    stamped with the time of the request and holds under each attribute of
    the model the value the body gives it ([id], the two timestamps and
    [image] apart). The Category table is untouched. *)
Theorem createProduct_row req s st r s' :
  createProduct req s = (Success st r, s') →
  ∃ p, Products s' = (Products s ++ [p])%list
    ∧ (p_id p ∉ p_id <$> Products s)
    ∧ Categories s' = Categories s
    ∧ r = Some (view s' p)
    ∧ (attrs (body req) !! "id" = None → p_id p = Product_seq s)
    ∧ (∀ n, attrs (body req) !! "id" = Some (VNum n) → p_id p = n)
    ∧ p_cols p !! "updatedAt" = Some (VNum (now req))
    ∧ (∀ k, k ∈ Product_attributes →
         k ≠ "id" → k ≠ "createdAt" → k ≠ "updatedAt" → k ≠ "image" →
         p_cols p !! k = attrs (body req) !! k).
Proof.
  intros H.
  apply createProduct_success in H as (b & p & s1 & s2 & Hnew & Hcat & Hvar & ->).
  apply create_new_product_body in Hnew as (buffer & png & _ & _ & -> & Hrow).
  apply Product_create_inr in Hrow
    as (_ & Hkey & Hfresh & Hstamp & Hcols & Hrows & Hcats & _).
  fold (product_values (set_image png (body req))) in Hkey, Hcols.
  apply set_product_category_inr in Hcat as (H1 & H2 & _).
  pose proof (set_product_variant_frame p (set_image png (body req)) s2)
    as (H3 & H4 & _).
  rewrite Hvar in H3, H4. simpl in H3, H4.
  assert (Products s' = (Products s ++ [p])%list) as Hfinal by congruence.
  exists p. split; [done|]. split; [done|]. split; [congruence|].
  split; [by rewrite Hfinal, head_filter_snoc|].
  assert (∀ k, k ≠ "image" →
            product_values (set_image png (body req)) !! k
            = if bool_decide (k ∈ Product_attributes)
              then attrs (body req) !! k else None) as Hlookup.
  { intros k Hk. rewrite product_values_lookup. cbn.
    by rewrite lookup_insert_ne. }
  split; [|split; [|split; [done|]]].
  - intros Hnone. rewrite Hkey. unfold explicit_id.
    rewrite Hlookup by done. by rewrite bool_decide_eq_true_2, Hnone by compute_done.
  - intros n Hn. rewrite Hkey. unfold explicit_id.
    rewrite Hlookup by done. by rewrite bool_decide_eq_true_2, Hn by compute_done.
  - intros k Hk Hnid Hnc Hnu Hni. rewrite Hcols by done.
    rewrite Hlookup by done. by rewrite bool_decide_eq_true_2.
Qed.

(** The block "set product variant", when it completes: the inputs are
    inserted under the next keys, and the rows whose key is that of an
    answered instance become the product's. *)
Lemma set_product_variant_table p b vs s r s' :
  variants b = Some vs → vs ≠ [] →
  set_product_variant p b s = (inr r, s') →
  let rows := imap (λ i v, new_row (Variant_seq s + Z.of_nat i)
                             (restrict ["name"; "price"; "stock"] v) None) vs in
  let ids := imap (λ i v, instance_id v (Variant_seq s + Z.of_nat i)) vs in
  Variants s'
  = ((λ v, if bool_decide (v_id v ∈ ids)
           then owned_by (Some (p_id p)) v
           else if bool_decide (v_productId v = Some (p_id p))
           then owned_by None v
           else v) <$> (Variants s ++ rows))%list
  ∧ Forall (λ r, v_id r ∉ v_id <$> Variants s) rows.
Proof.
  intros Hvs Hne H. unfold set_product_variant in H. rewrite Hvs in H.
  destruct vs as [|v0 vs0]; [done|]. set (vs := v0 :: vs0) in *.
  apply bind_inr in H as (instances & s1 & Hnew & H).
  apply Variant_bulkCreate_instances in Hnew as (-> & Htbl & Hfresh).
  injection H as _ <-. cbn [Variants set_Variants]. rewrite Htbl.
  split; [|done]. by rewrite fmap_imap.
Qed.

(** When no input carries an id, the inserted rows are the product's. *)
Lemma set_product_variant_inr p b vs s r s' :
  variants b = Some vs → vs ≠ [] →
  Forall (λ v, truthy_id (vi_id v) = false) vs →
  set_product_variant p b s = (inr r, s') →
  Variants s'
  = (((λ v, if bool_decide (v_productId v = Some (p_id p))
            then owned_by None v else v) <$> Variants s)
     ++ imap (λ i v, new_row (Variant_seq s + Z.of_nat i)
                       (restrict ["name"; "price"; "stock"] v) (Some (p_id p)))
             vs)%list.
Proof.
  intros Hvs Hne Hnew H.
  apply (set_product_variant_table _ _ vs) in H as [-> Hfresh]; [|done..].
  assert (imap (λ i v, instance_id v (Variant_seq s + Z.of_nat i)) vs
          = imap (λ (i : nat) (_ : VariantInput), Variant_seq s + Z.of_nat i) vs)
    as ->.
  { apply imap_ext. intros i v Hv. cbn. apply instance_id_new.
    rewrite Forall_forall in Hnew. eapply Hnew, list_elem_of_lookup_2, Hv. }
  set (ids := imap _ vs).
  assert (∀ (i : nat) v, vs !! i = Some v → Variant_seq s + Z.of_nat i ∈ ids)
    as Hmem.
  { intros i v Hv.
    by apply (elem_of_lookup_imap_2
      (λ (i : nat) (_ : VariantInput), Variant_seq s + Z.of_nat i) vs v i). }
  assert (∀ k, k ∈ ids →
            k ∈ v_id <$> imap (λ i v, new_row (Variant_seq s + Z.of_nat i)
                                 (restrict ["name"; "price"; "stock"] v) None) vs)
    as Hids.
  { intros k Hk. apply elem_of_lookup_imap in Hk as (i & v & -> & Hv).
    rewrite fmap_imap.
    by apply (elem_of_lookup_imap_2
      (λ (i : nat) (v : VariantInput),
         v_id (new_row (Variant_seq s + Z.of_nat i)
                 (restrict ["name"; "price"; "stock"] v) None)) vs v i). }
  rewrite Forall_forall in Hfresh. rewrite fmap_app. f_equal.
  - apply list_fmap_ext. intros i v Hv.
    rewrite bool_decide_eq_false_2; [done|]. intros Hin.
    apply Hids, list_elem_of_fmap in Hin as (r' & Hr' & Hin).
    apply (Hfresh r' Hin). rewrite <- Hr'.
    apply list_elem_of_fmap_2. by eapply list_elem_of_lookup_2.
  - rewrite fmap_imap. apply imap_ext. intros i v Hv. cbn.
    rewrite bool_decide_eq_true_2; [done|]. by eapply Hmem.
Qed.

(** X10. What a create that completes with a non-empty variant list does
    to the Variant table. One row per input is inserted under the next
    keys, with the input's name, price and stock. When no input carries an
    id, these rows are the variants of the new product, and the variants
    of other products are as they were. An input that carries the id of an
    existing variant takes that variant, as it is, for the new product,
    whichever product owned it; and when every id the inputs carry is the
    key of an existing variant, the row inserted for such an input stays
    without owner. Without a variant list, or with an empty one, the
    Variant table is untouched. *)
Theorem createProduct_variants req s st r s' :
  createProduct req s = (Success st r, s') →
  (variants (body req) = None ∨ variants (body req) = Some [] →
     Variants s' = Variants s)
  ∧ (∀ vs, variants (body req) = Some vs → vs ≠ [] →
     ∃ p, r = Some (view s' p)
       ∧ length (Variants s') = (length (Variants s) + length vs)%nat
       ∧ (Forall (λ u, truthy_id (vi_id u) = false) vs →
            pv_variants (view s' p)
            ≡ₚ imap (λ i u, new_row (Variant_seq s + Z.of_nat i)
                              (restrict ["name"; "price"; "stock"] u)
                              (Some (p_id p))) vs
            ∧ (∀ w, w ∈ Variants s → v_productId w ≠ Some (p_id p) →
                 w ∈ Variants s'))
       ∧ (∀ (i : nat) u n w,
            vs !! i = Some u → vi_id u = Some n → n ≠ 0 →
            w ∈ Variants s → v_id w = n →
            owned_by (Some (p_id p)) w ∈ Variants s'
            ∧ (Forall (λ u', ∀ m, vi_id u' = Some m → m ≠ 0 →
                               m ∈ v_id <$> Variants s) vs →
               new_row (Variant_seq s + Z.of_nat i)
                 (restrict ["name"; "price"; "stock"] u) None
               ∈ Variants s'))).
Proof.
  intros H.
  apply createProduct_success in H as (b & p & s1 & s2 & Hnew & Hcat & Hvar & ->).
  apply create_new_product_body in Hnew as (buffer & png & _ & _ & -> & Hrow).
  apply Product_create_inr in Hrow
    as (_ & _ & Hfresh & _ & _ & Hrows & _ & Hv1 & _ & Hq1).
  apply set_product_category_inr in Hcat as (H1 & _ & Hv2 & _ & Hq2 & _).
  pose proof (set_product_variant_frame p (set_image png (body req)) s2)
    as (H3 & _).
  rewrite Hvar in H3. simpl in H3.
  assert (Products s' = (Products s ++ [p])%list) as Hfinal by congruence.
  split.
  - intros Hvs. unfold set_product_variant in Hvar. cbn [variants set_image] in Hvar.
    destruct Hvs as [Hvs|Hvs]; rewrite Hvs in Hvar; injection Hvar as <-; congruence.
  - intros vs Hvs Hne. exists p.
    split; [by rewrite Hfinal, head_filter_snoc|].
    pose proof (set_product_variant_table _ _ vs _ _ _ Hvs Hne Hvar)
      as [Htable Hnewkeys].
    cbv zeta in Htable, Hnewkeys.
    rewrite Hv2, Hv1, Hq2, Hq1 in Htable, Hnewkeys.
    split; [|split].
    + by rewrite Htable, length_fmap, length_app, length_imap.
    + intros Hnone.
      apply (set_product_variant_inr _ _ vs) in Hvar; [|done..].
      rewrite Hv2, Hv1, Hq2, Hq1 in Hvar. split.
      * cbn [pv_variants view]. rewrite Hvar, filter_app.
        rewrite filter_none, filter_all; [done| |].
        -- intros w Hw. by apply elem_of_lookup_imap in Hw as (i & u & -> & _).
        -- intros w Hw Hown. apply list_elem_of_fmap in Hw as (w0 & -> & _).
           destruct (bool_decide (v_productId w0 = Some (p_id p))) eqn:Hd; [done|].
           by apply bool_decide_eq_false in Hd.
      * intros w Hw Hother. rewrite Hvar, elem_of_app. left.
        apply list_elem_of_fmap. exists w. split; [|done].
        by rewrite bool_decide_eq_false_2.
    + intros i u n w Hu Hid Hn Hw Hkey. split.
      * rewrite Htable. apply list_elem_of_fmap. exists w.
        split; [|apply elem_of_app; by left].
        rewrite bool_decide_eq_true_2; [done|]. rewrite Hkey.
        rewrite <- (instance_id_given u (Variant_seq s + Z.of_nat i) n) by done.
        by apply (elem_of_lookup_imap_2
          (λ (i : nat) v, instance_id v (Variant_seq s + Z.of_nat i)) vs u i).
      * intros Hexisting. rewrite Htable.
        set (row := new_row (Variant_seq s + Z.of_nat i)
                      (restrict ["name"; "price"; "stock"] u) None).
        assert (row ∈ imap (λ i v, new_row (Variant_seq s + Z.of_nat i)
                              (restrict ["name"; "price"; "stock"] v) None) vs)
          as Hin.
        { by apply (elem_of_lookup_imap_2
            (λ (i : nat) v, new_row (Variant_seq s + Z.of_nat i)
                              (restrict ["name"; "price"; "stock"] v) None)
            vs u i). }
        apply list_elem_of_fmap. exists row.
        split; [|apply elem_of_app; by right].
        rewrite Forall_forall in Hnewkeys.
        rewrite bool_decide_eq_false_2; [done|].
        intros Hclaimed.
        apply elem_of_lookup_imap in Hclaimed as (j & u' & Hj & Hu').
        change (v_id row) with (Variant_seq s + Z.of_nat i) in Hj.
        unfold instance_id in Hj.
        destruct (vi_id u') as [m|] eqn:Hm.
        -- destruct (m =? 0) eqn:Hz.
           ++ assert (j = i) as -> by lia. apply Z.eqb_eq in Hz. congruence.
           ++ apply Z.eqb_neq in Hz.
              apply (Hnewkeys row Hin).
              change (v_id row) with (Variant_seq s + Z.of_nat i).
              rewrite Hj.
              by apply (Forall_lookup_1 _ _ _ _ Hexisting Hu' m).
        -- assert (j = i) as -> by lia. congruence.
Qed.

(** ** The image of a product *)

Lemma getProductImageById_run id s :
  getProductImageById id s
  = match head (filter (λ p, p_id p = id) (Products s)) ≫= (λ p, p_cols p !! "image") with
    | Some image =>
        if truthy image then Success 200 ("image/png", image)
        else Failure (ResponseError "product image not found" 404)
    | None => Failure (ResponseError "product image not found" 404)
    end.
Proof.
  unfold getProductImageById, getProductImageById_try. rewrite bind_run.
  unfold Product_findByPk, gets.
  destruct (head _ ≫= _) as [image|]; [|done]. by destruct (truthy image).
Qed.

Lemma head_filter_unique {A} (f : A → Z) (l : list A) x :
  NoDup (f <$> l) → x ∈ l → head (filter (λ y, f y = f x) l) = Some x.
Proof.
  intros Hnd Hx.
  destruct (filter (λ y, f y = f x) l) as [|y k] eqn:Hf.
  - assert (x ∈ filter (λ y, f y = f x) l) as Hin by by apply list_elem_of_filter.
    rewrite Hf in Hin. by apply not_elem_of_nil in Hin.
  - assert (y ∈ filter (λ y, f y = f x) l) as Hy by (rewrite Hf; by left).
    apply list_elem_of_filter in Hy as [Heq Hy]. simpl. f_equal.
    by apply (NoDup_fmap_eq f l).
Qed.

(** X11. The image fetch answers with the content type image/png and the
    stored [image] of the product it was asked for, and with nothing else:
    it fails with "product image not found" (404) when no product has the
    key, and when the product has no image or a null one. Under the
    primary key of Product, a stored Buffer is served as it is, also an
    empty one. *)
Theorem getProductImageById_serves_stored id s :
  (∀ st ct image, getProductImageById id s = Success st (ct, image) →
     st = 200 ∧ ct = "image/png"
     ∧ ∃ p, p ∈ Products s ∧ p_id p = id ∧ p_cols p !! "image" = Some image)
  ∧ (id ∉ p_id <$> Products s →
     getProductImageById id s
     = Failure (ResponseError "product image not found" 404))
  ∧ (∀ p, NoDup (p_id <$> Products s) → p ∈ Products s → p_id p = id →
     (p_cols p !! "image" = None ∨ p_cols p !! "image" = Some VNull →
        getProductImageById id s
        = Failure (ResponseError "product image not found" 404))
     ∧ (∀ png, p_cols p !! "image" = Some (VBuf png) →
        getProductImageById id s = Success 200 ("image/png", VBuf png))).
Proof.
  rewrite getProductImageById_run. split; [|split].
  - intros st ct image H.
    destruct (head _) as [p|] eqn:Hhead; [|done]. cbn in H.
    destruct (p_cols p !! "image") as [v|] eqn:Hv; [|done].
    destruct (truthy v); [|done]. injection H as <- <- <-.
    split; [done|]. split; [done|]. exists p.
    apply head_Some_elem_of, list_elem_of_filter in Hhead as [? ?]. done.
  - intros Hnone. rewrite filter_none; [done|].
    intros p Hp Heq. destruct Hnone. rewrite <- Heq.
    by apply list_elem_of_fmap_2.
  - intros p Hpk Hp <-. rewrite (head_filter_unique p_id); [|done..]. cbn.
    split; [by intros [->| ->]|by intros png ->].
Qed.

(** X12. After a create that completes, the image fetch of the created
    product answers the upload as the normalizer returned it. *)
Theorem createProduct_then_image req s st r s' :
  createProduct req s = (Success st r, s') →
  ∃ v buffer png,
    r = Some v ∧ file req = Some buffer ∧ sharp_png buffer = Some png
    ∧ getProductImageById (p_id (pv_product v)) s'
      = Success 200 ("image/png", VBuf png).
Proof.
  intros H.
  apply createProduct_success in H as (b & p & s1 & s2 & Hnew & Hcat & Hvar & ->).
  apply create_new_product_body in Hnew as (buffer & png & Hfile & Hpng & -> & Hrow).
  apply Product_create_inr in Hrow
    as (_ & _ & Hfresh & _ & Hcols & Hrows & _).
  fold (product_values (set_image png (body req))) in Hcols.
  apply set_product_category_inr in Hcat as (H1 & _).
  pose proof (set_product_variant_frame p (set_image png (body req)) s2)
    as (H3 & _).
  rewrite Hvar in H3. simpl in H3.
  assert (Products s' = (Products s ++ [p])%list) as Hfinal by congruence.
  rewrite Hfinal, head_filter_snoc by done.
  eexists _, buffer, png. split; [done|]. split; [done|]. split; [done|].
  cbn [fmap option_fmap option_map pv_product view exclude_image p_id].
  rewrite getProductImageById_run, Hfinal, head_filter_snoc by done. cbn.
  rewrite Hcols by done. rewrite product_values_lookup.
  rewrite bool_decide_eq_true_2 by compute_done. cbn.
  by rewrite lookup_insert_eq.
Qed.

Lemma edited_id w id n p :
  explicit_id w = None → p_id (edited w id n p) = p_id p.
Proof.
  intros Hw. unfold edited. destruct (bool_decide _) eqn:Hd; [|done].
  apply bool_decide_eq_true in Hd. cbn. by rewrite Hw.
Qed.

Lemma filter_edited w id n (ps : list Product) :
  explicit_id w = None →
  filter (λ p, p_id p = id) (edited w id n <$> ps)
  = edited w id n <$> filter (λ p, p_id p = id) ps.
Proof.
  intros Hw. induction ps as [|p ps IH]; [done|].
  rewrite fmap_cons, !filter_cons, edited_id by done.
  destruct (decide (p_id p = id)); by rewrite IH.
Qed.

(** X13. After an edit that completes with an upload and a body without
    [id], the image fetch of the product answers the upload as the
    normalizer returned it. *)
Theorem editProductById_then_image req s st r s' buffer :
  file req = Some buffer →
  attrs (body req) !! "id" = None →
  editProductById req s = (Success st r, s') →
  ∃ png, sharp_png buffer = Some png
    ∧ getProductImageById (params_id req) s'
      = Success 200 ("image/png", VBuf png).
Proof.
  intros Hfile Hid H.
  pose proof H as Hrun.
  apply editProductById_Products in H as (b & Hb & Hrows).
  destruct Hb as [[Hnone _]|(buffer' & png & Hfile' & Hpng & ->)]; [congruence|].
  rewrite Hfile in Hfile'. injection Hfile' as <-.
  exists png. split; [done|].
  apply editProductById_success in Hrun as (b & pd & s1 & s2 & Hupd & _).
  destruct (update_product_body _ _ _ _ _ Hupd) as (_ & _ & _ & Hsome & _).
  assert (explicit_id (product_values (set_image png (body req))) = None) as Hw.
  { unfold explicit_id. rewrite product_values_lookup.
    rewrite bool_decide_eq_true_2 by compute_done. cbn.
    by rewrite lookup_insert_ne, Hid. }
  rewrite getProductImageById_run, Hrows, filter_edited by done.
  destruct (filter (λ p, p_id p = params_id req) (Products s)) as [|p l] eqn:Hf;
    [done|].
  assert (p ∈ filter (λ p, p_id p = params_id req) (Products s)) as Hp
    by (rewrite Hf; by left).
  apply list_elem_of_filter in Hp as [Hp _].
  cbn [fmap list_fmap head mbind option_bind].
  rewrite (edited_lookup_written _ _ _ _ "image" (VBuf png)); [done|done..|].
  rewrite product_values_lookup, bool_decide_eq_true_2 by compute_done.
  cbn. by rewrite lookup_insert_eq.
Qed.

(** ** Deleting a product *)

Lemma Product_destroy_none on_delete id s :
  id ∉ p_id <$> Products s → Product_destroy on_delete id s = (inr 0, s).
Proof.
  intros Hid. unfold Product_destroy. mrun.
  rewrite filter_none; [done|].
  intros p Hp Heq. destruct Hid. rewrite <- Heq. by apply list_elem_of_fmap_2.
Qed.

Lemma Product_destroy_some on_delete id s :
  id ∈ p_id <$> Products s →
  ∃ n, 0 < n ∧
    Product_destroy on_delete id s
    = (inr n,
       let '(vs, ls) := on_delete id (Variants s, ProductCategories s) in
       set_Variants vs (set_ProductCategories ls
         (set_Products (filter (λ p, p_id p ≠ id) (Products s)) s))).
Proof.
  intros (p & Heq & Hp)%list_elem_of_fmap. unfold Product_destroy. mrun.
  destruct (filter (λ p, p_id p = id) (Products s)) as [|q l] eqn:Hf.
  - assert (p ∈ filter (λ p, p_id p = id) (Products s)) as Hin
      by by apply list_elem_of_filter.
    rewrite Hf in Hin. by apply not_elem_of_nil in Hin.
  - exists (Z.of_nat (length (q :: l))). split; [cbn [length]; lia|].
    mrun. done.
Qed.

Lemma editProductById_needs_row req s st r s' :
  editProductById req s = (Success st r, s') →
  params_id req ∈ p_id <$> Products s.
Proof.
  intros H.
  apply editProductById_success in H as (b & pd & s1 & s2 & Hupd & _).
  destruct (update_product_body _ _ _ _ _ Hupd) as (_ & _ & _ & Hsome & _).
  destruct (filter (λ p, p_id p = params_id req) (Products s)) as [|p l] eqn:Hf;
    [done|].
  assert (p ∈ filter (λ p, p_id p = params_id req) (Products s)) as Hp
    by (rewrite Hf; by left).
  apply list_elem_of_filter in Hp as [<- Hp]. by apply list_elem_of_fmap_2.
Qed.

(** X14. Deleting a key that no Product row has fails with "product not
    found" (404) and leaves the store as it was. Deleting a key that a row
    has answers 204, removes exactly the rows with that key from the
    Product table, leaves the Category table and both counters alone, and
    hands the variants and the category links to the foreign-key actions
    of the schema. *)
Theorem deleteProductById_outcome (on_delete : references) id s :
  (id ∉ p_id <$> Products s →
   deleteProductById on_delete id s
   = (Failure (ResponseError "product not found" 404), s))
  ∧ (id ∈ p_id <$> Products s →
     ∃ s', deleteProductById on_delete id s = (Success 204 tt, s')
       ∧ (id ∉ p_id <$> Products s')
       ∧ (∀ p, p ∈ Products s' ↔ p ∈ Products s ∧ p_id p ≠ id)
       ∧ Categories s' = Categories s
       ∧ (Variants s', ProductCategories s')
         = on_delete id (Variants s, ProductCategories s)
       ∧ Product_seq s' = Product_seq s ∧ Variant_seq s' = Variant_seq s).
Proof.
  split; intros Hid; unfold deleteProductById; rewrite bind_run.
  - by rewrite Product_destroy_none.
  - destruct (Product_destroy_some on_delete id s Hid) as (n & Hn & ->).
    rewrite bool_decide_eq_false_2 by lia.
    destruct (on_delete id _) as [vs ls]. cbn.
    eexists. split; [done|]. cbn.
    split; [|split; [|done]].
    + intros (p & Heq & Hp)%list_elem_of_fmap.
      by apply list_elem_of_filter in Hp as [? _].
    + intros p. rewrite list_elem_of_filter. tauto.
Qed.

(** X15. A deleted product is gone for the other handlers: deleting it
    again fails with "product not found" (404), its image is not found
    (404), and no edit addressed to it completes. *)
Theorem deleteProductById_then_gone (on_delete : references) id s st s' :
  deleteProductById on_delete id s = (Success st tt, s') →
  deleteProductById on_delete id s'
  = (Failure (ResponseError "product not found" 404), s')
  ∧ getProductImageById id s'
    = Failure (ResponseError "product image not found" 404)
  ∧ ∀ req st' r s'', params_id req = id →
      editProductById req s' ≠ (Success st' r, s'').
Proof.
  intros H.
  assert (id ∉ p_id <$> Products s') as Hgone.
  { unfold deleteProductById in H. rewrite bind_run in H.
    destruct (decide (id ∈ p_id <$> Products s)) as [Hid|Hid].
    - destruct (Product_destroy_some on_delete id s Hid) as (n & Hn & Hrun).
      rewrite Hrun in H. rewrite bool_decide_eq_false_2 in H by lia.
      destruct (on_delete id _) as [vs ls]. cbn in H. injection H as _ <-.
      cbn. intros (p & Heq & Hp)%list_elem_of_fmap.
      by apply list_elem_of_filter in Hp as [? _].
    - by rewrite Product_destroy_none in H. }
  split; [|split].
  - unfold deleteProductById. by rewrite bind_run, Product_destroy_none.
  - rewrite getProductImageById_run, filter_none; [done|].
    intros p Hp Heq. destruct Hgone. rewrite <- Heq.
    by apply list_elem_of_fmap_2.
  - intros req st' r s'' <- Hedit.
    by apply editProductById_needs_row in Hedit.
Qed.

(** X16. Deleting the product that a create has just answered succeeds
    with 204 and gives back the Product table of before the create. *)
Theorem createProduct_then_delete (on_delete : references) req s st v s1 :
  createProduct req s = (Success st (Some v), s1) →
  ∃ s2, deleteProductById on_delete (p_id (pv_product v)) s1 = (Success 204 tt, s2)
    ∧ Products s2 = Products s.
Proof.
  intros H.
  apply createProduct_success in H as (b & p & s0 & s0' & Hnew & Hcat & Hvar & Hr).
  apply create_new_product_body in Hnew as (buffer & png & Hfile & Hpng & -> & Hrow).
  apply Product_create_inr in Hrow
    as (_ & _ & Hfresh & _ & Hcols & Hrows & _).
  apply set_product_category_inr in Hcat as (H1 & _).
  pose proof (set_product_variant_frame p (set_image png (body req)) s0')
    as (H3 & _).
  rewrite Hvar in H3. simpl in H3.
  assert (Products s1 = (Products s ++ [p])%list) as Hfinal by congruence.
  rewrite Hfinal, head_filter_snoc in Hr by done. injection Hr as ->.
  cbn [pv_product view exclude_image p_id].
  unfold deleteProductById. rewrite bind_run.
  destruct (Product_destroy_some on_delete (p_id p) s1) as (n & Hn & ->).
  { rewrite Hfinal, fmap_app. apply elem_of_app. right. by left. }
  rewrite bool_decide_eq_false_2 by lia.
  destruct (on_delete _ _) as [vs ls]. cbn.
  eexists. split; [done|]. cbn. rewrite Hfinal, filter_app.
  rewrite filter_all, filter_cons_False, filter_nil, app_nil_r; [done|auto|].
  intros q Hq Heq. destruct Hfresh. rewrite <- Heq. by apply list_elem_of_fmap_2.
Qed.

(** ** Pages of a listing *)

Lemma findAll_window rows q s l s' :
  findAll rows q s = (inr l, s') →
  ∃ d, parse_direction (order q).2 = Some d
    ∧ known_column (order q).1 = true
    ∧ let sorted :=
        order_by s (order q).1 d q (filter (λ p, where_matches q p = true) rows) in
      match pagination q with
      | Some (limit, offset) =>
          0 ≤ limit ∧ 0 ≤ offset
          ∧ l = view s <$> take (Z.to_nat limit) (drop (Z.to_nat offset) sorted)
      | None => l = view s <$> sorted
      end.
Proof.
  unfold findAll. destruct (parse_direction _) as [d|]; [|done].
  destruct (known_column _); [|done]. cbn [negb].
  destruct (_ && _); [done|]. rewrite bind_run.
  unfold gets. cbn beta iota. intros H. exists d. split; [done|]. split; [done|].
  cbn zeta. destruct (pagination q) as [[limit offset]|].
  - destruct (bool_decide _) eqn:Hneg; [done|].
    apply bool_decide_eq_false in Hneg. injection H as <- <-.
    split; [lia|]. split; [lia|done].
  - by injection H as <- <-.
Qed.

Lemma findAll_not_excluded rows q s l s' :
  findAll rows q s = (inr l, s') →
  paginated q = true → excluded_column (order q).1 = false.
Proof.
  unfold findAll. destruct (parse_direction _) as [d|]; [|done].
  destruct (negb _); [done|]. intros H Hpag. rewrite Hpag in H.
  by destruct (excluded_column _).
Qed.

Lemma order_by_length s t d q rows :
  length (order_by s t d q rows) = length rows.
Proof. unfold order_by. by rewrite merge_sort_Permutation. Qed.

Lemma getProducts_answer q s st l :
  getProducts q s = Success st l →
  st = 200 ∧ ∃ rows,
    findAll rows q s = (inr (data l), s)
    ∧ total_data l = count rows q
    ∧ pagination_info l = paginationInfo q (count rows q)
    ∧ match q_categoryId q with
      | Some cid => ∃ c, c ∈ Categories s ∧ c_id c = cid ∧ rows = products_of s c
      | None => rows = Products s
      end.
Proof.
  unfold getProducts. intros H.
  destruct (respond (getProducts_try q) s) as [r s'] eqn:Hr.
  simpl in H. subst r. apply respond_success in Hr as [-> Hr].
  split; [done|]. unfold getProducts_try in Hr.
  destruct (q_categoryId q) as [cid|].
  - apply bind_inr in Hr as (categoryData & s0 & Hc & Hr).
    injection Hc as <- <-.
    destruct (head _) as [c|] eqn:Hhead; [|done].
    apply Category_findByPk_Some in Hhead as [Hc <-].
    apply bind_inr in Hr as (productsData & s1 & Hfind & Hr).
    rewrite bind_run in Hfind. unfold gets at 1 in Hfind.
    destruct (findAll_inr _ _ _ _ _ Hfind) as [-> _].
    injection Hr as <- <-. exists (products_of s c).
    split; [exact Hfind|]. split; [done|]. split; [done|]. eauto.
  - apply bind_inr in Hr as (productsData & s1 & Hfind & Hr).
    rewrite bind_run in Hfind. unfold gets at 1 in Hfind.
    destruct (findAll_inr _ _ _ _ _ Hfind) as [-> _].
    injection Hr as <- <-. exists (Products s).
    split; [exact Hfind|]. done.
Qed.

(** X17. A paginated listing asked with a positive page number and page
    size carries the products of its window and no more: [perPage] of
    them, fewer on the last page, none behind it. [total_data] counts the
    products of all pages, and the page info repeats page and page size
    and gives the least number of pages that hold [total_data] products. *)
Theorem getProducts_page q s st l :
  paginated q = true →
  0 < perPage q → 0 < page q →
  getProducts q s = Success st l →
  Z.of_nat (length (data l))
  = Z.min (perPage q) (Z.max 0 (total_data l - (page q - 1) * perPage q))
  ∧ ∃ pages,
      pagination_info l
      = Some {| total_page := pages; current_page := page q;
                per_page := perPage q |}
      ∧ (pages - 1) * perPage q < total_data l ≤ pages * perPage q.
Proof.
  intros Hpag Hpos Hpage H.
  apply getProducts_answer in H as (_ & rows & Hfind & Htotal & Hinfo & _).
  apply findAll_window in Hfind as (d & _ & _ & Hwin).
  cbn zeta in Hwin. unfold pagination in Hwin. rewrite Hpag in Hwin.
  destruct Hwin as (_ & _ & Hdata). split.
  - rewrite Hdata, length_fmap, length_take, length_drop, order_by_length.
    rewrite Htotal. unfold count. nia.
  - unfold paginationInfo in Hinfo. rewrite Hpag, <- Htotal in Hinfo.
    eexists. split; [exact Hinfo|].
    assert (perPage q ≠ 0) as Hper0 by lia.
    pose proof (Z.div_mod (- total_data l) (perPage q) Hper0) as Hdiv.
    pose proof (Z.mod_pos_bound (- total_data l) (perPage q) Hpos) as Hmod.
    nia.
Qed.

Lemma products_of_id s c c' :
  c_id c = c_id c' → products_of s c = products_of s c'.
Proof. unfold products_of. by intros ->. Qed.

Lemma paginated_unpaginated q : paginated (unpaginated q) = false.
Proof. unfold paginated. cbn. by rewrite bool_decide_eq_true_2. Qed.

Lemma order_by_unique s t d q q' rows :
  distinct_keys s t → rows ⊆ Products s →
  order_by s t d q rows = order_by s t d q' rows.
Proof.
  intros [Hnum Hinj] Hsub.
  apply (StronglySorted_unique_strong (precedes s t d));
    [|apply order_by_sorted; apply _|apply order_by_sorted; apply _|].
  - intros a b Ha Hb Hab Hba.
    apply order_by_elem_of, Hsub in Ha. apply order_by_elem_of, Hsub in Hb.
    apply Hinj; [done..|].
    destruct (Hnum a Ha) as [n Hn], (Hnum b Hb) as [m Hm].
    rewrite Hn, Hm. do 2 f_equal.
    unfold precedes in Hab, Hba. rewrite Hn, Hm in Hab, Hba.
    destruct d; simpl in Hab, Hba;
      apply Z.leb_le in Hab; apply Z.leb_le in Hba; lia.
  - unfold order_by. by rewrite !merge_sort_Permutation.
Qed.

(** X18. A page and the whole listing: when a paginated query with a
    positive page number and page size is answered, the same query sent
    with [isPaginated=false] is answered too, with the same [total_data],
    as many products as [total_data] says and no page info, and every
    product of the page is in it. The store orders rows with equal keys as
    it likes, and need not do so alike for the two queries; when the keys
    of the products are pairwise distinct numbers, the page holds the
    [perPage] products that follow the first [(page - 1) * perPage] of the
    whole listing, in their order. *)
Theorem getProducts_page_of_whole q s st l :
  paginated q = true →
  0 < perPage q → 0 < page q →
  getProducts q s = Success st l →
  ∃ whole,
    getProducts (unpaginated q) s = Success 200 whole
    ∧ pagination_info whole = None
    ∧ total_data whole = total_data l
    ∧ Z.of_nat (length (data whole)) = total_data whole
    ∧ (∀ v, v ∈ data l → v ∈ data whole)
    ∧ (distinct_keys s (order q).1 →
       data l
       = take (Z.to_nat (perPage q))
           (drop (Z.to_nat ((page q - 1) * perPage q)) (data whole))).
Proof.
  intros Hpag _ _ H.
  apply getProducts_answer in H as (_ & rows & Hfind & Htotal & _ & Hrows).
  apply findAll_window in Hfind as (d & Hd & Hcol & Hwin).
  cbn zeta in Hwin. unfold pagination in Hwin. rewrite Hpag in Hwin.
  destruct Hwin as (_ & _ & Hdata).
  destruct (getProducts_succeeds (unpaginated q) s d) as [whole Hwhole].
  - exact Hd.
  - exact Hcol.
  - by rewrite paginated_unpaginated.
  - intros cid Hcid. change (q_categoryId q = Some cid) in Hcid.
    rewrite Hcid in Hrows. destruct Hrows as (c & Hc & <- & _).
    by apply list_elem_of_fmap_2.
  - exists whole. split; [done|].
    apply getProducts_answer in Hwhole
      as (_ & rows' & Hfind' & Htotal' & Hinfo' & Hrows').
    change (q_categoryId (unpaginated q)) with (q_categoryId q) in Hrows'.
    assert (rows' = rows) as ->.
    { destruct (q_categoryId q) as [cid|]; [|congruence].
      destruct Hrows as (c & _ & Hc & ->).
      destruct Hrows' as (c' & _ & Hc' & ->).
      apply products_of_id. congruence. }
    assert (rows ⊆ Products s) as Hscope.
    { destruct (q_categoryId q) as [cid|]; [|by subst rows].
      destruct Hrows as (c & _ & _ & ->). intros p Hp.
      by apply list_elem_of_filter in Hp as [_ ?]. }
    apply findAll_window in Hfind' as (d' & Hd' & _ & Hwin').
    change (order (unpaginated q)) with (order q) in Hd', Hwin'.
    cbn zeta in Hwin'. unfold pagination in Hwin'.
    rewrite paginated_unpaginated in Hwin'.
    assert (d' = d) as -> by congruence.
    change (λ p, where_matches (unpaginated q) p = true)
      with (λ p, where_matches q p = true) in Hwin'.
    unfold paginationInfo in Hinfo'. rewrite paginated_unpaginated in Hinfo'.
    split; [done|]. split; [by rewrite Htotal', Htotal|]. split; [|split].
    + rewrite Hwin', length_fmap, order_by_length. by rewrite Htotal'.
    + intros v Hv. rewrite Hdata in Hv. rewrite Hwin'.
      apply list_elem_of_fmap in Hv as (p & -> & Hp).
      apply list_elem_of_fmap_2.
      eapply sublist_subseteq in Hp;
        [|etrans; [apply sublist_take|apply sublist_drop]].
      apply order_by_elem_of. by apply order_by_elem_of in Hp.
    + intros Hkeys. rewrite Hdata, Hwin', fmap_take, fmap_drop.
      do 3 f_equal. apply order_by_unique; [done|].
      intros p Hp. apply Hscope. by apply list_elem_of_filter in Hp as [_ ?].
Qed.

(** X19. A listing asked with [isPaginated=false] and without a name
    filter is complete: it holds each product of its scope once, and no
    other; the scope is the Product table, or the products linked to the
    category of the query. *)
Theorem getProducts_unpaginated_complete q s st l :
  paginated q = false →
  where_name q = None →
  getProducts q s = Success st l →
  ∃ rows,
    match q_categoryId q with
    | Some cid => ∃ c, c ∈ Categories s ∧ c_id c = cid ∧ rows = products_of s c
    | None => rows = Products s
    end
    ∧ data l ≡ₚ view s <$> rows
    ∧ total_data l = Z.of_nat (length rows).
Proof.
  intros Hpag Hname H.
  apply getProducts_answer in H as (_ & rows & Hfind & Htotal & _ & Hrows).
  apply findAll_window in Hfind as (d & _ & _ & Hwin).
  cbn zeta in Hwin. unfold pagination in Hwin. rewrite Hpag in Hwin.
  assert (filter (λ p, where_matches q p = true) rows = rows) as Hall.
  { apply filter_all. intros p _. unfold where_matches. by rewrite Hname. }
  exists rows. split; [done|]. rewrite Hwin, Hall. split.
  - unfold order_by. by rewrite merge_sort_Permutation.
  - rewrite Htotal. unfold count. by rewrite Hall.
Qed.

(** ** What the responses leave out *)

Lemma view_no_image s p :
  p_cols (pv_product (view s p)) !! "image" = None
  ∧ ∀ c, c ∈ pv_categories (view s p) → c_image c = None.
Proof.
  split; [apply lookup_delete_eq|].
  intros c (c' & -> & _)%list_elem_of_fmap. done.
Qed.

(** X20. No response of the listing, of the create or of the edit carries
    image bytes: the products they answer have no [image] column, and
    neither have the categories listed with them. *)
Theorem responses_exclude_image s v :
  ((∃ q st l, getProducts q s = Success st l ∧ v ∈ data l)
   ∨ (∃ req s0 st, createProduct req s0 = (Success st (Some v), s))
   ∨ (∃ req s0 st, editProductById req s0 = (Success st (Some v), s))) →
  p_cols (pv_product v) !! "image" = None
  ∧ ∀ c, c ∈ pv_categories v → c_image c = None.
Proof.
  intros [(q & st & l & H & Hv)|[(req & s0 & st & H)|(req & s0 & st & H)]].
  - apply getProducts_answer in H as (_ & rows & Hfind & _).
    destruct (findAll_elem_of _ _ _ _ _ _ Hfind Hv) as (p & _ & _ & ->).
    apply view_no_image.
  - apply createProduct_success in H as (b & p & s1 & s2 & _ & _ & _ & Hr).
    destruct (head _) as [p'|]; [|done]. injection Hr as ->.
    apply view_no_image.
  - apply editProductById_success in H as (b & pd & s1 & s2 & _ & _ & _ & Hr).
    destruct (head _) as [p'|]; [|done]. injection Hr as ->.
    apply view_no_image.
Qed.

(** ** Listing by a column *)

Lemma sql_leb_column_le x y : sql_leb x y = true → column_le x y.
Proof.
  destruct x as [[]|], y as [[]|]; simpl; try done. apply Z.leb_le.
Qed.

Lemma precedes_by_column s c d a b :
  c ≠ "image" →
  precedes s (Column c) d a b → by_column c d (view s a) (view s b).
Proof.
  intros Hc.
  assert (∀ p, sort_key s (Column c) p = view_column c (view s p)) as Hkey.
  { intros p. unfold sort_key, view_column. cbn.
    by rewrite lookup_delete_ne. }
  destruct d; unfold precedes, by_column; rewrite !Hkey;
    apply sql_leb_column_le.
Qed.

Lemma StronglySorted_fmap_impl {A B} (R : relation A) (R' : relation B)
    (f : A → B) (l : list A) :
  (∀ a b, R a b → R' (f a) (f b)) →
  StronglySorted R l → StronglySorted R' (f <$> l).
Proof.
  intros HR. induction 1 as [|x l _ IH Hall]; [constructor|].
  rewrite fmap_cons. constructor; [done|].
  apply Forall_fmap. eapply Forall_impl; [exact Hall|]. intros y. apply HR.
Qed.

(** X21. A listing that is not sorted by price is ordered by the column
    it names, or by [updatedAt] when it names none, in the direction it
    names, or descending when it names none. The column is one of
    Product, and each listed product stands in the order of the column's
    values to all later ones: ascending, null values come first, numbers
    grow, false comes before true and texts follow the collation of the
    store; descending, the reverse. *)
Theorem getProducts_column_order q s st l c :
  q_sortBy q ≠ Some "price" →
  or_default (q_sortBy q) "updatedAt" = c →
  c ≠ "image" →
  getProducts q s = Success st l →
  ∃ d, parse_direction (or_default (q_orderBy q) "DESC") = Some d
    ∧ c ∈ Product_attributes
    ∧ StronglySorted (by_column c d) (data l)
    ∧ (∀ (i j : nat) a b x y,
         (i < j)%nat → data l !! i = Some a → data l !! j = Some b →
         view_column c a = Some (VNum x) → view_column c b = Some (VNum y) →
         match d with ASC => x ≤ y | DESC => y ≤ x end).
Proof.
  intros Hsort Hc Himg H.
  apply getProducts_answer in H as (_ & rows & Hfind & _).
  assert (order q = (Column c, or_default (q_orderBy q) "DESC")) as Hord.
  { unfold order. by rewrite bool_decide_eq_false_2, Hc. }
  destruct (findAll_inr _ _ _ _ _ Hfind) as (_ & d & sorted & Hd & Hl & Hsub).
  apply findAll_window in Hfind as (_ & _ & Hcol & _).
  rewrite Hord in Hd, Hsub, Hcol. simpl in Hd, Hsub, Hcol.
  assert (StronglySorted (by_column c d) (data l)) as Hsorted.
  { rewrite Hl.
    apply (StronglySorted_fmap_impl (precedes s (Column c) d));
      [intros a b; by apply precedes_by_column|].
    eapply StronglySorted_sublist; [exact Hsub|].
    apply order_by_sorted; apply _. }
  exists d. split; [done|]. split; [by apply bool_decide_eq_true in Hcol|].
  split; [done|].
  intros i j a b x y Hij Hi Hj Ha Hb.
  pose proof (StronglySorted_lookup _ _ i j a b Hsorted Hij Hi Hj) as Hab.
  unfold by_column in Hab. rewrite Ha, Hb in Hab. by destruct d.
Qed.

(** ** The create is all-or-nothing *)

(** X22. Whenever [createProduct] answers with a failure, whichever step
    threw and whatever the callback had already written (the product row,
    category links, variants), the rows of every table are those the
    store held before the create began. *)
Theorem createProduct_failure_rolls_back req s e s' :
  createProduct req s = (Failure e, s') → tables s' = tables s.
Proof.
  unfold createProduct. rewrite respond_failure.
  apply transaction_failure.
Qed.

End Controller.

(** ** The shop, worked *)

Example shop_edit_BD :
  Variants (editProductById accept_png any_product any_variant
              (edit_request 1 {[ "name" := VStr "tea" ]} None
                 (Some [input (Some 2) "B2"; input None "D"]))
              shop).2
  = [ {| v_id := 2; v_name := Some "B2"; v_price := Some 30; v_stock := Some 1;
         v_productId := Some 1 |};
      row 7 "M" 20 2;
      {| v_id := 8; v_name := Some "D"; v_price := None; v_stock := None;
         v_productId := Some 1 |} ].
Proof. vm_compute. reflexivity. Qed.

(** C5 (the code departs from the claim). Both product writes pass the
    allowed attributes under the key [field]; Sequelize reads [fields], so
    the list restricts nothing and every attribute of the model that the
    body carries is written. A create whose body carries [id] stores the
    row under that key instead of the next key of the table (4 in the
    shop), and an edit whose body carries [createdAt] overwrites that
    column; under the key [fields] neither would be written. *)
Theorem product_writes_ignore_field_list :
  (∀ fs values, written [("field", fs)] values = written [] values)
  ∧ written [("field", ["name"; "description"; "image"; "isActive"])]
      {[ "name" := VStr "pot"; "id" := VNum 42 ]} !! "id" = Some (VNum 42)
  ∧ written [("fields", ["name"; "description"; "image"; "isActive"])]
      {[ "name" := VStr "pot"; "id" := VNum 42 ]} !! "id" = None
  ∧ p_id <$> Products (createProduct accept_png any_product any_variant
               (upload_request 0 {[ "name" := VStr "pot"; "id" := VNum 42 ]}
                  None None) shop).2
    = [1; 2; 3; 42]
  ∧ (λ p, p_cols p !! "createdAt") <$>
      Products (editProductById accept_png any_product any_variant
                  (edit_request 1 {[ "createdAt" := VNum 0 ]} None None) shop).2
    = [Some (VNum 0); Some (VNum 50); Some (VNum 50)].
Proof.
  split; [done|]. repeat split; vm_compute; reflexivity.
Qed.

(** C4 (the code departs from the claim). [Variant.update] is issued with
    [where: { id }] alone, so an input's id is matched against the whole
    Variant table. Editing product 3, which owns no variant, with a body
    that names the product and an input that carries the id 7 of a variant
    of product 2 does not fail: the edit succeeds and the fields are
    written to the other product's row. *)
Theorem editProductById_writes_foreign_variant :
  ∃ r s',
    (7 ∉ v_id <$> filter (λ v, v_productId v = Some 3) (Variants shop))
    ∧ editProductById accept_png any_product any_variant
        (edit_request 3 {[ "name" := VStr "cup" ]} None
           (Some [input (Some 7) "hijacked"])) shop
      = (Success 200 r, s')
    ∧ Variants s'
      = [ row 1 "A" 10 1; row 2 "B" 30 1; row 3 "C" 20 1;
          {| v_id := 7; v_name := Some "hijacked"; v_price := Some 20;
             v_stock := Some 1; v_productId := Some 2 |} ].
Proof.
  eexists _, _. split; [compute_done|]. split; vm_compute; reflexivity.
Qed.

(** ** The theorems at work on the shop *)

(** C1, the claim as worded, fails on an input that carries the id 0: it
    is an input with an id, and the edit puts it in toCreate. The edit of
    product 1 with the one input [{ id: 0, name: "Z" }] does not look for
    a variant 0 to update: it completes, deletes A, B and C, and creates Z
    under the next key. *)
Lemma editProductById_creates_for_id_zero :
  vi_id (input (Some 0) "Z") = Some 0
  ∧ newVariants [input (Some 0) "Z"] = [input (Some 0) "Z"]
  ∧ updateVariants [input (Some 0) "Z"] = []
  ∧ ∃ r s',
      editProductById accept_png any_product any_variant
        (edit_request 1 {[ "name" := VStr "tea" ]} None
           (Some [input (Some 0) "Z"])) shop
      = (Success 200 r, s')
      ∧ Variants s'
        = [ row 7 "M" 20 2;
            {| v_id := 8; v_name := Some "Z"; v_price := None; v_stock := None;
               v_productId := Some 1 |} ].
Proof.
  split; [reflexivity|]. split; [reflexivity|]. split; [reflexivity|].
  eexists _, _. split; vm_compute; reflexivity.
Qed.

(** C1 as amended, on the example of the specification: existing variants
    A, B and C, desired inputs B (by id) and D (without id). A and C are
    deleted, B is updated, D is created under the next key and owned by
    the product. *)
Lemma editProductById_reconciles_witness :
  ∃ st r s',
    editProductById accept_png any_product any_variant
      (edit_request 1 {[ "name" := VStr "tea" ]} None
         (Some [input (Some 2) "B2"; input None "D"])) shop
    = (Success st r, s')
    ∧ Variants s'
      = [ {| v_id := 2; v_name := Some "B2"; v_price := Some 30;
             v_stock := Some 1; v_productId := Some 1 |};
          row 7 "M" 20 2;
          {| v_id := 8; v_name := Some "D"; v_price := None; v_stock := None;
             v_productId := Some 1 |} ]
    ∧ (1 ∉ v_id <$> Variants s') ∧ (3 ∉ v_id <$> Variants s').
Proof.
  eexists _, _, _. split; [vm_compute; reflexivity|].
  lazymatch goal with
  | |- Variants ?s' = _ ∧ _ =>
      epose proof (editProductById_reconciles accept_png any_product any_variant
        (edit_request 1 {[ "name" := VStr "tea" ]} None
           (Some [input (Some 2) "B2"; input None "D"])) shop
        _ _ s' [input (Some 2) "B2"; input None "D"]) as H
  end.
  cbv zeta in H.
  destruct H as (_ & _ & Htbl & Hdel & _).
  - compute_done.
  - compute_done.
  - reflexivity.
  - discriminate.
  - vm_compute. reflexivity.
  - split; [rewrite Htbl; vm_compute; reflexivity|]. split.
    + apply (Hdel (row 1 "A" 10 1)); [by left|]. apply list_elem_of_filter.
      split; [split; [reflexivity|compute_done]|by left].
    + apply (Hdel (row 3 "C" 20 1)); [do 2 right; by left|].
      apply list_elem_of_filter.
      split; [split; [reflexivity|compute_done]|do 2 right; by left].
Defined.

(** C2 on an edit that renames the product, lists no existing variant and
    names a variant that does not exist: when the update of variant 99
    throws, the callback has rewritten the product row and destroyed A, B
    and C; the response leaves every table as it was. *)
Lemma editProductById_failure_rolls_back_witness :
  ∃ e s',
    editProductById accept_png any_product any_variant
      (edit_request 1 {[ "name" := VStr "green tea" ]} None
         (Some [input (Some 99) "X"])) shop
    = (Failure e, s')
    ∧ tables s' = tables shop
    ∧ Variants (editProductById_callback accept_png any_product any_variant
                  (edit_request 1 {[ "name" := VStr "green tea" ]} None
                     (Some [input (Some 99) "X"])) shop).2
      = [row 7 "M" 20 2].
Proof.
  eexists _, _. split; [vm_compute; reflexivity|]. split.
  - apply (editProductById_failure_rolls_back accept_png any_product any_variant
             (edit_request 1 {[ "name" := VStr "green tea" ]} None
                (Some [input (Some 99) "X"])) shop
             (ResponseError "invalid variant id" 400)).
    vm_compute. reflexivity.
  - vm_compute. reflexivity.
Defined.



(** C6 on the edit of product 1 with an empty body and no file. *)
Lemma editProductById_empty_payload_witness :
  editProductById accept_png any_product any_variant
    (edit_request 1 ∅ None None) shop
  = (Failure (ResponseError "no data provided" 400), shop).
Proof.
  apply (editProductById_empty_payload accept_png any_product any_variant
           (edit_request 1 ∅ None None) shop); reflexivity.
Defined.



(** C7, the claim as worded, fails on a listing scoped to the category 9,
    which the shop does not have: the failure is "invalid categoryId" with
    status 400, whose kind is InvalidReference and not NotFound. *)
Lemma getProducts_unknown_category_not_NotFound :
  (9 ∉ c_id <$> Categories shop)
  ∧ getProducts like_ascii String.leb by_key (listing None None (Some 9)) shop
    = Failure (ResponseError "invalid categoryId" 400)
  ∧ error_kind (ResponseError "invalid categoryId" 400) ≠ NotFound.
Proof.
  split; [compute_done|]. split; [vm_compute; reflexivity|]. discriminate.
Qed.

(** C7 as amended, on the category 9 that does not exist and on the
    category 1, to which product 1 ("tea") alone is linked: without a name
    and with the name [t_a], whose [_] the pattern reads as a wildcard. *)
Lemma getProducts_category_scope_witness :
  getProducts like_ascii String.leb by_key (listing None None (Some 9)) shop
  = Failure (ResponseError "invalid categoryId" 400)
  ∧ (∃ l, getProducts like_ascii String.leb by_key (listing None None (Some 1)) shop
          = Success 200 l
          ∧ listed_ids (Success 200 l) = Some [1]
          ∧ total_data l = 1)
  ∧ (∃ l, getProducts like_ascii String.leb by_key (search "t_a" (Some 1)) shop
          = Success 200 l
          ∧ listed_ids (Success 200 l) = Some [1]
          ∧ total_data l = 1).
Proof.
  split; [|split].
  - apply (getProducts_category_scope like_ascii String.leb by_key
             (listing None None (Some 9)) shop 9);
      [reflexivity|compute_done].
  - eexists. split; [vm_compute; reflexivity|].
    split; [vm_compute; reflexivity|].
    lazymatch goal with
    | |- total_data ?l = _ =>
        destruct (getProducts_category_scope like_ascii String.leb by_key
                    (listing None None (Some 1)) shop 1 eq_refl) as [_ H];
        destruct (H ltac:(compute_done) 200 l) as (_ & ->)
    end; vm_compute; reflexivity.
  - eexists. split; [vm_compute; reflexivity|].
    split; [vm_compute; reflexivity|].
    lazymatch goal with
    | |- total_data ?l = _ =>
        destruct (getProducts_category_scope like_ascii String.leb by_key
                    (search "t_a" (Some 1)) shop 1 eq_refl) as [_ H];
        destruct (H ltac:(compute_done) 200 l) as (_ & ->)
    end; vm_compute; reflexivity.
Defined.


(** ** The further properties at work on the shop *)

(** X1 and X2 on a rename of product 1 that lists no variant and no
    category. *)
Lemma editProductById_without_variants_witness :
  ∃ st r s',
    editProductById accept_png any_product any_variant
      (edit_request 1 {[ "name" := VStr "green tea" ]} None None) shop
    = (Success st r, s')
    ∧ Variants s' = Variants shop ∧ Variant_seq s' = Variant_seq shop.
Proof.
  assert (∃ st r s',
    editProductById accept_png any_product any_variant
      (edit_request 1 {[ "name" := VStr "green tea" ]} None None) shop
    = (Success st r, s')) as (st & r & s' & Hrun)
    by (eexists _, _, _; vm_compute; reflexivity).
  exists st, r, s'. split; [exact Hrun|].
  eapply editProductById_without_variants; [|exact Hrun]. by left.
Defined.

Lemma editProductById_without_categories_witness :
  ∃ st r s',
    editProductById accept_png any_product any_variant
      (edit_request 1 {[ "name" := VStr "green tea" ]} None None) shop
    = (Success st r, s')
    ∧ ProductCategories s' = ProductCategories shop.
Proof.
  assert (∃ st r s',
    editProductById accept_png any_product any_variant
      (edit_request 1 {[ "name" := VStr "green tea" ]} None None) shop
    = (Success st r, s')) as (st & r & s' & Hrun)
    by (eexists _, _, _; vm_compute; reflexivity).
  exists st, r, s'. split; [exact Hrun|].
  eapply editProductById_without_categories; [|exact Hrun]. by left.
Defined.

(** X3 on moving product 1 from the category 1 to the category 2. *)
Lemma editProductById_replaces_categories_witness :
  ∃ st r s',
    editProductById accept_png any_product any_variant
      (edit_request 1 {[ "name" := VStr "tea" ]} (Some [2]) None) shop
    = (Success st r, s')
    ∧ ((1, 2) ∈ ProductCategories s') ∧ ((1, 1) ∉ ProductCategories s').
Proof.
  assert (∃ st r s',
    editProductById accept_png any_product any_variant
      (edit_request 1 {[ "name" := VStr "tea" ]} (Some [2]) None) shop
    = (Success st r, s')) as (st & r & s' & Hrun)
    by (eexists _, _, _; vm_compute; reflexivity).
  exists st, r, s'. split; [exact Hrun|].
  destruct (editProductById_replaces_categories accept_png any_product
              any_variant
              (edit_request 1 {[ "name" := VStr "tea" ]} (Some [2]) None)
              shop st r s' [2])
    as [Hown _]; [reflexivity|discriminate|exact Hrun|].
  split.
  - apply (proj2 (Hown 2)). by left.
  - intros H. apply (proj1 (Hown 1)) in H. revert H. compute_done.
Defined.

(** X4 on an edit addressed to the key 9, which the shop does not have. *)
Lemma editProductById_unknown_product_witness :
  editProductById accept_png any_product any_variant
    (edit_request 9 {[ "name" := VStr "pot" ]} None None) shop
  = (Failure (ResponseError "product not found" 404), shop).
Proof.
  destruct (editProductById_unknown_product accept_png any_product any_variant
              (edit_request 9 {[ "name" := VStr "pot" ]} None None) shop)
    as [_ H]; [compute_done|].
  apply H; [reflexivity|compute_done|reflexivity].
Defined.

(** X5 on an edit of product 1 that names the variant 99. *)
Lemma editProductById_unknown_variant_witness :
  ∃ e s',
    editProductById accept_png any_product any_variant
      (edit_request 1 {[ "name" := VStr "tea" ]} None
         (Some [input (Some 99) "X"])) shop
    = (Failure e, s')
    ∧ tables s' = tables shop.
Proof.
  destruct (editProductById_unknown_variant accept_png any_product any_variant
              (edit_request 1 {[ "name" := VStr "tea" ]} None
         (Some [input (Some 99) "X"])) shop
              [input (Some 99) "X"] (input (Some 99) "X") 99)
    as [H _]; [reflexivity|by left|reflexivity|done|compute_done|exact H].
Defined.

(** X6 on an upload that the normalizer rejects. *)
Lemma normalizer_rejection_before_any_write_witness :
  createProduct reject_png any_product any_variant
    (upload_request 1 {[ "name" := VStr "pot" ]} None None) shop
  = (Failure SharpError, shop)
  ∧ editProductById reject_png any_product any_variant
      (upload_request 1 {[ "name" := VStr "pot" ]} None None) shop
    = (Failure SharpError, shop).
Proof.
  destruct (normalizer_rejection_before_any_write reject_png any_product
              any_variant
              (upload_request 1 {[ "name" := VStr "pot" ]} None None) shop [])
    as (_ & _ & Hcreate & Hedit); [reflexivity|reflexivity|].
  by split.
Defined.

(** X7 on a rename of product 1 at the time 100. *)
Lemma editProductById_row_witness :
  ∃ st r s',
    editProductById accept_png any_product any_variant
      (edit_request 1 {[ "name" := VStr "green tea" ]} None None) shop
    = (Success st r, s')
    ∧ ∃ p', p' ∈ Products s'
        ∧ p_cols p' !! "name" = Some (VStr "green tea")
        ∧ p_cols p' !! "updatedAt" = Some (VNum 100)
        ∧ p_cols p' !! "createdAt" = Some (VNum 50).
Proof.
  assert (∃ st r s',
    editProductById accept_png any_product any_variant
      (edit_request 1 {[ "name" := VStr "green tea" ]} None None) shop
    = (Success st r, s')) as (st & r & s' & Hrun)
    by (eexists _, _, _; vm_compute; reflexivity).
  exists st, r, s'. split; [exact Hrun|].
  destruct (editProductById_row accept_png any_product any_variant
              (edit_request 1 {[ "name" := VStr "green tea" ]} None None) shop
              st r s' Hrun)
    as (_ & _ & Hrow).
  destruct (Hrow (item 1 "tea")) as (p' & Hin & Hstamp & Hset & Hkept);
    [by left|reflexivity|].
  exists p'. split; [exact Hin|]. split; [|split; [exact Hstamp|]].
  - apply Hset; [compute_done|done..|reflexivity].
  - rewrite Hkept; [reflexivity|done..|right; reflexivity].
Defined.

(** X8 on the category list [1; 2] in the shop, which has both. *)
Lemma set_product_category_accepts_witness :
  ∃ r s',
    set_product_category (Some (item 1 "tea"))
      {| attrs := ∅; categoryId := Some [1; 2]; variants := None |} shop
    = (inr r, s').
Proof.
  apply (set_product_category_accepts (item 1 "tea")
           {| attrs := ∅; categoryId := Some [1; 2]; variants := None |}
           [1; 2] shop); [compute_done|reflexivity|discriminate|].
  split; [compute_done|]. apply Forall_forall. compute_done.
Defined.

(** X9 on the create of a product "pot" in the shop, whose next key is 4. *)
Lemma createProduct_row_witness :
  ∃ st r s',
    createProduct accept_png any_product any_variant
      (upload_request 0 {[ "name" := VStr "pot" ]} None None) shop
    = (Success st r, s')
    ∧ ∃ p, Products s' = (Products shop ++ [p])%list
        ∧ p_id p = 4
        ∧ p_cols p !! "name" = Some (VStr "pot").
Proof.
  assert (∃ st r s',
    createProduct accept_png any_product any_variant
      (upload_request 0 {[ "name" := VStr "pot" ]} None None) shop
    = (Success st r, s')) as (st & r & s' & Hrun)
    by (eexists _, _, _; vm_compute; reflexivity).
  exists st, r, s'. split; [exact Hrun|].
  destruct (createProduct_row accept_png any_product any_variant
              (upload_request 0 {[ "name" := VStr "pot" ]} None None) shop
              st r s' Hrun)
    as (p & Hrows & _ & _ & _ & Hseq & _ & _ & Hcols).
  exists p. split; [exact Hrows|]. split; [by apply Hseq|].
  rewrite Hcols; [reflexivity|compute_done|done..].
Defined.

(** X10 on the create of a product "pot" with two variant inputs. When
    neither carries an id, the new product has the rows 8 and 9. When the
    second carries the id of the variant A of product 1, the new product
    takes A, and the row inserted for that input has no owner. *)
Lemma createProduct_variants_witness :
  (∃ st r s',
     createProduct accept_png any_product any_variant
       (upload_request 0 {[ "name" := VStr "pot" ]} None
          (Some [input None "S"; input None "L"])) shop
     = (Success st r, s')
     ∧ ∃ p, r = Some (view s' p)
         ∧ v_id <$> pv_variants (view s' p) ≡ₚ [8; 9]
         ∧ v_name <$> pv_variants (view s' p) ≡ₚ [Some "S"; Some "L"])
  ∧ (∃ st r s',
       createProduct accept_png any_product any_variant
         (upload_request 0 {[ "name" := VStr "pot" ]} None
            (Some [input None "S"; input (Some 1) "L"])) shop
       = (Success st r, s')
       ∧ ∃ p, r = Some (view s' p)
           ∧ length (Variants s') = 6%nat
           ∧ owned_by (Some (p_id p)) (row 1 "A" 10 1) ∈ Variants s'
           ∧ new_row 9 (input None "L") None ∈ Variants s').
Proof.
  split.
  - assert (∃ st r s',
      createProduct accept_png any_product any_variant
        (upload_request 0 {[ "name" := VStr "pot" ]} None
           (Some [input None "S"; input None "L"])) shop
      = (Success st r, s')) as (st & r & s' & Hrun)
      by (eexists _, _, _; vm_compute; reflexivity).
    exists st, r, s'. split; [exact Hrun|].
    destruct (createProduct_variants accept_png any_product any_variant
                (upload_request 0 {[ "name" := VStr "pot" ]} None
                   (Some [input None "S"; input None "L"])) shop
                st r s' Hrun)
      as (_ & H).
    destruct (H [input None "S"; input None "L"] eq_refl)
      as (p & Hr & _ & Hnew & _); [discriminate|].
    destruct Hnew as [Hvs _]; [by repeat constructor|].
    exists p. split; [exact Hr|]. rewrite Hvs. split; reflexivity.
  - assert (∃ st r s',
      createProduct accept_png any_product any_variant
        (upload_request 0 {[ "name" := VStr "pot" ]} None
           (Some [input None "S"; input (Some 1) "L"])) shop
      = (Success st r, s')) as (st & r & s' & Hrun)
      by (eexists _, _, _; vm_compute; reflexivity).
    exists st, r, s'. split; [exact Hrun|].
    destruct (createProduct_variants accept_png any_product any_variant
                (upload_request 0 {[ "name" := VStr "pot" ]} None
                   (Some [input None "S"; input (Some 1) "L"])) shop
                st r s' Hrun)
      as (_ & H).
    destruct (H [input None "S"; input (Some 1) "L"] eq_refl)
      as (p & Hr & Hlen & _ & Hgiven); [discriminate|].
    destruct (Hgiven 1%nat (input (Some 1) "L") 1 (row 1 "A" 10 1))
      as [Htaken Hunowned]; [reflexivity|reflexivity|done|by left|reflexivity|].
    exists p. split; [exact Hr|]. split; [exact Hlen|]. split; [exact Htaken|].
    apply Hunowned.
    apply Forall_cons; split; [by intros m [= ]|].
    apply Forall_cons; split; [|by apply Forall_nil].
    intros m [= <-] _. compute_done.
Defined.

(** X11 in the gallery: the image of product 1 is served, product 2 has a
    null image, and no product has the key 9. *)
Lemma getProductImageById_serves_stored_witness :
  getProductImageById 1 gallery = Success 200 ("image/png", VBuf [x89])
  ∧ getProductImageById 2 gallery
    = Failure (ResponseError "product image not found" 404)
  ∧ getProductImageById 9 gallery
    = Failure (ResponseError "product image not found" 404).
Proof.
  split; [|split].
  - destruct (getProductImageById_serves_stored 1 gallery) as (_ & _ & H).
    destruct (H framed) as [_ Hbuf]; [compute_done|by left|reflexivity|].
    by apply Hbuf.
  - destruct (getProductImageById_serves_stored 2 gallery) as (_ & _ & H).
    destruct (H blank) as [Hnull _];
      [compute_done|right; by left|reflexivity|].
    apply Hnull. by right.
  - destruct (getProductImageById_serves_stored 9 gallery) as (_ & H & _).
    apply H. compute_done.
Defined.

(** X12 on the create of a product "pot" with an empty upload. *)
Lemma createProduct_then_image_witness :
  ∃ st v s',
    createProduct accept_png any_product any_variant
      (upload_request 0 {[ "name" := VStr "pot" ]} None None) shop
    = (Success st (Some v), s')
    ∧ getProductImageById (p_id (pv_product v)) s'
      = Success 200 ("image/png", VBuf []).
Proof.
  assert (∃ st r s',
    createProduct accept_png any_product any_variant
      (upload_request 0 {[ "name" := VStr "pot" ]} None None) shop
    = (Success st r, s')) as (st & r & s' & Hrun)
    by (eexists _, _, _; vm_compute; reflexivity).
  destruct (createProduct_then_image accept_png any_product any_variant
              (upload_request 0 {[ "name" := VStr "pot" ]} None None) shop
              st r s' Hrun)
    as (v & buffer & png & -> & Hfile & Hpng & Himg).
  injection Hfile as <-. injection Hpng as <-.
  exists st, v, s'. split; [exact Hrun|exact Himg].
Defined.

(** X13 on an edit of product 1 with an empty upload. *)
Lemma editProductById_then_image_witness :
  ∃ st r s',
    editProductById accept_png any_product any_variant
      (upload_request 1 {[ "name" := VStr "green tea" ]} None None) shop
    = (Success st r, s')
    ∧ getProductImageById 1 s' = Success 200 ("image/png", VBuf []).
Proof.
  assert (∃ st r s',
    editProductById accept_png any_product any_variant
      (upload_request 1 {[ "name" := VStr "green tea" ]} None None) shop
    = (Success st r, s')) as (st & r & s' & Hrun)
    by (eexists _, _, _; vm_compute; reflexivity).
  exists st, r, s'. split; [exact Hrun|].
  destruct (editProductById_then_image accept_png any_product any_variant
              (upload_request 1 {[ "name" := VStr "green tea" ]} None None)
              shop st r s' [])
    as (png & Hpng & Himg); [reflexivity|reflexivity|exact Hrun|].
  injection Hpng as <-. exact Himg.
Defined.

(** X14 on the deletion of the key 9, which the shop does not have, and of
    product 2. *)
Lemma deleteProductById_outcome_witness :
  deleteProductById cascade 9 shop
  = (Failure (ResponseError "product not found" 404), shop)
  ∧ ∃ s', deleteProductById cascade 2 shop = (Success 204 tt, s')
      ∧ (2 ∉ p_id <$> Products s')
      ∧ (item 1 "tea" ∈ Products s').
Proof.
  split.
  - destruct (deleteProductById_outcome cascade 9 shop) as [H _].
    apply H. compute_done.
  - destruct (deleteProductById_outcome cascade 2 shop) as [_ H].
    destruct H as (s' & Hrun & Hgone & Hrows & _); [compute_done|].
    exists s'. split; [exact Hrun|]. split; [exact Hgone|].
    apply Hrows. split; [by left|done].
Defined.

(** X15 on the deletion of product 2. *)
Lemma deleteProductById_then_gone_witness :
  ∃ st s',
    deleteProductById cascade 2 shop = (Success st tt, s')
    ∧ deleteProductById cascade 2 s'
      = (Failure (ResponseError "product not found" 404), s')
    ∧ getProductImageById 2 s'
      = Failure (ResponseError "product image not found" 404).
Proof.
  assert (∃ st s', deleteProductById cascade 2 shop = (Success st tt, s'))
    as (st & s' & Hrun) by (eexists _, _; vm_compute; reflexivity).
  exists st, s'. split; [exact Hrun|].
  destruct (deleteProductById_then_gone accept_png any_product any_variant
              cascade 2 shop st s' Hrun)
    as (Hagain & Himg & _).
  split; [exact Hagain|exact Himg].
Defined.

(** X16 on the create of a product "pot" and its deletion. *)
Lemma createProduct_then_delete_witness :
  ∃ st v s1,
    createProduct accept_png any_product any_variant
      (upload_request 0 {[ "name" := VStr "pot" ]} None None) shop
    = (Success st (Some v), s1)
    ∧ ∃ s2, deleteProductById cascade (p_id (pv_product v)) s1
            = (Success 204 tt, s2)
        ∧ Products s2 = Products shop.
Proof.
  assert (∃ st v s1,
    createProduct accept_png any_product any_variant
      (upload_request 0 {[ "name" := VStr "pot" ]} None None) shop
    = (Success st (Some v), s1)) as (st & v & s1 & Hrun)
    by (eexists _, _, _; vm_compute; reflexivity).
  exists st, v, s1. split; [exact Hrun|].
  by eapply createProduct_then_delete.
Defined.

(** X17 on the second page of the three products, two to a page: it holds
    one product, and there are two pages. *)
Lemma getProducts_page_witness :
  ∃ l, getProducts like_ascii String.leb by_key (paged 2 2) shop = Success 200 l
    ∧ Z.of_nat (length (data l)) = Z.min 2 (Z.max 0 (total_data l - 2))
    ∧ ∃ pages,
        pagination_info l
        = Some {| total_page := pages; current_page := 2; per_page := 2 |}
        ∧ (pages - 1) * 2 < total_data l ≤ pages * 2.
Proof.
  assert (∃ l, getProducts like_ascii String.leb by_key (paged 2 2) shop = Success 200 l) as [l Hrun]
    by (eexists; vm_compute; reflexivity).
  exists l. split; [exact Hrun|].
  by apply (getProducts_page like_ascii String.leb by_key (paged 2 2) shop 200 l).
Defined.

(** X18 on the same page, of a listing by key, whose keys are distinct:
    it is the third product of the whole listing. *)
Lemma getProducts_page_of_whole_witness :
  ∃ l, getProducts like_ascii String.leb by_key (paged 2 2) shop = Success 200 l
    ∧ ∃ whole,
        getProducts like_ascii String.leb by_key (unpaginated (paged 2 2)) shop
        = Success 200 whole
        ∧ data l = take 2 (drop 2 (data whole))
        ∧ total_data whole = total_data l.
Proof.
  assert (∃ l, getProducts like_ascii String.leb by_key (paged 2 2) shop = Success 200 l)
    as [l Hrun] by (eexists; vm_compute; reflexivity).
  exists l. split; [exact Hrun|].
  destruct (getProducts_page_of_whole like_ascii String.leb String.leb_total
                  string_leb_trans by_key (paged 2 2) shop 200 l)
    as (whole & Hwhole & _ & Htotal & _ & _ & Hdata); [done..|].
  exists whole. split; [exact Hwhole|]. split; [|exact Htotal].
  apply Hdata. split.
  - intros p _. by exists (p_id p).
  - intros a b Ha Hb [= Hkey]. revert Hkey.
    repeat (apply elem_of_cons in Ha as [->|Ha]);
      repeat (apply elem_of_cons in Hb as [->|Hb]);
      try (by apply not_elem_of_nil in Ha);
      try (by apply not_elem_of_nil in Hb);
      done.
Defined.

(** X19 on the whole listing of the shop. *)
Lemma getProducts_unpaginated_complete_witness :
  ∃ l, getProducts like_ascii String.leb by_key (unpaginated (listing None None None)) shop = Success 200 l
    ∧ data l ≡ₚ view shop <$> Products shop
    ∧ total_data l = 3.
Proof.
  assert (∃ l, getProducts like_ascii String.leb by_key (unpaginated (listing None None None)) shop
               = Success 200 l) as [l Hrun]
    by (eexists; vm_compute; reflexivity).
  exists l. split; [exact Hrun|].
  destruct (getProducts_unpaginated_complete like_ascii String.leb by_key
              (unpaginated (listing None None None)) shop 200 l)
    as (rows & Hscope & Hperm & Htotal); [done..|].
  cbn in Hscope. subst rows. split; [exact Hperm|exact Htotal].
Defined.

(** X20 on the listing of the gallery, whose products 1 and 2 have an
    [image] column. *)
Lemma responses_exclude_image_witness :
  ∃ l, getProducts like_ascii String.leb by_key (listing None None None) gallery = Success 200 l
    ∧ ∀ v, v ∈ data l → p_cols (pv_product v) !! "image" = None.
Proof.
  assert (∃ l, getProducts like_ascii String.leb by_key (listing None None None) gallery = Success 200 l)
    as [l Hrun] by (eexists; vm_compute; reflexivity).
  exists l. split; [exact Hrun|].
  intros v Hv.
  destruct (responses_exclude_image accept_png any_product any_variant
              like_ascii String.leb by_key gallery v) as [H _]; [|exact H].
  left. by exists (listing None None None), 200, l.
Defined.

(** X21 on the listing, without [sortBy] and [orderBy], of the products
    last written at the times 50, 70 and 60: by [updatedAt], descending,
    so product 2 comes first and product 1 last; and on the listing of
    the shop by name, ascending, under the collation that compares texts
    character by character: cup, mug, tea. *)
Lemma getProducts_column_order_witness :
  (∃ l, getProducts like_ascii String.leb by_key (listing None None None) aged
        = Success 200 l
     ∧ StronglySorted (by_column String.leb "updatedAt" DESC) (data l)
     ∧ listed_ids (Success 200 l) = Some [2; 3; 1]
     ∧ (view_column "updatedAt" <$> data l)
       = [Some (VNum 70); Some (VNum 60); Some (VNum 50)])
  ∧ (∃ l, getProducts like_ascii String.leb by_key
            (listing (Some "name") (Some "ASC") None) shop
          = Success 200 l
       ∧ StronglySorted (by_column String.leb "name" ASC) (data l)
       ∧ listed_ids (Success 200 l) = Some [3; 2; 1]).
Proof.
  split.
  - eexists. split; [vm_compute; reflexivity|].
    split; [|split; vm_compute; reflexivity].
    lazymatch goal with
    | |- StronglySorted _ (data ?l) =>
        destruct (getProducts_column_order like_ascii String.leb
                    String.leb_total string_leb_trans by_key
                    (listing None None None) aged 200 l "updatedAt")
          as (d & Hd & _ & Hsorted & _);
          [done|done|done|vm_compute; reflexivity|]
    end.
    vm_compute in Hd. injection Hd as <-. exact Hsorted.
  - eexists. split; [vm_compute; reflexivity|].
    split; [|vm_compute; reflexivity].
    lazymatch goal with
    | |- StronglySorted _ (data ?l) =>
        destruct (getProducts_column_order like_ascii String.leb
                    String.leb_total string_leb_trans by_key
                    (listing (Some "name") (Some "ASC") None) shop 200 l "name")
          as (d & Hd & _ & Hsorted & _);
          [done|done|done|vm_compute; reflexivity|]
    end.
    vm_compute in Hd. injection Hd as <-. exact Hsorted.
Defined.

(** X22 on a create that names the category 999: when the check throws,
    the callback has inserted the product row; the response leaves every
    table as it was. *)
Lemma createProduct_failure_rolls_back_witness :
  ∃ e s',
    createProduct accept_png any_product any_variant
      (upload_request 0 {[ "name" := VStr "pot" ]} (Some [999]) None) shop
    = (Failure e, s')
    ∧ tables s' = tables shop
    ∧ length (Products (createProduct_callback accept_png any_product any_variant
                 (upload_request 0 {[ "name" := VStr "pot" ]} (Some [999]) None)
                 shop).2)
      = 4%nat.
Proof.
  assert (∃ e s',
    createProduct accept_png any_product any_variant
      (upload_request 0 {[ "name" := VStr "pot" ]} (Some [999]) None) shop
    = (Failure e, s')) as (e & s' & Hrun)
    by (eexists _, _; vm_compute; reflexivity).
  exists e, s'. split; [exact Hrun|]. split.
  - by eapply createProduct_failure_rolls_back.
  - vm_compute. reflexivity.
Defined.

(** X23 on an edit of product 1, which exists, whose body holds only the
    category list [2]. *)
Lemma editProductById_without_attribute_witness :
  (1 ∈ p_id <$> Products shop)
  ∧ editProductById accept_png any_product any_variant
      (edit_request 1 ∅ (Some [2]) None) shop
    = (Failure (ResponseError "product not found" 404), shop).
Proof.
  split; [compute_done|].
  apply (editProductById_without_attribute accept_png any_product any_variant
           (edit_request 1 ∅ (Some [2]) None) shop);
    [reflexivity|compute_done|reflexivity|].
  intros k _ _. apply lookup_empty.
Defined.

(** X24 on an edit of product 1 that lists its variant B by id alone. *)
Lemma editProductById_bare_variant_witness :
  (2 ∈ v_id <$> Variants shop)
  ∧ (∃ e s',
       editProductById accept_png any_product any_variant
         (edit_request 1 {[ "name" := VStr "tea" ]} None (Some [bare 2])) shop
       = (Failure e, s')
       ∧ tables s' = tables shop)
  ∧ update_existed any_variant (bare 2) shop
    = (inl (ResponseError "invalid variant id" 400), shop).
Proof.
  split; [compute_done|].
  destruct (editProductById_bare_variant accept_png any_product any_variant
              (edit_request 1 {[ "name" := VStr "tea" ]} None (Some [bare 2]))
              shop [bare 2] (bare 2) 2)
    as [Hfails Hround]; [reflexivity|by left|reflexivity|done|reflexivity..|].
  split; [exact Hfails|]. by apply Hround.
Defined.
